(** * The transform cache of playwright-test ([transform.ts])

    A shallow embedding of [packages/playwright-test/src/transform.ts]:
    the cache-key engine ([calculateCachePath]), the per-directory
    configuration resolver ([validateTsConfig],
    [loadAndValidateTsconfigForFile]), the orchestrator ([transformHook])
    and the call-site capture wrapper ([wrapFunctionWithLocation]).

    JavaScript strings are embedded as [string] (a string is identified with
    its UTF-8 bytes, which is what [Hash.update] digests; on ASCII text
    the indices and lengths are those of JavaScript); process-wide
    mutable state (the environment, the file system, the two module-level
    [Map]s and the two [Error] globals) is threaded explicitly through a
    record [World]; an exception is a result [Thrown].  The host is POSIX
    ([path.sep] is "/"). *)

From Stdlib Require Import ZArith Ascii.
From stdpp Require Import base tactics option list gmap strings.

Local Open Scope Z_scope.

(** ** JavaScript string primitives *)

Module Js.

(** [s.length] *)
Definition len (s : string) : nat := String.length s.

(** Truthiness of a string: every string but the empty one. *)
Definition truthy (s : string) : bool :=
  match s with EmptyString => false | String _ _ => true end.

(** Truthiness of [string | undefined]. *)
Definition truthy_opt (o : option string) : bool :=
  match o with Some s => truthy s | None => false end.

Fixpoint drop (n : nat) (s : string) : string :=
  match n, s with
  | O, _ => s
  | S n', String _ s' => drop n' s'
  | S _, EmptyString => EmptyString
  end.

Fixpoint take (n : nat) (s : string) : string :=
  match n, s with
  | O, _ => EmptyString
  | S n', String c s' => String c (take n' s')
  | S _, EmptyString => EmptyString
  end.

(** [s.substring(a)]; a negative [a] counts as 0, which is what the
    truncated subtraction of [nat] gives for [key.length - 1]. *)
Definition substring_from (a : nat) (s : string) : string := drop a s.

(** [s.substring(0, b)] *)
Definition substring_to (b : nat) (s : string) : string := take b s.

(** An index argument of [slice]: a negative index counts from the end,
    and the result is clamped to [0 .. s.length]. *)
Definition clampIndex (s : string) (i : Z) : nat :=
  let n := Z.of_nat (len s) in
  Z.to_nat (if i <? 0 then Z.max (n + i) 0 else Z.min i n).

(** [s.slice(a, b)] *)
Definition slice (a b : Z) (s : string) : string :=
  take (clampIndex s b - clampIndex s a) (drop (clampIndex s a) s).

(** [s[i]] / [s.charCodeAt(i)]: absent outside [0 .. s.length - 1]. *)
Definition charAt (s : string) (i : Z) : option ascii :=
  if i <? 0 then None else String.get (Z.to_nat i) s.

Definition isCharAt (s : string) (i : Z) (c : ascii) : bool :=
  match charAt s i with Some a => Ascii.eqb a c | None => false end.

(** [s.startsWith(p)] *)
Fixpoint startsWith (s p : string) : bool :=
  match p, s with
  | EmptyString, _ => true
  | String a p', String b s' => if Ascii.eqb a b then startsWith s' p' else false
  | String _ _, EmptyString => false
  end.

(** [s.endsWith(p)] *)
Definition endsWith (s p : string) : bool :=
  startsWith (String.rev s) (String.rev p).

(** [s.replace(/c/g, by)] for a one-character pattern [c]. *)
Fixpoint replaceAllChar (c : ascii) (by_ : string) (s : string) : string :=
  match s with
  | EmptyString => EmptyString
  | String a s' =>
      if Ascii.eqb a c then by_ +:+ replaceAllChar c by_ s'
      else String a (replaceAllChar c by_ s')
  end.

(** [s.replace(c, by)] for a one-character string pattern [c]: only the
    first occurrence is replaced. *)
Fixpoint replaceFirstChar (c : ascii) (by_ : string) (s : string) : string :=
  match s with
  | EmptyString => EmptyString
  | String a s' =>
      if Ascii.eqb a c then by_ +:+ s'
      else String a (replaceFirstChar c by_ s')
  end.

Definition code (c : ascii) : Z := Z.of_N (N_of_ascii c).

Definition isDigit (c : ascii) : bool := (48 <=? code c) && (code c <=? 57).
Definition isUpper (c : ascii) : bool := (65 <=? code c) && (code c <=? 90).
Definition isLower (c : ascii) : bool := (97 <=? code c) && (code c <=? 122).

(** The class [\w] of a regular expression without the [u] and [i]
    flags: [[A-Za-z0-9_]]. *)
Definition isWordChar (c : ascii) : bool :=
  isUpper c || isLower c || isDigit c || Ascii.eqb c "_".

(** [s.replace(/\W/g, '')] *)
Fixpoint stripNonWord (s : string) : string :=
  match s with
  | EmptyString => EmptyString
  | String a s' =>
      if isWordChar a then String a (stripNonWord s') else stripNonWord s'
  end.

Fixpoint all (p : ascii -> bool) (s : string) : bool :=
  match s with
  | EmptyString => true
  | String a s' => p a && all p s'
  end.

(** [arr.find(p)] *)
Fixpoint find {A} (p : A -> bool) (l : list A) : option A :=
  match l with
  | [] => None
  | x :: l' => if p x then Some x else find p l'
  end.

Fixpoint digits (fuel : nat) (n : Z) (acc : string) : string :=
  match fuel with
  | O => acc
  | S fuel' =>
      let acc' := String (ascii_of_N (Z.to_N (48 + n mod 10))) acc in
      if n / 10 =? 0 then acc' else digits fuel' (n / 10) acc'
  end.

(** [String(n)] for a non-negative integer [n]. *)
Definition String_ (n : Z) : string := digits (S (Z.to_nat n)) n "".

End Js.

(** ** [crypto.createHash('sha1')]: SHA-1 (FIPS 180-4) over bytes,
       32-bit words as [Z] with the wrap-around written out *)

Module Sha1.

Definition mask32 (x : Z) : Z := x mod 2 ^ 32.
Definition add32 (x y : Z) : Z := mask32 (x + y).
Definition rotl (n x : Z) : Z :=
  mask32 (Z.lor (Z.shiftl x n) (Z.shiftr x (32 - n))).
Definition not32 (x : Z) : Z := Z.lxor x 0xFFFFFFFF.

Definition bytes (s : string) : list Z :=
  map Js.code (String.list_ascii_of_string s).

(** big-endian bytes of the 64-bit message length in bits *)
Definition be64 (n : Z) : list Z :=
  map (fun i => Z.land (Z.shiftr n (8 * i)) 255) [7; 6; 5; 4; 3; 2; 1; 0].

Definition pad (m : list Z) : list Z :=
  let l := Z.of_nat (length m) in
  m ++ [128] ++ replicate (Z.to_nat ((55 - l) mod 64)) 0 ++ be64 (8 * l).

Definition be32 (bs : list Z) : Z :=
  fold_left (fun acc b => acc * 256 + b) bs 0.

Fixpoint chunks (size n : nat) (bs : list Z) : list (list Z) :=
  match n with
  | O => []
  | S n' => take size bs :: chunks size n' (drop size bs)
  end.

Definition words (block : list Z) : list Z := map be32 (chunks 4 16 block).

(** The message schedule, newest word first. *)
Fixpoint schedule (n : nat) (rw : list Z) : list Z :=
  match n with
  | O => rw
  | S n' =>
      let x := Z.lxor (Z.lxor (nth 2 rw 0) (nth 7 rw 0))
                      (Z.lxor (nth 13 rw 0) (nth 15 rw 0)) in
      schedule n' (rotl 1 x :: rw)
  end.

Definition f (t b c d : Z) : Z :=
  if t <? 20 then Z.lor (Z.land b c) (Z.land (not32 b) d)
  else if t <? 40 then Z.lxor (Z.lxor b c) d
  else if t <? 60 then Z.lor (Z.lor (Z.land b c) (Z.land b d)) (Z.land c d)
  else Z.lxor (Z.lxor b c) d.

Definition k (t : Z) : Z :=
  if t <? 20 then 0x5A827999
  else if t <? 40 then 0x6ED9EBA1
  else if t <? 60 then 0x8F1BBCDC
  else 0xCA62C1D6.

Record state := State { ha : Z; hb : Z; hc : Z; hd : Z; he : Z }.

Definition init : state :=
  State 0x67452301 0xEFCDAB89 0x98BADCFE 0x10325476 0xC3D2E1F0.

Definition round (st : state) (tw : Z * Z) : state :=
  let '(t, w) := tw in
  let '(State a b c d e) := st in
  let temp := add32 (add32 (add32 (add32 (rotl 5 a) (f t b c d)) e) (k t)) w in
  State temp a (rotl 30 b) c d.

Definition compress (h : state) (block : list Z) : state :=
  let w := rev (schedule 64 (rev (words block))) in
  let tw := zip (map Z.of_nat (seq 0 80)) w in
  let '(State a b c d e) := fold_left round tw h in
  State (add32 (ha h) a) (add32 (hb h) b) (add32 (hc h) c)
        (add32 (hd h) d) (add32 (he h) e).

Definition hexDigit (d : Z) : ascii :=
  ascii_of_N (Z.to_N (if d <? 10 then 48 + d else 87 + d)).

Definition hex32 (x : Z) : string :=
  String.string_of_list_ascii
    (map (fun i => hexDigit (Z.land (Z.shiftr x (4 * i)) 15)) [7; 6; 5; 4; 3; 2; 1; 0]).

(** [createHash('sha1').update(m).digest('hex')] *)
Definition digest_hex (m : string) : string :=
  let p := pad (bytes m) in
  let '(State a b c d e) :=
    fold_left compress (chunks 64 (length p / 64) p) init in
  hex32 a +:+ hex32 b +:+ hex32 c +:+ hex32 d +:+ hex32 e.

End Sha1.

(** ** Node's [path] module on a POSIX host ([path.posix])

    [dirname], [extname] and [basename] follow the index loops of Node's
    [lib/path.js], with [-1] as the "unset" index; [normalizeString] is
    given on the list of "/"-separated segments. *)

Module NodePath.

Definition sep : string := "/".
Definition slash : ascii := "/"%char.
Definition dot : ascii := "."%char.

(** [s.split('/')] *)
Fixpoint split (s : string) : list string :=
  match s with
  | EmptyString => [EmptyString]
  | String c s' =>
      if Ascii.eqb c slash then EmptyString :: split s'
      else match split s' with
           | x :: xs => String c x :: xs
           | [] => [String c EmptyString]
           end
  end.

(** One segment of [normalizeString]; [stack] holds the segments kept so
    far, the last one first. *)
Definition normStep (allowAboveRoot : bool) (stack : list string) (seg : string)
  : list string :=
  if String.eqb seg "" || String.eqb seg "." then stack
  else if String.eqb seg ".." then
    match stack with
    | top :: rest =>
        if String.eqb top ".." then (if allowAboveRoot then ".." :: stack else stack)
        else rest
    | [] => if allowAboveRoot then [".."] else []
    end
  else seg :: stack.

Definition normalizeString (path : string) (allowAboveRoot : bool) : string :=
  String.concat "/" (rev (fold_left (normStep allowAboveRoot) (split path) [])).

Definition isAbsolute (path : string) : bool := Js.isCharAt path 0 slash.

(** [path.normalize(p)] *)
Definition normalize (path : string) : string :=
  if (Js.len path =? 0)%nat then "."
  else
    let absolute := isAbsolute path in
    let trailingSeparator := Js.isCharAt path (Z.of_nat (Js.len path) - 1) slash in
    let p := normalizeString path (negb absolute) in
    if (Js.len p =? 0)%nat then
      (if absolute then "/" else if trailingSeparator then "./" else ".")
    else
      let p := if trailingSeparator then p +:+ "/" else p in
      if absolute then "/" +:+ p else p.

(** [path.join(...args)] *)
Definition join (args : list string) : string :=
  match filter (fun a => Js.truthy a = true) args with
  | [] => "."
  | parts => normalize (String.concat "/" parts)
  end.

(** The right-to-left loop of [path.resolve]: [args] is given last
    argument first and ends with [process.cwd()]. *)
Fixpoint resolveLoop (argsRev : list string) (resolvedPath : string) : string * bool :=
  match argsRev with
  | [] => (resolvedPath, false)
  | p :: rest =>
      if (Js.len p =? 0)%nat then resolveLoop rest resolvedPath
      else
        let resolvedPath := p +:+ "/" +:+ resolvedPath in
        if isAbsolute p then (resolvedPath, true) else resolveLoop rest resolvedPath
  end.

(** [path.resolve(...args)] in a process whose working directory is [cwd]. *)
Definition resolve (cwd : string) (args : list string) : string :=
  let '(resolvedPath, resolvedAbsolute) := resolveLoop (rev args ++ [cwd]) "" in
  let p := normalizeString resolvedPath (negb resolvedAbsolute) in
  if resolvedAbsolute then "/" +:+ p
  else if (0 <? Js.len p)%nat then p else ".".

(** The loop [for (i = path.length - 1; i >= 1; --i)] of [dirname]:
    [n] is the current [i]; the result is [end]. *)
Fixpoint dirnameLoop (path : string) (n : nat) (matchedSlash : bool) : Z :=
  match n with
  | O => -1
  | S n' =>
      if Js.isCharAt path (Z.of_nat n) slash then
        if matchedSlash then dirnameLoop path n' matchedSlash else Z.of_nat n
      else dirnameLoop path n' false
  end.

(** [path.dirname(p)] *)
Definition dirname (path : string) : string :=
  if (Js.len path =? 0)%nat then "."
  else
    let hasRoot := isAbsolute path in
    let end_ := dirnameLoop path (Js.len path - 1) true in
    if end_ =? -1 then (if hasRoot then "/" else ".")
    else if hasRoot && (end_ =? 1) then "//"
    else Js.slice 0 end_ path.

Record extState := ExtState {
  startDot : Z; startPart : Z; extEnd : Z; extMatchedSlash : bool; preDotState : Z }.

(** The loop [for (i = path.length - 1; i >= 0; --i)] of [extname]:
    [n] is [i + 1]. *)
Fixpoint extnameLoop (path : string) (n : nat) (st : extState) : extState :=
  match n with
  | O => st
  | S n' =>
      let i := Z.of_nat n' in
      let '(ExtState sd sp e ms pds) := st in
      if Js.isCharAt path i slash then
        if ms then extnameLoop path n' st
        else ExtState sd (i + 1) e ms pds
      else
        let ms := if e =? -1 then false else ms in
        let e := if e =? -1 then i + 1 else e in
        if Js.isCharAt path i dot then
          if sd =? -1 then extnameLoop path n' (ExtState i sp e ms pds)
          else if negb (pds =? 1) then extnameLoop path n' (ExtState sd sp e ms 1)
          else extnameLoop path n' (ExtState sd sp e ms pds)
        else if negb (sd =? -1) then extnameLoop path n' (ExtState sd sp e ms (-1))
        else extnameLoop path n' (ExtState sd sp e ms pds)
  end.

(** [path.extname(p)] *)
Definition extname (path : string) : string :=
  let '(ExtState sd sp e _ pds) :=
    extnameLoop path (Js.len path) (ExtState (-1) 0 (-1) true 0) in
  if (sd =? -1) || (e =? -1) || (pds =? 0)
     || ((pds =? 1) && (sd =? e - 1) && (sd =? sp + 1))
  then ""
  else Js.slice sd e path.

Record baseState := BaseState {
  start : Z; baseEnd : Z; baseMatchedSlash : bool; extIdx : Z; firstNonSlashEnd : Z }.

(** The loop of [basename] when a suffix is given. *)
Fixpoint basenameSuffixLoop (path suffix : string) (n : nat) (st : baseState)
  : baseState :=
  match n with
  | O => st
  | S n' =>
      let i := Z.of_nat n' in
      let '(BaseState s e ms x f) := st in
      if Js.isCharAt path i slash then
        if ms then basenameSuffixLoop path suffix n' st
        else BaseState (i + 1) e ms x f
      else
        let ms := if f =? -1 then false else ms in
        let f := if f =? -1 then i + 1 else f in
        if 0 <=? x then
          if decide (Js.charAt path i = Js.charAt suffix x) then
            if x - 1 =? -1 then basenameSuffixLoop path suffix n' (BaseState s i ms (x - 1) f)
            else basenameSuffixLoop path suffix n' (BaseState s e ms (x - 1) f)
          else basenameSuffixLoop path suffix n' (BaseState s f ms (-1) f)
        else basenameSuffixLoop path suffix n' (BaseState s e ms x f)
  end.

(** The loop of [basename] without a usable suffix; the state is
    [(start, end, matchedSlash)]. *)
Fixpoint basenameLoop (path : string) (n : nat) (st : Z * Z * bool) : Z * Z * bool :=
  match n with
  | O => st
  | S n' =>
      let i := Z.of_nat n' in
      let '(s, e, ms) := st in
      if Js.isCharAt path i slash then
        if ms then basenameLoop path n' st else (i + 1, e, ms)
      else if e =? -1 then basenameLoop path n' (s, i + 1, false)
      else basenameLoop path n' st
  end.

(** [path.basename(p, suffix)] *)
Definition basename (path suffix : string) : string :=
  if (0 <? Js.len suffix)%nat && (Js.len suffix <=? Js.len path)%nat then
    if String.eqb suffix path then ""
    else
      let '(BaseState s e _ _ f) :=
        basenameSuffixLoop path suffix (Js.len path)
          (BaseState 0 (-1) true (Z.of_nat (Js.len suffix) - 1) (-1)) in
      let e := if s =? e then f
               else if e =? -1 then Z.of_nat (Js.len path) else e in
      Js.slice s e path
  else
    let '(s, e, _) := basenameLoop path (Js.len path) (0, -1, true) in
    if e =? -1 then "" else Js.slice s e path.

End NodePath.

(** ** Data of [transform.ts] *)

(** A JavaScript exception. *)
Inductive Exn :=
| TypeError                 (* a property read on [undefined] *)
| HostError (msg : string). (* raised by a collaborator (Babel, [url], the loader) *)

(** The result of running code that may throw. *)
Inductive Outcome (A : Type) :=
| Returned (a : A)
| Thrown (e : Exn).
Arguments Returned {A} a.
Arguments Thrown {A} e.

(** [TsConfigLoaderResult] of [third_party/tsconfig-loader].  An object
    used as a dictionary is the list of its own entries in key order. *)
Record TsConfigLoaderResult := {
  tsConfigPath : option string;
  baseUrl : option string;
  paths : option (list (string * list string));
}.

(** [ParsedTsConfigData]; a value of [singlePath] is [values[0]], which
    is [undefined] for an empty array of targets. *)
Record ParsedTsConfigData := {
  absoluteBaseUrl : string;
  singlePath : list (string * option string);
  hash : string;
  alias : list (string * (list string -> Outcome string));
}.

(** A plugin entry handed to Babel. *)
Inductive Plugin :=
| PluginPath (name : string)
| ModuleResolver (root : list string)
                 (aliases : list (string * (list string -> Outcome string)))
                 (loglevel : string).

(** What [babel.transformFileSync] is called with besides the file name
    (the other options of the call are constants). *)
Record TransformOptions := {
  presets : list string;
  plugins : list Plugin;
}.

(** [BabelFileResult]: the generated code and the source map, the latter
    identified with its [JSON.stringify] rendering. *)
Record BabelFileResult := {
  code : option string;
  map_ : option string;
}.

(** [NodeJS.CallSite], as far as the wrapper reads it. *)
Record CallSite := {
  getFileName : option string;
  getLineNumber : option Z;
  getColumnNumber : option Z;
}.

(** [Location] of [./types]. *)
Record Location := {
  file : option string;
  line : option Z;
  column : option Z;
}.

(** The values [Error.prepareStackTrace] takes: the arrow function that
    [wrapFunctionWithLocation] installs, or a function of other code. *)
Inductive Formatter :=
| LocationFormatter
| ForeignFormatter (id : string).

(** What [obj.stack] holds after [Error.captureStackTrace(obj)]: the
    location built by the wrapper's formatter, or a value formatted by
    other code ([formattedBy] names the foreign formatter, if any). *)
Inductive StackValue :=
| StackLocation (l : Location)
| StackText (formattedBy : option string).

(** Calls to collaborators, logged in order (ghost state). *)
Inductive Event :=
| EvDiscover (cwd : string)                 (* tsConfigLoader({ cwd }) *)
| EvDigest (cachePath : string)             (* calculateCachePath: the digest *)
| EvRegister (source mapPath : string)      (* sourceMaps.set *)
| EvExists (path : string)                  (* fs.existsSync *)
| EvRead (path : string)                    (* fs.readFileSync *)
| EvEngine (filename : string) (options : TransformOptions)
| EvMkdir (path : string)                   (* fs.mkdirSync(_, { recursive }) *)
| EvWrite (path : string).                  (* fs.writeFileSync *)

(** Process-wide state.  The file system maps the path of a regular file
    to its content; directories are not tracked. *)
Record World := {
  env : gmap string string;                               (* process.env *)
  files : gmap string string;                             (* fs *)
  cacheDir : string;                                      (* const, fixed at load *)
  sourceMaps : gmap string string;
  cachedTSConfigs : gmap string (option ParsedTsConfigData);
  prepareStackTrace : option Formatter;                   (* Error.prepareStackTrace *)
  stackTraceLimit : Z;                                    (* Error.stackTraceLimit *)
  trace : list Event;
}.

(** The collaborators of the module.  [tsConfigLoader] walks the
    directories above [cwd] and reads and parses the configuration it
    finds; like Babel and [url.fileURLToPath] it may throw. *)
Record Host := {
  processCwd : string;                                    (* process.cwd() *)
  tmpdir : string;                                        (* os.tmpdir() *)
  tsConfigLoader :
    gmap string string -> gmap string string -> string -> Outcome TsConfigLoaderResult;
  transformFileSync :
    gmap string string -> gmap string string -> string -> TransformOptions ->
    Outcome BabelFileResult;
  installSourceMapSupport : option Formatter -> option Formatter;
  wrapCallSite : (string -> option (string * string)) -> CallSite -> CallSite;
  fileURLToPath : string -> Outcome string;
}.

(** ** Field updates *)

Definition with_env (f : gmap string string -> gmap string string) (w : World) : World :=
  {| env := f (env w); files := files w; cacheDir := cacheDir w;
     sourceMaps := sourceMaps w; cachedTSConfigs := cachedTSConfigs w;
     prepareStackTrace := prepareStackTrace w; stackTraceLimit := stackTraceLimit w;
     trace := trace w |}.

Definition with_files (f : gmap string string -> gmap string string) (w : World) : World :=
  {| env := env w; files := f (files w); cacheDir := cacheDir w;
     sourceMaps := sourceMaps w; cachedTSConfigs := cachedTSConfigs w;
     prepareStackTrace := prepareStackTrace w; stackTraceLimit := stackTraceLimit w;
     trace := trace w |}.

Definition with_sourceMaps (f : gmap string string -> gmap string string) (w : World) : World :=
  {| env := env w; files := files w; cacheDir := cacheDir w;
     sourceMaps := f (sourceMaps w); cachedTSConfigs := cachedTSConfigs w;
     prepareStackTrace := prepareStackTrace w; stackTraceLimit := stackTraceLimit w;
     trace := trace w |}.

Definition with_cachedTSConfigs
    (f : gmap string (option ParsedTsConfigData) -> gmap string (option ParsedTsConfigData))
    (w : World) : World :=
  {| env := env w; files := files w; cacheDir := cacheDir w;
     sourceMaps := sourceMaps w; cachedTSConfigs := f (cachedTSConfigs w);
     prepareStackTrace := prepareStackTrace w; stackTraceLimit := stackTraceLimit w;
     trace := trace w |}.

Definition with_prepareStackTrace (p : option Formatter) (w : World) : World :=
  {| env := env w; files := files w; cacheDir := cacheDir w;
     sourceMaps := sourceMaps w; cachedTSConfigs := cachedTSConfigs w;
     prepareStackTrace := p; stackTraceLimit := stackTraceLimit w;
     trace := trace w |}.

Definition with_stackTraceLimit (n : Z) (w : World) : World :=
  {| env := env w; files := files w; cacheDir := cacheDir w;
     sourceMaps := sourceMaps w; cachedTSConfigs := cachedTSConfigs w;
     prepareStackTrace := prepareStackTrace w; stackTraceLimit := n;
     trace := trace w |}.

(** The log grows at its end. *)
Definition log (e : Event) (w : World) : World :=
  {| env := env w; files := files w; cacheDir := cacheDir w;
     sourceMaps := sourceMaps w; cachedTSConfigs := cachedTSConfigs w;
     prepareStackTrace := prepareStackTrace w; stackTraceLimit := stackTraceLimit w;
     trace := trace w ++ [e] |}.

(** ** The monad of code that reads and writes the world and may throw *)

Definition M (A : Type) : Type := World -> Outcome A * World.

Definition ret {A} (a : A) : M A := fun w => (Returned a, w).

Definition bind {A B} (m : M A) (k : A -> M B) : M B :=
  fun w =>
    match m w with
    | (Returned a, w') => k a w'
    | (Thrown e, w') => (Thrown e, w')
    end.

Definition throw {A} (e : Exn) : M A := fun w => (Thrown e, w).

(** Lifts a computation that may throw but leaves the world alone. *)
Definition lift {A} (o : Outcome A) : M A := fun w => (o, w).

Definition gets {A} (f : World -> A) : M A := fun w => (Returned (f w), w).
Definition modify (f : World -> World) : M unit := fun w => (Returned tt, f w).

Notation "x <- m ;; k" := (bind m (fun x => k))
  (at level 100, m at next level, right associativity, only parsing).
Notation "m ;;; k" := (bind m (fun _ => k))
  (at level 100, right associativity, only parsing).

(** [process.env[name]] *)
Definition getenv (name : string) : M (option string) :=
  gets (fun w => env w !! name).

(** [fs.existsSync(path)] *)
Definition existsSync (path : string) : M bool :=
  fun w => (Returned (bool_decide (is_Some (files w !! path))), log (EvExists path) w).

(** [fs.readFileSync(path, 'utf8')] *)
Definition readFileSync (path : string) : M string :=
  fun w =>
    match files w !! path with
    | Some content => (Returned content, log (EvRead path) w)
    | None => (Thrown (HostError "ENOENT"), log (EvRead path) w)
    end.

(** [fs.writeFileSync(path, data, 'utf8')] *)
Definition writeFileSync (path data : string) : M unit :=
  modify (fun w => with_files (insert path data) (log (EvWrite path) w)).

(** [fs.mkdirSync(path, { recursive: true })] *)
Definition mkdirSync (path : string) : M unit := modify (log (EvMkdir path)).

(** ** [JSON.stringify] of the fingerprint object *)

Module Json.

Definition dquote : ascii := ascii_of_N 34.
Definition backslash : ascii := ascii_of_N 92.

Definition escapeChar (c : ascii) : string :=
  let n := Js.code c in
  if Ascii.eqb c dquote then String backslash (String dquote "")
  else if Ascii.eqb c backslash then String backslash (String backslash "")
  else if n =? 8 then String backslash "b"
  else if n =? 9 then String backslash "t"
  else if n =? 10 then String backslash "n"
  else if n =? 12 then String backslash "f"
  else if n =? 13 then String backslash "r"
  else if n <? 32 then
    String backslash "u00" +:+ String (Sha1.hexDigit (n / 16)) (String (Sha1.hexDigit (n mod 16)) "")
  else String c "".

Fixpoint escape (s : string) : string :=
  match s with
  | EmptyString => EmptyString
  | String c s' => escapeChar c +:+ escape s'
  end.

(** [JSON.stringify(s)] for a string [s] *)
Definition quote (s : string) : string :=
  String dquote (escape s +:+ String dquote "").

(** The members of an object whose values are strings; a member whose
    value is [undefined] is left out. *)
Fixpoint members (o : list (string * option string)) : list string :=
  match o with
  | [] => []
  | (k, Some v) :: o' => (quote k +:+ ":" +:+ quote v) :: members o'
  | (_, None) :: o' => members o'
  end.

Definition object (ms : list string) : string :=
  "{" +:+ String.concat "," ms +:+ "}".

(** [JSON.stringify({ absoluteBaseUrl, singlePath })] *)
Definition stringifyFingerprint (absoluteBaseUrl : string)
    (singlePath : list (string * option string)) : string :=
  object [quote "absoluteBaseUrl" +:+ ":" +:+ quote absoluteBaseUrl;
          quote "singlePath" +:+ ":" +:+ object (members singlePath)].

End Json.

(** ** [crypto.Hash]: [update] appends to the data to be digested *)

Definition createHash : string := "".
Definition update (h data : string) : string := h +:+ data.

(** ** The module [transform.ts] *)

Definition version : Z := 6.
Definition kStackTraceLimit : Z := 15.

(** The digest of [calculateCachePath] (lines 59-65) as a function of the
    five values it is fed, for a hash function [digest]. *)
Definition computeKey (digest : string -> string)
    (fingerprint : string) (esm : bool) (content filePath : string) (ver : Z) : string :=
  digest
    (update (update (update (update (update createHash
       fingerprint)
       (if esm then "esm" else "no_esm"))
       content)
       filePath)
       (Js.String_ ver)).

(** [tsconfigData?.hash || ''] *)
Definition fingerprintOf (tsconfigData : option ParsedTsConfigData) : string :=
  match tsconfigData with
  | Some d => if Js.truthy (hash d) then hash d else ""
  | None => ""
  end.

(** [hash[i]] as a string; a SHA-1 digest in hex has 40 characters, so the
    two reads of line 67 are in range. *)
Definition charStr (s : string) (i : Z) : string :=
  match Js.charAt s i with Some c => String c "" | None => "" end.

Definition calculateCachePath (cacheDir : string) (env : gmap string string)
    (tsconfigData : option ParsedTsConfigData) (content filePath : string) : string :=
  let hash :=
    computeKey Sha1.digest_hex (fingerprintOf tsconfigData)
      (Js.truthy_opt (env !! "PW_EXPERIMENTAL_TS_ESM")) content filePath version in
  let fileName :=
    Js.stripNonWord (NodePath.basename filePath (NodePath.extname filePath))
    +:+ "_" +:+ hash in
  NodePath.join [cacheDir; charStr hash 0 +:+ charStr hash 1; fileName].

(** [key.match(/^[*./\\]+$/)] *)
Definition isAmbiguousKey (key : string) : bool :=
  Js.truthy key &&
  Js.all (fun c => Ascii.eqb c "*" || Ascii.eqb c "." || Ascii.eqb c "/"
                   || Ascii.eqb c Json.backslash) key.

(** [paths[key]] *)
Fixpoint getProp {A} (o : list (string * A)) (key : string) : option A :=
  match o with
  | [] => None
  | (k, v) :: o' => if String.eqb k key then Some v else getProp o' key
  end.

(** [paths[key].length > 1] *)
Definition hasMultipleTargets (paths : list (string * list string)) (key : string) : bool :=
  match getProp paths key with
  | Some values => (1 <? length values)%nat
  | None => false
  end.

Section Transform.

Context (host : Host).

(** The arrow function of lines 91-99, for one entry [key], [value]
    of [singlePath]; its argument is the array of match groups. *)
Definition aliasResolver (absoluteBaseUrl key : string) (value : option string)
    (groups : list string) : Outcome string :=
  let name := head groups in
  let relative :=
    if Js.endsWith key "/*" then
      match value, name with
      | Some value, Some name =>
          Returned (Js.substring_to (Js.len value - 1) value
                    +:+ Js.substring_from (Js.len key - 1) name)
      | _, _ => Thrown TypeError
      end
    else
      match value with
      | Some value => Returned value
      | None => Thrown TypeError
      end in
  match relative with
  | Returned relative =>
      Returned (NodePath.resolve (processCwd host)
                  [absoluteBaseUrl; Js.replaceAllChar "/" NodePath.sep relative])
  | Thrown e => Thrown e
  end.

Definition validateTsConfig (tsconfig : TsConfigLoaderResult)
  : option ParsedTsConfigData :=
  match tsConfigPath tsconfig, paths tsconfig, baseUrl tsconfig with
  | Some tsConfigPath, Some paths, Some baseUrl =>
      if negb (Js.truthy tsConfigPath) || negb (Js.truthy baseUrl) then None
      else
        (* Path that only contains "*", ".", "/" and "\" is too ambiguous. *)
        let ambiguousPath := Js.find isAmbiguousKey (map fst paths) in
        if Js.truthy_opt ambiguousPath then None
        else
          let multiplePath := Js.find (hasMultipleTargets paths) (map fst paths) in
          if Js.truthy_opt multiplePath then None
          else
            (* Only leave a single path mapping. *)
            let singlePath := map (fun kv => (fst kv, head (snd kv))) paths in
            (* Make 'baseUrl' absolute. *)
            let absoluteBaseUrl :=
              NodePath.resolve (processCwd host)
                [NodePath.dirname tsConfigPath; baseUrl] in
            let hash := Json.stringifyFingerprint absoluteBaseUrl singlePath in
            let alias :=
              map (fun kv =>
                     ("^" +:+ Js.replaceFirstChar "*" ".*" (fst kv),
                      aliasResolver absoluteBaseUrl (fst kv) (snd kv)))
                  singlePath in
            Some {| absoluteBaseUrl := absoluteBaseUrl; singlePath := singlePath;
                    hash := hash; alias := alias |}
  | _, _, _ => None
  end.

(** Lines 110-120.  There is no handler around the call of
    [tsConfigLoader]: when it throws, nothing is memoized and the
    exception leaves the function. *)
Definition loadAndValidateTsconfigForFile (file : string)
  : M (option ParsedTsConfigData) :=
  let cwd := NodePath.dirname file in
  has <- gets (fun w => bool_decide (is_Some (cachedTSConfigs w !! cwd))) ;;
  (if has then ret tt
   else
     loaded <- (fun w => (tsConfigLoader host (env w) (files w) cwd,
                          log (EvDiscover cwd) w)) ;;
     modify (with_cachedTSConfigs (insert cwd (validateTsConfig loaded)))) ;;;
  gets (fun w => mjoin (cachedTSConfigs w !! cwd)).

(** Experimental components support for internal testing. *)
Definition isComponentImport (env : gmap string string) (filename : string) : bool :=
  if negb (Js.truthy_opt (env !! "PW_COMPONENT_TESTING")) then false
  else if Js.endsWith filename ".tsx" && negb (Js.endsWith filename "spec.tsx")
          && negb (Js.endsWith filename "test.tsx") then true
  else if Js.endsWith filename ".jsx" && negb (Js.endsWith filename "spec.jsx")
          && negb (Js.endsWith filename "test.jsx") then true
  else false.

Definition componentStub : string :=
  "module.exports = new Proxy({}, {
    get: (obj, prop) => prop
  });".

Definition basePlugins : list Plugin :=
  [PluginPath "@babel/plugin-proposal-class-properties";
   PluginPath "@babel/plugin-proposal-numeric-separator";
   PluginPath "@babel/plugin-proposal-logical-assignment-operators";
   PluginPath "@babel/plugin-proposal-nullish-coalescing-operator";
   PluginPath "@babel/plugin-proposal-optional-chaining";
   PluginPath "@babel/plugin-syntax-json-strings";
   PluginPath "@babel/plugin-syntax-optional-catch-binding";
   PluginPath "@babel/plugin-syntax-async-generators";
   PluginPath "@babel/plugin-syntax-object-rest-spread";
   PluginPath "@babel/plugin-proposal-export-namespace-from"].

(** The plugin list of lines 138-167. *)
Definition pluginsFor (tsconfigData : option ParsedTsConfigData)
    (componentTesting isModule : bool) : list Plugin :=
  let plugins := basePlugins in
  let plugins :=
    match tsconfigData with
    | Some d => plugins ++ [ModuleResolver ["./"] (alias d) "silent"]
    | None => plugins
    end in
  let plugins :=
    if componentTesting
    then PluginPath "@babel/plugin-transform-react-jsx" :: plugins
    else plugins in
  if negb isModule
  then plugins ++ [PluginPath "@babel/plugin-transform-modules-commonjs";
                   PluginPath "@babel/plugin-proposal-dynamic-import"]
  else plugins.

(** Lines 131-132: the read of the artifact store.  [Some code] is a
    hit, [None] a miss. *)
Definition probeCache (codePath : string) : M (option string) :=
  ignore <- getenv "PW_IGNORE_COMPILE_CACHE" ;;
  if negb (Js.truthy_opt ignore) then
    found <- existsSync codePath ;;
    if found then (stored <- readFileSync codePath ;; ret (Some stored))
    else ret None
  else ret None.

(** Lines 133-189: the transform on a miss, and its persistence. *)
Definition transformAndPersist (tsconfigData : option ParsedTsConfigData)
    (cachePath codePath sourceMapPath filename : string) (isModule : bool) : M string :=
  modify (with_env (insert "BROWSERSLIST_IGNORE_OLD_DATA" "true")) ;;;
  componentTesting <- getenv "PW_COMPONENT_TESTING" ;;
  let options :=
    {| presets := ["@babel/preset-typescript"];
       plugins := pluginsFor tsconfigData (Js.truthy_opt componentTesting) isModule |} in
  result <- (fun w => (transformFileSync host (files w) (env w) filename options,
                       log (EvEngine filename options) w)) ;;
  (if Js.truthy_opt (code result) then
     mkdirSync (NodePath.dirname cachePath) ;;;
     (match map_ result with
      | Some m => writeFileSync sourceMapPath m
      | None => ret tt
      end) ;;;
     writeFileSync codePath (default "" (code result))
   else ret tt) ;;;
  ret (if Js.truthy_opt (code result) then default "" (code result) else "").

(** Lines 126-189 of [transformHook]: what it does for a file that is
    not answered by the component stub. *)
Definition transformAndCache (code filename : string) (isModule : bool) : M string :=
  tsconfigData <- loadAndValidateTsconfigForFile filename ;;
  cachePath <- (fun w =>
    let cachePath := calculateCachePath (cacheDir w) (env w) tsconfigData code filename in
    (Returned cachePath, log (EvDigest cachePath) w)) ;;
  let codePath := cachePath +:+ ".js" in
  let sourceMapPath := cachePath +:+ ".map" in
  modify (fun w => with_sourceMaps (insert filename sourceMapPath)
                     (log (EvRegister filename sourceMapPath) w)) ;;;
  cached <- probeCache codePath ;;
  match cached with
  | Some stored => ret stored
  | None =>
      transformAndPersist tsconfigData cachePath codePath sourceMapPath filename isModule
  end.

Definition transformHook (code filename : string) (isModule : bool) : M string :=
  stub <- gets (fun w => isComponentImport (env w) filename) ;;
  if stub then ret componentStub
  else transformAndCache code filename isModule.

(** [retrieveSourceMap] of lines 45-55; the map is the text of the file
    (before [JSON.parse]). *)
Definition retrieveSourceMap (w : World) (source : string) : option (string * string) :=
  match sourceMaps w !! source with
  | None => None
  | Some sourceMapPath =>
      match files w !! sourceMapPath with
      | None => None
      | Some text => Some (text, source)
      end
  end.

(** The arrow function of lines 199-209.  [stackFrames[1]] is
    [undefined] for a stack of fewer than two frames, and reading a
    property of it throws. *)
Definition locationFormatter (w : World) (stackFrames : list CallSite)
  : Outcome StackValue :=
  match stackFrames !! 1%nat with
  | None => Thrown TypeError
  | Some frame1 =>
      let frame := wrapCallSite host (retrieveSourceMap w) frame1 in
      let fileName := getFileName frame in
      let file :=
        match fileName with
        | Some f =>
            if Js.truthy f && Js.startsWith f "file://"
            then match fileURLToPath host f with
                 | Returned p => Returned (Some p)
                 | Thrown e => Thrown e
                 end
            else Returned fileName
        | None => Returned fileName
        end in
      match file with
      | Returned file =>
          Returned (StackLocation {| file := file; line := getLineNumber frame;
                                     column := getColumnNumber frame |})
      | Thrown e => Thrown e
      end
  end.

(** [Error.captureStackTrace(obj); obj.stack] with the call stack
    [frames] (innermost frame first): the formatter in force is applied
    to the first [Error.stackTraceLimit] frames. *)
Definition captureStackTrace (frames : list CallSite) : M StackValue :=
  fun w =>
    let visible := take (Z.to_nat (stackTraceLimit w)) frames in
    match prepareStackTrace w with
    | Some LocationFormatter => (locationFormatter w visible, w)
    | Some (ForeignFormatter id) => (Returned (StackText (Some id)), w)
    | None => (Returned (StackText None), w)
    end.

(** The function returned by [wrapFunctionWithLocation(func)], called
    with the arguments [args] on the call stack [frames], whose first
    frame is the call of the returned function itself. *)
Definition wrapFunctionWithLocation {A R} (func : StackValue -> A -> M R)
    (frames : list CallSite) (args : A) : M R :=
  oldPrepareStackTrace <- gets prepareStackTrace ;;
  modify (with_prepareStackTrace (Some LocationFormatter)) ;;;
  modify (with_stackTraceLimit 2) ;;;
  location <- captureStackTrace frames ;;
  modify (with_stackTraceLimit kStackTraceLimit) ;;;
  modify (with_prepareStackTrace oldPrepareStackTrace) ;;;
  func location args.

(** The top-level statements of the module (lines 27-56), run when it
    is loaded. *)
Definition loadModule (w : World) : World :=
  {| env := env w;
     files := files w;
     cacheDir :=
       match env w !! "PWTEST_CACHE_DIR" with
       | Some d => if Js.truthy d then d
                   else NodePath.join [tmpdir host; "playwright-transform-cache"]
       | None => NodePath.join [tmpdir host; "playwright-transform-cache"]
       end;
     sourceMaps := ∅;
     cachedTSConfigs := ∅;
     prepareStackTrace := installSourceMapSupport host (prepareStackTrace w);
     stackTraceLimit := kStackTraceLimit;
     trace := [] |}.

End Transform.

(** ** A concrete host, for running the module on examples *)

Definition noTsConfig : TsConfigLoaderResult :=
  {| tsConfigPath := None; baseUrl := None; paths := None |}.

Definition demoHost : Host :=
  {| processCwd := "/work";
     tmpdir := "/tmp";
     tsConfigLoader := fun _ _ _ => Returned noTsConfig;
     transformFileSync := fun files _ filename _ =>
       match files !! filename with
       | Some source =>
           Returned {| code := Some ("/*js*/" +:+ source); map_ := Some "{}" |}
       | None => Thrown (HostError "ENOENT")
       end;
     installSourceMapSupport := fun _ => Some (ForeignFormatter "source-map-support");
     wrapCallSite := fun _ frame => frame;
     fileURLToPath := fun u => Returned (Js.drop 7 u) |}.

(** A process that has not loaded the module yet. *)
Definition freshWorld (env files : gmap string string) (limit : Z) : World :=
  {| env := env; files := files; cacheDir := ""; sourceMaps := ∅;
     cachedTSConfigs := ∅; prepareStackTrace := None; stackTraceLimit := limit;
     trace := [] |}.

Definition frameAt (f : string) (l c : Z) : CallSite :=
  {| getFileName := Some f; getLineNumber := Some l; getColumnNumber := Some c |}.


(** ** Predicates and sample data used by the statements below *)

(** A wrapped function that does not assign the two [Error] globals. *)
Definition leavesErrorGlobals {A R} (func : StackValue -> A -> M R) : Prop :=
  forall loc args w,
    prepareStackTrace (snd (func loc args w)) = prepareStackTrace w /\
    stackTraceLimit (snd (func loc args w)) = stackTraceLimit w.

(** A process in which other code has set the limit to 50 after the module
    was loaded. *)
Definition world50 : World :=
  with_stackTraceLimit 50 (loadModule demoHost (freshWorld ∅ ∅ 10)).

Definition callerFrames : list CallSite :=
  [frameAt "/pw/transform.js" 197 10; frameAt "file:///p/a.spec.ts" 3 1;
   frameAt "/p/runner.js" 40 5].

Definition returnsLocation : StackValue -> unit -> M StackValue := fun loc _ => ret loc.
Definition throwsBoom : StackValue -> unit -> M StackValue :=
  fun _ _ => throw (HostError "boom").


Definition isDiscover (e : Event) : bool :=
  match e with EvDiscover _ => true | _ => false end.



(** What a process does once the module is loaded: it calls the exported
    [transformHook], and other code changes the environment, the file
    system and the [Error] globals. *)
Inductive step (host : Host) : World -> World -> Prop :=
| step_transformHook code filename isModule w :
    step host w (snd (transformHook host code filename isModule w))
| step_env f w : step host w (with_env f w)
| step_files f w : step host w (with_files f w)
| step_prepareStackTrace p w : step host w (with_prepareStackTrace p w)
| step_stackTraceLimit n w : step host w (with_stackTraceLimit n w).




(** [w'] differs from [w] at most in the environment, the files and the
    [Error] globals, and in calls logged that are not discoveries. *)
Definition extends (w w' : World) : Prop :=
  sourceMaps w' = sourceMaps w /\ cachedTSConfigs w' = cachedTSConfigs w /\
  cacheDir w' = cacheDir w /\
  exists rest, trace w' = trace w ++ rest /\ Forall (fun e => isDiscover e = false) rest.

(** Sample processes: a test file is transformed once ([worldCached]), and
    its map artifact is then removed ([worldMapGone]); a process in
    component-testing mode ([worldComponents]). *)
Definition specSource : string := "let x: number = 1".

Definition worldLoaded : World :=
  loadModule demoHost (freshWorld ∅ {[ "/p/a.spec.ts" := specSource ]} 10).

Definition worldCached : World :=
  snd (transformHook demoHost specSource "/p/a.spec.ts" false worldLoaded).

Definition specCachePath : string :=
  "/tmp/playwright-transform-cache/53/aspec_53243cee406ad2bab77bc2e658150b124800848b".

Definition worldMapGone : World :=
  with_files (delete (specCachePath +:+ ".map")) worldCached.

Definition worldComponents : World :=
  loadModule demoHost
    (freshWorld {[ "PW_COMPONENT_TESTING" := "1" ]}
                {[ "/p/button.spec.tsx" := "export {}" ]} 10).

(** A configuration whose only pattern key is the empty string, mapped to
    two candidate targets, and a host whose discovery routine finds it. *)
Definition emptyKeyConfig : TsConfigLoaderResult :=
  {| tsConfigPath := Some "/repo/tsconfig.json";
     baseUrl := Some ".";
     paths := Some [("", ["./a"; "./b"])] |}.

Definition emptyKeyHost : Host :=
  {| processCwd := processCwd demoHost;
     tmpdir := tmpdir demoHost;
     tsConfigLoader := fun _ _ _ => Returned emptyKeyConfig;
     transformFileSync := transformFileSync demoHost;
     installSourceMapSupport := installSourceMapSupport demoHost;
     wrapCallSite := wrapCallSite demoHost;
     fileURLToPath := fileURLToPath demoHost |}.

(** ** Normal forms of paths *)

Definition noSlash (s : string) : bool :=
  Js.all (fun c => negb (Ascii.eqb c NodePath.slash)) s.

(** A path segment that [normalizeString] keeps as it is. *)
Definition cleanSegment (seg : string) : Prop :=
  seg <> "" /\ seg <> "." /\ seg <> ".." /\ noSlash seg = true.

(** The normalized absolute path with the segments [segs]. *)
Definition absolutePathOf (segs : list string) : string :=
  "/" +:+ String.concat "/" segs.

(** A configuration with the alias ["lib/*"] for ["./src/lib/*"]. *)
Definition libConfig : TsConfigLoaderResult :=
  {| tsConfigPath := Some "/repo/tsconfig.json";
     baseUrl := Some "./base";
     paths := Some [("lib/*", ["./src/lib/*"]); ("@app", ["./src/app/index"])] |}.

(** A configuration whose first key ends in a bare "*" and whose second
    target has its "*" in the middle. *)
Definition starConfig : TsConfigLoaderResult :=
  {| tsConfigPath := Some "/repo/tsconfig.json";
     baseUrl := Some "./base";
     paths := Some [("lib*", ["./src/lib*"]); ("app/*", ["./src/*/index"])] |}.

(** The unseparated concatenation that is digested. *)
Definition keyMaterial (fingerprint : string) (esm : bool) (content filePath : string)
    (ver : Z) : string :=
  fingerprint +:+ (if esm then "esm" else "no_esm") +:+ content +:+ filePath
  +:+ Js.String_ ver.

Definition isHexChar (c : ascii) : bool :=
  Js.isDigit c || ((97 <=? Js.code c) && (Js.code c <=? 102)).

Definition isAlnum (c : ascii) : bool := Js.isUpper c || Js.isLower c || Js.isDigit c.

(** Following the words of the specification, for comparison with
    [calculateCachePath]: the first two characters of the key as two
    path segments, and the stem without its non-alphanumeric characters. *)
Fixpoint stripNonAlnum (s : string) : string :=
  match s with
  | EmptyString => EmptyString
  | String a s' => if isAlnum a then String a (stripNonAlnum s') else stripNonAlnum s'
  end.

Definition twoLevelCachePath (cacheDir key stem : string) : string :=
  cacheDir +:+ "/" +:+ charStr key 0 +:+ "/" +:+ charStr key 1 +:+ "/"
  +:+ stripNonAlnum stem +:+ "_" +:+ key.

(** ** Further notions used by the statements *)

(** The options [transformHook] hands to Babel for a file, given the
    configuration of its directory and the environment. *)
Definition babelOptions (tsconfigData : option ParsedTsConfigData)
    (env : gmap string string) (isModule : bool) : TransformOptions :=
  {| presets := ["@babel/preset-typescript"];
     plugins := pluginsFor tsconfigData
                  (Js.truthy_opt (env !! "PW_COMPONENT_TESTING")) isModule |}.

(** The environment once [transformHook] has reached the transform. *)
Definition browserslistSilenced (env : gmap string string) : gmap string string :=
  <[ "BROWSERSLIST_IGNORE_OLD_DATA" := "true" ]> env.

Definition isEngineEvent (e : Event) : bool :=
  match e with EvEngine _ _ => true | _ => false end.

(** The world in which [transformHook] reads the artifact store: the key
    is computed and the map path registered, in the world [w1] left by the
    configuration lookup. *)
Definition registered (filename cachePath : string) (w1 : World) : World :=
  with_sourceMaps (insert filename (cachePath +:+ ".map"))
    (log (EvRegister filename (cachePath +:+ ".map")) (log (EvDigest cachePath) w1)).

(** All 256 characters. *)
Definition allAscii : list ascii := map ascii_of_nat (seq 0 256).

(** No escape sequence of [JSON.stringify] is a prefix of another one,
    and none starts with the quote character (checked by computation). *)
Definition escapePrefixFree : bool :=
  forallb (fun x =>
    forallb (fun y =>
      implb (Js.startsWith (Json.escapeChar y) (Json.escapeChar x)) (Ascii.eqb x y))
      allAscii) allAscii.

Definition escapeNoQuote : bool :=
  forallb (fun x =>
    match Json.escapeChar x with
    | String c _ => negb (Ascii.eqb c Json.dquote)
    | EmptyString => false
    end) allAscii.

(** An object all of whose values are defined. *)
Definition withTargets (l : list (string * string)) : list (string * option string) :=
  map (fun kv => (fst kv, Some (snd kv))) l.

(** ** Further sample hosts and processes *)

(** A host whose Babel returns no code. *)
Definition emptyCodeHost : Host :=
  {| processCwd := processCwd demoHost;
     tmpdir := tmpdir demoHost;
     tsConfigLoader := tsConfigLoader demoHost;
     transformFileSync := fun _ _ _ _ => Returned {| code := Some ""; map_ := None |};
     installSourceMapSupport := installSourceMapSupport demoHost;
     wrapCallSite := wrapCallSite demoHost;
     fileURLToPath := fileURLToPath demoHost |}.

(** A host whose [url.fileURLToPath] rejects every url. *)
Definition strictUrlHost : Host :=
  {| processCwd := processCwd demoHost;
     tmpdir := tmpdir demoHost;
     tsConfigLoader := tsConfigLoader demoHost;
     transformFileSync := transformFileSync demoHost;
     installSourceMapSupport := installSourceMapSupport demoHost;
     wrapCallSite := wrapCallSite demoHost;
     fileURLToPath := fun _ => Thrown (HostError "ERR_INVALID_FILE_URL_HOST") |}.

(** The process of [worldCached] with the ignore-cache override set. *)
Definition worldOverride : World :=
  with_env (insert "PW_IGNORE_COMPILE_CACHE" "1") worldCached.

(** The process of [worldCached] after its source file was removed. *)
Definition worldSourceGone : World :=
  with_files (delete "/p/a.spec.ts") worldCached.

(** A configuration with a pattern that has no target. *)
Definition noTargetConfig : TsConfigLoaderResult :=
  {| tsConfigPath := Some "/repo/tsconfig.json";
     baseUrl := Some ".";
     paths := Some [("lib/*", ["./src/lib/*"]); ("e", [])] |}.

Definition plainFrames : list CallSite :=
  [frameAt "/pw/transform.js" 197 10; frameAt "/p/a.spec.ts" 7 3;
   frameAt "/p/runner.js" 40 5].

(** [worldLoaded] once the (absent) configuration of "/p" is memoized. *)
Definition worldResolved : World :=
  with_cachedTSConfigs (insert "/p" None) (log (EvDiscover "/p") worldLoaded).

(** Configurations that validation rejects: an ambiguous pattern, and a
    pattern with two targets. *)
Definition ambiguousConfig : TsConfigLoaderResult :=
  {| tsConfigPath := Some "/repo/tsconfig.json";
     baseUrl := Some ".";
     paths := Some [("lib/*", ["./src/lib/*"]); ("./*", ["./x/*"])] |}.

Definition twoTargetConfig : TsConfigLoaderResult :=
  {| tsConfigPath := Some "/repo/tsconfig.json";
     baseUrl := Some ".";
     paths := Some [("lib/*", ["./src/lib/*"]); ("x", ["./a"; "./b"])] |}.





(** A wrapped function that assigns [Error.stackTraceLimit] itself. *)
Definition raisesLimit : StackValue -> unit -> M StackValue :=
  fun loc _ => modify (with_stackTraceLimit 100) ;;; ret loc.
Example sha1_empty : Sha1.digest_hex "" = "da39a3ee5e6b4b0d3255bfef95601890afd80709".
Proof. vm_compute. reflexivity. Qed.

Example sha1_abc : Sha1.digest_hex "abc" = "a9993e364706816aba3e25717850c26c9cd0d89d".
Proof. vm_compute. reflexivity. Qed.

Example sha1_two_blocks :
  Sha1.digest_hex "abcdbcdecdefdefgefghfghighijhijkijkljklmklmnlmnomnopnopq"
  = "84983e441c3bd26ebaae4aa1f95129e5e54670f1".
Proof. vm_compute. reflexivity. Qed.

Example json_escape_ex : Json.escape "a\b/c" = "a\\b/c".
Proof. reflexivity. Qed.

Example dirname_ex : NodePath.dirname "/a/b.ts" = "/a"
  /\ NodePath.dirname "/b.ts" = "/" /\ NodePath.dirname "b.ts" = "."
  /\ NodePath.dirname "/a//b" = "/a/" /\ NodePath.dirname "/a/b/" = "/a".
Proof. vm_compute. repeat split. Qed.

Example extname_ex : NodePath.extname "/a/b.spec.ts" = ".ts"
  /\ NodePath.extname "/a/.bashrc" = "" /\ NodePath.extname "/a.b/c" = ""
  /\ NodePath.extname "a.." = "." /\ NodePath.extname ".." = ""
  /\ NodePath.extname "/x/y.tsx/" = ".tsx".
Proof. vm_compute. repeat split. Qed.

Example basename_ex : NodePath.basename "/a/b.spec.ts" ".ts" = "b.spec"
  /\ NodePath.basename "/a/b/" "" = "b" /\ NodePath.basename "/x/.ts" ".ts" = ".ts"
  /\ NodePath.basename "aaa.ts" "a.ts" = "aa".
Proof. vm_compute. repeat split. Qed.

Example resolve_ex : NodePath.resolve "/cwd" ["/base"; "./src/lib/foo"] = "/base/src/lib/foo"
  /\ NodePath.resolve "/cwd" ["x/.."; "../y/"] = "/y"
  /\ NodePath.resolve "/cwd" ["/"; "../.."] = "/"
  /\ NodePath.join ["/tmp/c"; "ab"; "f_ab"] = "/tmp/c/ab/f_ab"
  /\ NodePath.join ["a/../.."; "x"] = "../x".
Proof. vm_compute. repeat split. Qed.

(** ** The call-site capture wrapper *)

Section Wrapper.

Context (host : Host) {A R : Type}.
Implicit Types (func : StackValue -> A -> M R) (frames : list CallSite) (w : World).

Lemma wrapFunctionWithLocation_eq func frames args w :
  wrapFunctionWithLocation host func frames args w =
  match locationFormatter host w (take 2 frames) with
  | Returned loc => func loc args (with_stackTraceLimit kStackTraceLimit w)
  | Thrown e =>
      (Thrown e, with_stackTraceLimit 2 (with_prepareStackTrace (Some LocationFormatter) w))
  end.
Proof.
  unfold wrapFunctionWithLocation, bind, gets, modify, captureStackTrace. cbn.
  change (locationFormatter host _ (take (Z.to_nat 2) frames))
    with (locationFormatter host w (take 2 frames)).
  destruct (locationFormatter host w (take 2 frames)); reflexivity.
Qed.

(** The formatter of the wrapper returns a location or throws. *)
Lemma locationFormatter_location w (stackFrames : list CallSite) (v : StackValue) :
  locationFormatter host w stackFrames = Returned v -> exists loc, v = StackLocation loc.
Proof.
  unfold locationFormatter.
  destruct (stackFrames !! 1%nat) as [frame1|]; [|discriminate].
  destruct (getFileName _) as [f|].
  - destruct (_ && _).
    + destruct (fileURLToPath host f); [|discriminate]. intros [= <-]. eauto.
    + intros [= <-]. eauto.
  - intros [= <-]. eauto.
Qed.

(** The wrapper has no handler around the capture: when the formatter
    throws, the call throws with the formatter still installed and the
    limit at 2. *)
Lemma wrapFunctionWithLocation_capture_throws func frames args w e :
  locationFormatter host w (take 2 frames) = Thrown e ->
  wrapFunctionWithLocation host func frames args w
  = (Thrown e, with_stackTraceLimit 2 (with_prepareStackTrace (Some LocationFormatter) w)).
Proof. intros H. rewrite wrapFunctionWithLocation_eq, H. reflexivity. Qed.

End Wrapper.

Section WrapperGlobals.

Context (host : Host) {A R : Type}.
Implicit Types (func : StackValue -> A -> M R) (frames : list CallSite) (w : World).

Lemma wrapper_exit_globals func frames args w loc :
  locationFormatter host w (take 2 frames) = Returned loc ->
  leavesErrorGlobals func ->
  prepareStackTrace (snd (wrapFunctionWithLocation host func frames args w))
    = prepareStackTrace w /\
  stackTraceLimit (snd (wrapFunctionWithLocation host func frames args w))
    = kStackTraceLimit.
Proof.
  intros Hcap Hfunc. rewrite wrapFunctionWithLocation_eq, Hcap.
  destruct (Hfunc loc args (with_stackTraceLimit kStackTraceLimit w)) as [Hp Hl].
  rewrite Hp, Hl. split; reflexivity.
Qed.

(** C2 (amended): once the location is captured, the wrapper puts the
    previous formatter back and sets the stack-depth limit to the
    constant 15, and only then calls [func]; so when [func], returning
    or throwing, leaves the two globals alone, the wrapper exits with the
    previous formatter and with limit 15, which is the previous limit
    exactly when that was 15. *)
Theorem C2_formatter_restored_limit_reset func frames args w loc :
  locationFormatter host w (take 2 frames) = Returned loc ->
  leavesErrorGlobals func ->
  wrapFunctionWithLocation host func frames args w
    = func loc args (with_stackTraceLimit kStackTraceLimit w)
  /\ prepareStackTrace (with_stackTraceLimit kStackTraceLimit w) = prepareStackTrace w
  /\ stackTraceLimit (with_stackTraceLimit kStackTraceLimit w) = 15
  /\ prepareStackTrace (snd (wrapFunctionWithLocation host func frames args w))
       = prepareStackTrace w
  /\ stackTraceLimit (snd (wrapFunctionWithLocation host func frames args w)) = 15
  /\ (stackTraceLimit (snd (wrapFunctionWithLocation host func frames args w))
        = stackTraceLimit w <-> stackTraceLimit w = 15).
Proof.
  intros Hcap Hfunc.
  destruct (wrapper_exit_globals func frames args w loc Hcap Hfunc) as [Hp Hl].
  split; [rewrite wrapFunctionWithLocation_eq, Hcap; reflexivity|].
  do 2 (split; [reflexivity|]).
  split; [exact Hp|]. split; [exact Hl|].
  rewrite Hl. unfold kStackTraceLimit. split; intros H; congruence.
Qed.

End WrapperGlobals.

(** C2, refuted as stated: with the limit at 50 before the call, the wrapper
    leaves it at 15, whether the wrapped function returns or throws. *)
Lemma C2_counterexample :
  stackTraceLimit world50 = 50
  /\ stackTraceLimit
       (snd (wrapFunctionWithLocation demoHost returnsLocation callerFrames tt world50)) = 15
  /\ wrapFunctionWithLocation demoHost throwsBoom callerFrames tt world50
       = (Thrown (HostError "boom"), with_stackTraceLimit 15 world50).
Proof. vm_compute. repeat split. Qed.

(** The amended C2 on a wrapped function that throws. *)
Lemma C2_witness :
  locationFormatter demoHost world50 (take 2 callerFrames)
    = Returned (StackLocation {| file := Some "/p/a.spec.ts"; line := Some 3; column := Some 1 |})
  /\ leavesErrorGlobals throwsBoom
  /\ fst (wrapFunctionWithLocation demoHost throwsBoom callerFrames tt world50)
       = Thrown (HostError "boom")
  /\ prepareStackTrace
       (snd (wrapFunctionWithLocation demoHost throwsBoom callerFrames tt world50))
       = Some (ForeignFormatter "source-map-support")
  /\ stackTraceLimit
       (snd (wrapFunctionWithLocation demoHost throwsBoom callerFrames tt world50)) = 15.
Proof.
  assert (Hcap : locationFormatter demoHost world50 (take 2 callerFrames)
    = Returned (StackLocation {| file := Some "/p/a.spec.ts"; line := Some 3; column := Some 1 |}))
    by (vm_compute; reflexivity).
  assert (Hfunc : leavesErrorGlobals throwsBoom) by (intros ? ? ?; split; reflexivity).
  destruct (C2_formatter_restored_limit_reset demoHost throwsBoom callerFrames tt world50 _
              Hcap Hfunc) as (Heq & _ & _ & Hp & Hl & _).
  split; [exact Hcap|]. split; [exact Hfunc|].
  split; [rewrite Heq; reflexivity|]. split; [rewrite Hp; reflexivity | exact Hl].
Defined.

(** ** The read of the artifact store *)

Lemma probeCache_eq codePath w :
  probeCache codePath w =
  if Js.truthy_opt (env w !! "PW_IGNORE_COMPILE_CACHE") then (Returned None, w)
  else match files w !! codePath with
       | Some stored =>
           (Returned (Some stored), log (EvRead codePath) (log (EvExists codePath) w))
       | None => (Returned None, log (EvExists codePath) w)
       end.
Proof.
  unfold probeCache, bind, getenv, gets, existsSync, readFileSync, ret. cbn.
  destruct (Js.truthy_opt (env w !! "PW_IGNORE_COMPILE_CACHE")); cbn; [reflexivity|].
  destruct (files w !! codePath) as [stored|] eqn:Hf.
  - rewrite bool_decide_eq_true_2 by eauto. cbn. rewrite Hf. reflexivity.
  - rewrite bool_decide_eq_false_2 by (intros [? ?]; discriminate). reflexivity.
Qed.

Lemma js_ne_map (cachePath : string) : cachePath +:+ ".map" <> cachePath +:+ ".js".
Proof.
  induction cachePath as [|c s IH]; cbn; [discriminate|].
  intros H. injection H as H. exact (IH H).
Qed.

(** C3 (amended): the read of the artifact store is a miss exactly when
    the ignore-cache override is active or the code file is absent, and a
    hit, with the stored code, exactly when the override is inactive and the
    code file is present; the map file is not consulted: removing it does
    not change the answer. *)
Theorem C3_hit_iff_code_file_and_no_override (cachePath : string) (w : World) :
  (fst (probeCache (cachePath +:+ ".js") w) = Returned None <->
     Js.truthy_opt (env w !! "PW_IGNORE_COMPILE_CACHE") = true
     \/ files w !! (cachePath +:+ ".js") = None)
  /\ (forall stored,
        fst (probeCache (cachePath +:+ ".js") w) = Returned (Some stored) <->
          Js.truthy_opt (env w !! "PW_IGNORE_COMPILE_CACHE") = false
          /\ files w !! (cachePath +:+ ".js") = Some stored)
  /\ fst (probeCache (cachePath +:+ ".js")
            (with_files (delete (cachePath +:+ ".map")) w))
     = fst (probeCache (cachePath +:+ ".js") w).
Proof.
  rewrite !probeCache_eq. cbn [env files with_files].
  rewrite (lookup_delete_ne (files w) _ _ (js_ne_map cachePath)).
  destruct (Js.truthy_opt (env w !! "PW_IGNORE_COMPILE_CACHE")); cbn.
  - split; [split; [auto | reflexivity]|].
    split; [|reflexivity]. intros stored. split; [discriminate | intros [? _]; discriminate].
  - destruct (files w !! (cachePath +:+ ".js")) as [s|]; cbn.
    + split; [split; [discriminate | intros [?|?]; discriminate]|].
      split; [|reflexivity]. intros stored. split; [intros [= ->]; auto | intros [_ [= ->]]; auto].
    + split; [split; auto|].
      split; [|reflexivity]. intros stored. split; [discriminate | intros [_ ?]; discriminate].
Qed.
Lemma startsWith_trans_false (r p q : string) :
  Js.startsWith p q = false -> Js.startsWith q p = false ->
  Js.startsWith r p = true -> Js.startsWith r q = false.
Proof.
  revert p q. induction r as [|a r IH]; intros p q Hpq Hqp Hp.
  - destruct p; [|discriminate]. destruct q; [discriminate|reflexivity].
  - destruct p as [|b p]; [destruct q; discriminate|].
    destruct q as [|c q]; [discriminate|].
    cbn in *. destruct (Ascii.eqb_spec b a) as [->|Hba]; [|discriminate].
    destruct (Ascii.eqb_spec c a) as [->|Hca]; [|reflexivity].
    rewrite Ascii.eqb_refl in Hqp. eauto.
Qed.

Lemma endsWith_spec_tsx_not_jsx g :
  Js.endsWith g "spec.tsx" = true \/ Js.endsWith g "test.tsx" = true ->
  Js.endsWith g ".jsx" = false.
Proof.
  unfold Js.endsWith.
  intros [H|H]; eapply startsWith_trans_false; try exact H; reflexivity.
Qed.

Section Hook.
Context (host : Host).

Lemma isComponentImport_spec_false env g :
  Js.endsWith g "spec.tsx" = true \/ Js.endsWith g "test.tsx" = true ->
  isComponentImport env g = false.
Proof.
  intros H. unfold isComponentImport.
  rewrite (endsWith_spec_tsx_not_jsx g H).
  destruct H as [-> | ->]; rewrite ?andb_false_r; cbn;
    destruct (negb _); reflexivity.
Qed.

Lemma isComponentImport_component_true env f :
  Js.truthy_opt (env !! "PW_COMPONENT_TESTING") = true ->
  (Js.endsWith f ".tsx" = true /\ Js.endsWith f "spec.tsx" = false
     /\ Js.endsWith f "test.tsx" = false)
  \/ (Js.endsWith f ".jsx" = true /\ Js.endsWith f "spec.jsx" = false
     /\ Js.endsWith f "test.jsx" = false) ->
  isComponentImport env f = true.
Proof.
  intros Hmode H. unfold isComponentImport. rewrite Hmode. cbn.
  destruct H as [(-> & -> & ->) | (-> & -> & ->)]; cbn; [reflexivity|].
  destruct (_ && _ && _); reflexivity.
Qed.

Lemma transformHook_eq code filename isModule w :
  transformHook host code filename isModule w =
  if isComponentImport (env w) filename then (Returned componentStub, w)
  else transformAndCache host code filename isModule w.
Proof.
  unfold transformHook, bind, gets, ret.
  destruct (isComponentImport (env w) filename); reflexivity.
Qed.

Lemma loadAndValidateTsconfigForFile_eq file w :
  loadAndValidateTsconfigForFile host file w =
  match cachedTSConfigs w !! NodePath.dirname file with
  | Some memo => (Returned memo, w)
  | None =>
      match tsConfigLoader host (env w) (files w) (NodePath.dirname file) with
      | Returned loaded =>
          (Returned (validateTsConfig host loaded),
           with_cachedTSConfigs
             (insert (NodePath.dirname file) (validateTsConfig host loaded))
             (log (EvDiscover (NodePath.dirname file)) w))
      | Thrown e => (Thrown e, log (EvDiscover (NodePath.dirname file)) w)
      end
  end.
Proof.
  unfold loadAndValidateTsconfigForFile, bind, gets, modify, ret. cbn.
  destruct (cachedTSConfigs w !! NodePath.dirname file) as [memo|] eqn:Hm.
  - rewrite bool_decide_eq_true_2 by eauto. cbn. rewrite Hm. reflexivity.
  - rewrite bool_decide_eq_false_2 by (intros [? ?]; discriminate). cbn.
    destruct (tsConfigLoader host (env w) (files w) (NodePath.dirname file));
      [|reflexivity].
    cbn. rewrite lookup_insert_eq. reflexivity.
Qed.

(** What the lookup of the configuration leaves alone, whether it returns
    or throws. *)
Lemma loadAndValidateTsconfigForFile_world file w :
  let w1 := snd (loadAndValidateTsconfigForFile host file w) in
  env w1 = env w /\ files w1 = files w /\ cacheDir w1 = cacheDir w
  /\ sourceMaps w1 = sourceMaps w
  /\ prepareStackTrace w1 = prepareStackTrace w
  /\ stackTraceLimit w1 = stackTraceLimit w.
Proof.
  rewrite loadAndValidateTsconfigForFile_eq.
  destruct (cachedTSConfigs w !! NodePath.dirname file) as [memo|]; [cbn; auto 10|].
  destruct (tsConfigLoader host _ _ _); cbn; auto 10.
Qed.
End Hook.
(** ** The stages of [transformAndCache] *)

Lemma extends_refl w : extends w w.
Proof.
  repeat split. exists []. split; [symmetry; apply app_nil_r | constructor].
Qed.

Lemma extends_trans w1 w2 w3 : extends w1 w2 -> extends w2 w3 -> extends w1 w3.
Proof.
  intros (Hs & Hc & Hd & r1 & Ht & Hr1) (Hs' & Hc' & Hd' & r2 & Ht' & Hr2).
  repeat split; [congruence..|].
  exists (r1 ++ r2). split; [rewrite Ht', Ht, app_assoc; reflexivity|].
  apply Forall_app; auto.
Qed.

Lemma extends_log e w : isDiscover e = false -> extends w (log e w).
Proof.
  intros He. repeat split. exists [e]. split; [reflexivity | repeat constructor; exact He].
Qed.

Lemma extends_with_env f w : extends w (with_env f w).
Proof. apply (extends_refl w). Qed.

Lemma extends_with_files f w : extends w (with_files f w).
Proof. apply (extends_refl w). Qed.

Create HintDb world.
#[local] Hint Resolve extends_refl extends_log extends_with_env extends_with_files : world.

Lemma probeCache_extends codePath w : extends w (snd (probeCache codePath w)).
Proof.
  rewrite probeCache_eq.
  destruct (Js.truthy_opt _); cbn; [auto with world|].
  destruct (files w !! codePath); cbn.
  - eapply extends_trans; apply extends_log; reflexivity.
  - apply extends_log; reflexivity.
Qed.

Section Stages.
Context (host : Host).

Lemma transformAndPersist_extends td cachePath codePath sourceMapPath filename isModule w :
  extends w (snd (transformAndPersist host td cachePath codePath sourceMapPath
                    filename isModule w)).
Proof.
  unfold transformAndPersist, bind, modify, getenv, gets, ret, mkdirSync, writeFileSync.
  cbn.
  match goal with |- context [transformFileSync host ?f ?e ?n ?o] =>
    destruct (transformFileSync host f e n o) as [result|err] end; cbn.
  2: { eapply extends_trans; [apply extends_with_env|]. apply extends_log; reflexivity. }
  destruct (Js.truthy_opt (code result)); cbn.
  - destruct (map_ result); cbn;
      repeat (first [ apply extends_with_env | apply extends_with_files
                    | apply extends_log; reflexivity
                    | eapply extends_trans; [|apply extends_with_files]
                    | eapply extends_trans; [|apply extends_log; reflexivity] ]).
  - eapply extends_trans; [apply extends_with_env|]. apply extends_log; reflexivity.
Qed.

Lemma transformAndCache_eq code filename isModule w :
  transformAndCache host code filename isModule w =
  match loadAndValidateTsconfigForFile host filename w with
  | (Returned td, w1) =>
      let cachePath := calculateCachePath (cacheDir w1) (env w1) td code filename in
      match probeCache (cachePath +:+ ".js")
              (with_sourceMaps (insert filename (cachePath +:+ ".map"))
                 (log (EvRegister filename (cachePath +:+ ".map"))
                    (log (EvDigest cachePath) w1))) with
      | (Returned (Some stored), w3) => (Returned stored, w3)
      | (Returned None, w3) =>
          transformAndPersist host td cachePath (cachePath +:+ ".js")
            (cachePath +:+ ".map") filename isModule w3
      | (Thrown e, w3) => (Thrown e, w3)
      end
  | (Thrown e, w1) => (Thrown e, w1)
  end.
Proof.
  unfold transformAndCache, bind.
  destruct (loadAndValidateTsconfigForFile host filename w) as [[td|e] w1];
    [|reflexivity].
  cbn -[probeCache transformAndPersist calculateCachePath].
  match goal with |- context [probeCache ?p ?x] =>
    destruct (probeCache p x) as [[[stored|]|e] w3] end; reflexivity.
Qed.

(** The state in which the artifact store is read: the configuration is
    resolved, the key computed and the map path registered. *)
Lemma transformAndCache_stages code filename isModule w td w1 :
  loadAndValidateTsconfigForFile host filename w = (Returned td, w1) ->
  exists rest,
    sourceMaps (snd (transformAndCache host code filename isModule w))
      = <[filename := calculateCachePath (cacheDir w) (env w) td code filename +:+ ".map"]>
          (sourceMaps w)
    /\ cachedTSConfigs (snd (transformAndCache host code filename isModule w))
         = cachedTSConfigs w1
    /\ trace (snd (transformAndCache host code filename isModule w))
         = trace w1 ++
           EvDigest (calculateCachePath (cacheDir w) (env w) td code filename)
           :: EvRegister filename
                (calculateCachePath (cacheDir w) (env w) td code filename +:+ ".map")
           :: rest
    /\ Forall (fun e => isDiscover e = false) rest.
Proof.
  intros Hload. rewrite transformAndCache_eq, Hload.
  pose proof (loadAndValidateTsconfigForFile_world host filename w) as Hw.
  rewrite Hload in Hw. cbn in Hw. destruct Hw as (He & _ & Hd & Hs & _).
  rewrite Hd, He.
  set (cachePath := calculateCachePath (cacheDir w) (env w) td code filename).
  cbn zeta.
  set (w2 := with_sourceMaps _ _).
  assert (Hext : forall w3, extends w2 w3 ->
    exists rest,
      sourceMaps w3 = <[filename := cachePath +:+ ".map"]> (sourceMaps w)
      /\ cachedTSConfigs w3 = cachedTSConfigs w1
      /\ trace w3 = trace w1 ++ EvDigest cachePath
                      :: EvRegister filename (cachePath +:+ ".map") :: rest
      /\ Forall (fun e => isDiscover e = false) rest).
  { intros w3 (Hsm & Hc & _ & rest & Ht & Hr). exists rest.
    rewrite Hsm, Hc, Ht. subst w2. cbn. rewrite Hs, <- !app_assoc. auto. }
  pose proof (probeCache_extends (cachePath +:+ ".js") w2) as Hp.
  destruct (probeCache (cachePath +:+ ".js") w2) as [[[stored|]|e] w3]; cbn [snd] in Hp.
  - exact (Hext w3 Hp).
  - exact (Hext _ (extends_trans _ _ _ Hp
        (transformAndPersist_extends td cachePath (cachePath +:+ ".js")
           (cachePath +:+ ".map") filename isModule w3))).
  - exact (Hext w3 Hp).
Qed.

(** When the lookup of the configuration throws, so does the whole path,
    at once. *)
Lemma transformAndCache_throws code filename isModule w e w1 :
  loadAndValidateTsconfigForFile host filename w = (Thrown e, w1) ->
  transformAndCache host code filename isModule w = (Thrown e, w1).
Proof. intros Hload. rewrite transformAndCache_eq, Hload. reflexivity. Qed.

End Stages.
(** ** The orchestrator *)

Section Orchestrator.
Context (host : Host).


(** *** Memoization of the configuration *)










End Orchestrator.
(** ** The statements on sample processes *)

(** C3, refuted as stated: the map artifact is absent and the override is
    inactive, and the read is a hit: the stored code is returned and the
    transform is not run. *)
Lemma C3_counterexample :
  files worldMapGone !! (specCachePath +:+ ".map") = None
  /\ Js.truthy_opt (env worldMapGone !! "PW_IGNORE_COMPILE_CACHE") = false
  /\ calculateCachePath (cacheDir worldMapGone) (env worldMapGone) None
       specSource "/p/a.spec.ts" = specCachePath
  /\ fst (probeCache (specCachePath +:+ ".js") worldMapGone)
     = Returned (Some "/*js*/let x: number = 1")
  /\ fst (transformHook demoHost specSource "/p/a.spec.ts" false worldMapGone)
     = Returned "/*js*/let x: number = 1"
  /\ drop (length (trace worldMapGone))
       (trace (snd (transformHook demoHost specSource "/p/a.spec.ts" false worldMapGone)))
     = [EvDigest specCachePath;
        EvRegister "/p/a.spec.ts" (specCachePath +:+ ".map");
        EvExists (specCachePath +:+ ".js");
        EvRead (specCachePath +:+ ".js")].
Proof. vm_compute. repeat split. Qed.

(** ** Validation of the configuration *)

Lemma find_Some {A} (p : A -> bool) (l : list A) (x : A) :
  Js.find p l = Some x -> In x l /\ p x = true.
Proof.
  induction l as [|y l IH]; cbn; [discriminate|].
  destruct (p y) eqn:Hy.
  - intros [= ->]. auto.
  - intros H. destruct (IH H). auto.
Qed.

Lemma find_In {A} (p : A -> bool) (l : list A) (x : A) :
  In x l -> p x = true -> exists y, Js.find p l = Some y /\ p y = true.
Proof.
  induction l as [|z l IH]; cbn; [contradiction|].
  intros [->|Hin] Hx.
  - rewrite Hx. eauto.
  - destruct (p z) eqn:Hz; eauto.
Qed.

Lemma truthy_nonempty (s : string) : s <> "" -> Js.truthy s = true.
Proof. destruct s; [congruence | reflexivity]. Qed.

Section Validation.
Context (host : Host).

(** A configuration with a key made only of "*", ".", "/" and "\" is
    rejected as a whole. *)
Lemma validateTsConfig_rejects_ambiguous tsconfig pths key :
  paths tsconfig = Some pths ->
  In key (map fst pths) ->
  isAmbiguousKey key = true ->
  validateTsConfig host tsconfig = None.
Proof.
  intros Hp Hin Hamb. unfold validateTsConfig. rewrite Hp.
  destruct (tsConfigPath tsconfig) as [tp|]; [|reflexivity].
  destruct (baseUrl tsconfig) as [bu|]; [|reflexivity].
  destruct (negb (Js.truthy tp) || negb (Js.truthy bu)); [reflexivity|].
  destruct (find_In isAmbiguousKey _ key Hin Hamb) as (k & -> & Hk).
  unfold isAmbiguousKey in Hk. apply andb_true_iff in Hk as [Hk _].
  cbn. rewrite Hk. reflexivity.
Qed.

(** A configuration in which the first key with several targets is not
    the empty string is rejected as a whole. *)
Lemma validateTsConfig_rejects_multiple tsconfig pths key :
  paths tsconfig = Some pths ->
  Js.find (hasMultipleTargets pths) (map fst pths) = Some key ->
  key <> "" ->
  validateTsConfig host tsconfig = None.
Proof.
  intros Hp Hfind Hne. unfold validateTsConfig. rewrite Hp.
  destruct (tsConfigPath tsconfig) as [tp|]; [|reflexivity].
  destruct (baseUrl tsconfig) as [bu|]; [|reflexivity].
  destruct (negb (Js.truthy tp) || negb (Js.truthy bu)); [reflexivity|].
  destruct (Js.truthy_opt (Js.find isAmbiguousKey (map fst pths))); [reflexivity|].
  rewrite Hfind. cbn. rewrite (truthy_nonempty key Hne). reflexivity.
Qed.

End Validation.

(** C5 (the code at the failing input): the only key of the configuration
    is the empty string and has two targets; [find] returns that key, which
    is falsy, so the configuration is not rejected: it is validated with
    the first target kept, memoized, and handed to the transform as alias
    rules. *)
Theorem C5_empty_key_with_two_targets_is_accepted :
  hasMultipleTargets [("", ["./a"; "./b"])] "" = true
  /\ Js.find (hasMultipleTargets [("", ["./a"; "./b"])]) [""] = Some ""
  /\ Js.truthy_opt (Some "") = false
  /\ singlePath <$> validateTsConfig demoHost emptyKeyConfig = Some [("", Some "./a")]
  /\ absoluteBaseUrl <$> validateTsConfig demoHost emptyKeyConfig = Some "/repo"
  /\ singlePath <$> mjoin (cachedTSConfigs
         (snd (loadAndValidateTsconfigForFile emptyKeyHost "/repo/x.ts"
                 (loadModule emptyKeyHost (freshWorld ∅ ∅ 10)))) !! "/repo")
     = Some [("", Some "./a")].
Proof. vm_compute. repeat split. Qed.

Example validateTsConfig_rejects_examples :
  validateTsConfig demoHost
    {| tsConfigPath := Some "/repo/tsconfig.json"; baseUrl := Some ".";
       paths := Some [("lib/*", ["./src/lib/*"]); ("./*", ["./x/*"])] |} = None
  /\ validateTsConfig demoHost
    {| tsConfigPath := Some "/repo/tsconfig.json"; baseUrl := Some ".";
       paths := Some [("lib/*", ["./src/lib/*"]); ("x", ["./a"; "./b"])] |} = None.
Proof. vm_compute. repeat split. Qed.
(** ** Strings *)

Lemma append_cons (x : ascii) (a b : string) : String x a +:+ b = String x (a +:+ b).
Proof. reflexivity. Qed.

Lemma append_nil_l (b : string) : "" +:+ b = b.
Proof. reflexivity. Qed.

Lemma append_assoc (a b c : string) : (a +:+ b) +:+ c = a +:+ (b +:+ c).
Proof.
  induction a as [|x a IH]; [reflexivity|].
  rewrite !append_cons. f_equal. exact IH.
Qed.

Lemma append_nil_r (a : string) : a +:+ "" = a.
Proof.
  induction a as [|x a IH]; [reflexivity|].
  rewrite append_cons. f_equal. exact IH.
Qed.

Lemma len_append (a b : string) : Js.len (a +:+ b) = (Js.len a + Js.len b)%nat.
Proof.
  induction a as [|x a IH]; [reflexivity|].
  rewrite append_cons. cbn. f_equal. exact IH.
Qed.

Lemma take_append (a b : string) : Js.take (Js.len a) (a +:+ b) = a.
Proof.
  induction a as [|x a IH]; [destruct b; reflexivity|].
  rewrite append_cons. cbn. f_equal. exact IH.
Qed.

Lemma drop_append (a b : string) : Js.drop (Js.len a) (a +:+ b) = b.
Proof.
  induction a as [|x a IH]; [reflexivity|].
  rewrite append_cons. cbn. exact IH.
Qed.

Lemma rev_app_append (a b acc : string) :
  String.rev_app (a +:+ b) acc = String.rev_app b (String.rev_app a acc).
Proof.
  revert acc. induction a as [|x a IH]; intros acc; [reflexivity|].
  rewrite append_cons. cbn. apply IH.
Qed.

Lemma rev_app_acc (a acc : string) :
  String.rev_app a acc = String.rev_app a "" +:+ acc.
Proof.
  revert acc. induction a as [|x a IH]; intros acc; cbn; [reflexivity|].
  rewrite (IH (String x acc)), (IH (String x "")), append_assoc. reflexivity.
Qed.

Lemma rev_append (a b : string) : String.rev (a +:+ b) = String.rev b +:+ String.rev a.
Proof. unfold String.rev. rewrite rev_app_append. apply rev_app_acc. Qed.

Lemma startsWith_append (p s : string) : Js.startsWith (p +:+ s) p = true.
Proof.
  induction p as [|x p IH]; [destruct s; reflexivity|].
  rewrite append_cons. cbn. rewrite Ascii.eqb_refl. exact IH.
Qed.

Lemma endsWith_append (s p : string) : Js.endsWith (s +:+ p) p = true.
Proof. unfold Js.endsWith. rewrite rev_append. apply startsWith_append. Qed.

Lemma replaceAllChar_same (c : ascii) (s : string) :
  Js.replaceAllChar c (String c "") s = s.
Proof.
  induction s as [|a s IH]; cbn; [reflexivity|].
  destruct (Ascii.eqb_spec a c) as [->|_]; rewrite ?append_cons, ?append_nil_l, IH;
    reflexivity.
Qed.

(** ** The alias resolver *)

Section Alias.
Context (host : Host).

Lemma aliasResolver_wildcard base keyPrefix targetPrefix suffix rest :
  aliasResolver host base (keyPrefix +:+ "/*") (Some (targetPrefix +:+ "*"))
    ((keyPrefix +:+ "/" +:+ suffix) :: rest)
  = Returned (NodePath.resolve (processCwd host)
                [base; Js.replaceAllChar "/" NodePath.sep (targetPrefix +:+ suffix)]).
Proof.
  unfold aliasResolver. rewrite endsWith_append. cbn [head].
  unfold Js.substring_to, Js.substring_from.
  replace (Js.len (targetPrefix +:+ "*") - 1)%nat with (Js.len targetPrefix)
    by (rewrite len_append; cbn; lia).
  replace (Js.len (keyPrefix +:+ "/*") - 1)%nat with (Js.len (keyPrefix +:+ "/"))
    by (rewrite !len_append; cbn; lia).
  rewrite take_append, <- append_assoc, drop_append. reflexivity.
Qed.

Lemma aliasResolver_fixed base key value groups :
  Js.endsWith key "/*" = false ->
  aliasResolver host base key (Some value) groups
  = Returned (NodePath.resolve (processCwd host)
                [base; Js.replaceAllChar "/" NodePath.sep value]).
Proof. intros H. unfold aliasResolver. rewrite H. reflexivity. Qed.

End Alias.
(** ** Normalization of paths *)

Lemma split_nonempty (s : string) : NodePath.split s <> [].
Proof.
  induction s as [|c s IH]; cbn; [discriminate|].
  destruct (Ascii.eqb c NodePath.slash); [discriminate|].
  destruct (NodePath.split s); discriminate.
Qed.

Lemma split_noSlash (s : string) : noSlash s = true -> NodePath.split s = [s].
Proof.
  induction s as [|c s IH]; cbn; [reflexivity|].
  intros H. apply andb_true_iff in H as [Hc Hs].
  apply negb_true_iff in Hc. rewrite Hc, (IH Hs). reflexivity.
Qed.

Lemma split_append_slash (a b : string) :
  NodePath.split (a +:+ String NodePath.slash b) = NodePath.split a ++ NodePath.split b.
Proof.
  induction a as [|c a IH]; [cbn; reflexivity|].
  rewrite append_cons. cbn. rewrite IH.
  destruct (Ascii.eqb c NodePath.slash); [reflexivity|].
  pose proof (split_nonempty a) as Hne.
  destruct (NodePath.split a) as [|x xs]; [congruence | reflexivity].
Qed.

Lemma concat_cons2 (x y : string) (l : list string) :
  String.concat "/" (x :: y :: l) = x +:+ String NodePath.slash (String.concat "/" (y :: l)).
Proof. reflexivity. Qed.

Lemma split_concat (segs : list string) :
  segs <> [] -> Forall (fun s => noSlash s = true) segs ->
  NodePath.split (String.concat "/" segs) = segs.
Proof.
  induction segs as [|x [|y l] IH]; intros Hne Hall; [congruence| |].
  - cbn. apply split_noSlash. inversion Hall; assumption.
  - rewrite concat_cons2, split_append_slash.
    inversion Hall as [|? ? Hx Hrest]; subst.
    rewrite (split_noSlash x Hx), (IH ltac:(discriminate) Hrest). reflexivity.
Qed.

Lemma concat_app (xs ys : list string) :
  xs <> [] -> ys <> [] ->
  String.concat "/" (xs ++ ys)
  = String.concat "/" xs +:+ String NodePath.slash (String.concat "/" ys).
Proof.
  intros Hx Hy. induction xs as [|x [|x' xs] IH]; [congruence| |].
  - destruct ys as [|y ys]; [congruence|]. reflexivity.
  - change ((x :: x' :: xs) ++ ys) with (x :: x' :: (xs ++ ys)).
    rewrite !concat_cons2, append_assoc, append_cons. do 2 f_equal.
    apply (IH ltac:(discriminate)).
Qed.

Lemma normStep_clean (allow : bool) (stack : list string) (seg : string) :
  cleanSegment seg -> NodePath.normStep allow stack seg = seg :: stack.
Proof.
  intros (H0 & H1 & H2 & _). unfold NodePath.normStep.
  apply String.eqb_neq in H0, H1, H2. rewrite H0, H1, H2. reflexivity.
Qed.

Lemma normStep_empty (allow : bool) (stack : list string) :
  NodePath.normStep allow stack "" = stack.
Proof. reflexivity. Qed.

Lemma fold_normStep_clean (allow : bool) (segs stack : list string) :
  Forall cleanSegment segs ->
  fold_left (NodePath.normStep allow) segs stack = rev segs ++ stack.
Proof.
  revert stack. induction segs as [|x segs IH]; intros stack Hall; [reflexivity|].
  inversion Hall as [|? ? Hx Hrest]; subst. cbn [fold_left rev].
  rewrite (normStep_clean allow stack x Hx), (IH _ Hrest), <- app_assoc. reflexivity.
Qed.

Lemma cleanSegment_noSlash (segs : list string) :
  Forall cleanSegment segs -> Forall (fun s => noSlash s = true) segs.
Proof.
  intros Hall. eapply Forall_impl; [exact Hall|].
  intros s (_ & _ & _ & H). exact H.
Qed.

Lemma split_absolutePathOf (segs : list string) :
  segs <> [] -> Forall cleanSegment segs ->
  NodePath.split (absolutePathOf segs) = "" :: segs.
Proof.
  intros Hne Hall. unfold absolutePathOf.
  change ("/" +:+ String.concat "/" segs)
    with ("" +:+ String NodePath.slash (String.concat "/" segs)).
  rewrite split_append_slash, (split_concat segs Hne (cleanSegment_noSlash segs Hall)).
  reflexivity.
Qed.

(** [path.resolve(base, rel)] for a normalized absolute [base] and a
    relative [rel]: the segments of [rel] are applied to those of [base]. *)
Lemma resolve_from_absolute (cwd : string) (segs : list string) (rel : string) :
  segs <> [] -> Forall cleanSegment segs ->
  rel <> "" -> NodePath.isAbsolute rel = false ->
  NodePath.resolve cwd [absolutePathOf segs; rel]
  = "/" +:+ String.concat "/"
              (rev (fold_left (NodePath.normStep false) (NodePath.split rel) (rev segs))).
Proof.
  intros Hne Hall Hrel Habs. unfold NodePath.resolve.
  cbn [rev app NodePath.resolveLoop].
  assert (Hlen : (Js.len rel =? 0)%nat = false) by (destruct rel; [congruence | reflexivity]).
  rewrite Hlen, Habs.
  assert (Hbase : absolutePathOf segs = String NodePath.slash (String.concat "/" segs))
    by reflexivity.
  rewrite Hbase. cbn [Js.len String.length Nat.eqb].
  change (NodePath.isAbsolute (String NodePath.slash (String.concat "/" segs))) with true.
  cbn iota beta. rewrite <- Hbase.
  unfold NodePath.normalizeString.
  change (absolutePathOf segs +:+ "/" +:+ rel +:+ "/" +:+ "")
    with (absolutePathOf segs +:+ String NodePath.slash
            (rel +:+ String NodePath.slash "")).
  rewrite !split_append_slash, (split_absolutePathOf segs Hne Hall).
  change (NodePath.split "") with [""].
  rewrite !fold_left_app. cbn [fold_left negb].
  rewrite !normStep_empty, (fold_normStep_clean false segs [] Hall), app_nil_r.
  reflexivity.
Qed.
Lemma split_all_noSlash (s : string) :
  Forall (fun x => noSlash x = true) (NodePath.split s).
Proof.
  induction s as [|c s IH]; cbn; [repeat constructor|].
  destruct (Ascii.eqb c NodePath.slash) eqn:Hc; [constructor; [reflexivity | exact IH]|].
  destruct (NodePath.split s) as [|x xs]; [repeat constructor; cbn; rewrite Hc; reflexivity|].
  inversion IH as [|? ? Hx Hxs]; subst. constructor; [|exact Hxs].
  cbn. rewrite Hc. exact Hx.
Qed.

Lemma normStep_keeps_clean (stack : list string) (seg : string) :
  Forall cleanSegment stack -> noSlash seg = true ->
  Forall cleanSegment (NodePath.normStep false stack seg).
Proof.
  intros Hstack Hseg. unfold NodePath.normStep.
  destruct (String.eqb_spec seg "") as [->|H0]; [exact Hstack|].
  destruct (String.eqb_spec seg ".") as [->|H1]; [exact Hstack|]. cbn [orb].
  destruct (String.eqb_spec seg "..") as [->|H2].
  - destruct stack as [|top rest]; [constructor|].
    destruct (String.eqb top ".."); [exact Hstack|].
    inversion Hstack; assumption.
  - constructor; [repeat split; assumption | exact Hstack].
Qed.

Lemma fold_normStep_keeps_clean (segs stack : list string) :
  Forall cleanSegment stack -> Forall (fun x => noSlash x = true) segs ->
  Forall cleanSegment (fold_left (NodePath.normStep false) segs stack).
Proof.
  revert stack. induction segs as [|x segs IH]; intros stack Hstack Hsegs; [exact Hstack|].
  inversion Hsegs; subst. cbn. apply IH; [apply normStep_keeps_clean|]; assumption.
Qed.

Lemma resolveLoop_absolute (cwd : string) (args : list string) (acc : string) :
  NodePath.isAbsolute cwd = true ->
  snd (NodePath.resolveLoop (args ++ [cwd]) acc) = true.
Proof.
  intros Hcwd. revert acc. induction args as [|a args IH]; intros acc; cbn.
  - destruct cwd as [|c cwd]; [discriminate Hcwd|]. cbn. rewrite Hcwd. reflexivity.
  - destruct (Js.len a =? 0)%nat; [apply IH|].
    destruct (NodePath.isAbsolute a); [reflexivity | apply IH].
Qed.

(** In a process with an absolute working directory, [path.resolve]
    returns a normalized absolute path. *)
Lemma resolve_normal_form (cwd : string) (args : list string) :
  NodePath.isAbsolute cwd = true ->
  exists segs, Forall cleanSegment segs /\ NodePath.resolve cwd args = absolutePathOf segs.
Proof.
  intros Hcwd. unfold NodePath.resolve.
  pose proof (resolveLoop_absolute cwd (rev args) "" Hcwd) as Habs.
  destruct (NodePath.resolveLoop (rev args ++ [cwd]) "") as [p abs]. cbn in Habs. subst abs.
  exists (rev (fold_left (NodePath.normStep false) (NodePath.split p) [])).
  split; [|reflexivity].
  apply Forall_rev, fold_normStep_keeps_clean; [constructor | apply split_all_noSlash].
Qed.

Lemma absolutePathOf_root (segs : list string) :
  absolutePathOf segs <> "/" -> segs <> [].
Proof. intros H ->. apply H. reflexivity. Qed.

Section BaseDirectory.
Context (host : Host).

(** The base directory of a validated configuration is a normalized
    absolute path. *)
Lemma validateTsConfig_base_normal_form tsconfig d :
  NodePath.isAbsolute (processCwd host) = true ->
  validateTsConfig host tsconfig = Some d ->
  exists segs, Forall cleanSegment segs /\ absoluteBaseUrl d = absolutePathOf segs.
Proof.
  intros Hcwd. unfold validateTsConfig.
  destruct (tsConfigPath tsconfig) as [tp|]; [|discriminate].
  destruct (paths tsconfig); [|discriminate].
  destruct (baseUrl tsconfig) as [bu|]; [|discriminate].
  destruct (_ || _); [discriminate|].
  destruct (Js.truthy_opt _); [discriminate|].
  destruct (Js.truthy_opt _); [discriminate|].
  intros [= <-]. cbn [absoluteBaseUrl].
  apply resolve_normal_form, Hcwd.
Qed.

End BaseDirectory.

Section AliasTable.
Context (host : Host).

Lemma validateTsConfig_alias tsconfig d :
  validateTsConfig host tsconfig = Some d ->
  alias d = map (fun kv => ("^" +:+ Js.replaceFirstChar "*" ".*" (fst kv),
                            aliasResolver host (absoluteBaseUrl d) (fst kv) (snd kv)))
                (singlePath d).
Proof.
  unfold validateTsConfig.
  destruct (tsConfigPath tsconfig); [|discriminate].
  destruct (paths tsconfig); [|discriminate].
  destruct (baseUrl tsconfig); [|discriminate].
  destruct (_ || _); [discriminate|].
  destruct (Js.truthy_opt _); [discriminate|].
  destruct (Js.truthy_opt _); [discriminate|].
  intros [= <-]. reflexivity.
Qed.

Lemma resolve_lib_foo (segs : list string) :
  segs <> [] -> Forall cleanSegment segs ->
  NodePath.resolve (processCwd host) [absolutePathOf segs; "./src/lib/foo"]
  = absolutePathOf segs +:+ "/src/lib/foo".
Proof.
  intros Hne Hall.
  rewrite (resolve_from_absolute _ segs "./src/lib/foo" Hne Hall)
    by (discriminate || reflexivity).
  cbn [NodePath.split fold_left]. cbn.
  rewrite rev_involutive, <- !app_assoc. cbn [app].
  unfold absolutePathOf. rewrite (concat_app segs) by (assumption || discriminate).
  rewrite append_assoc. reflexivity.
Qed.

(** C6: every function of the alias table of a validated configuration
    is [aliasResolver] for its entry.  For a key ending in "/*" and a
    target ending in "*", applied to a specifier that matches the key, it
    puts the captured suffix in place of the target's "*", turns "/" into
    the host separator (which changes nothing on this host) and resolves
    the result against the base directory; "lib/*" for "./src/lib/*"
    applied to "lib/foo" gives <baseDir>/src/lib/foo.  For a key that does
    not end in "/*" it resolves the fixed target against the base
    directory, whatever the match groups are. *)
Theorem C6_alias_resolver tsconfig d
    (keyPrefix targetPrefix suffix : string) (rest : list string)
    (key value : string) (groups : list string) :
  NodePath.isAbsolute (processCwd host) = true ->
  validateTsConfig host tsconfig = Some d ->
  absoluteBaseUrl d <> "/" ->
  Js.endsWith key "/*" = false ->
  alias d = map (fun kv => ("^" +:+ Js.replaceFirstChar "*" ".*" (fst kv),
                            aliasResolver host (absoluteBaseUrl d) (fst kv) (snd kv)))
                (singlePath d)
  /\ aliasResolver host (absoluteBaseUrl d) (keyPrefix +:+ "/*")
       (Some (targetPrefix +:+ "*")) ((keyPrefix +:+ "/" +:+ suffix) :: rest)
     = Returned (NodePath.resolve (processCwd host)
                   [absoluteBaseUrl d;
                    Js.replaceAllChar "/" NodePath.sep (targetPrefix +:+ suffix)])
  /\ Js.replaceAllChar "/" NodePath.sep (targetPrefix +:+ suffix) = targetPrefix +:+ suffix
  /\ aliasResolver host (absoluteBaseUrl d) "lib/*" (Some "./src/lib/*") ["lib/foo"]
     = Returned (absoluteBaseUrl d +:+ "/src/lib/foo")
  /\ aliasResolver host (absoluteBaseUrl d) key (Some value) groups
     = Returned (NodePath.resolve (processCwd host)
                   [absoluteBaseUrl d; Js.replaceAllChar "/" NodePath.sep value]).
Proof.
  intros Hcwd Hvalid Hroot Hkey.
  destruct (validateTsConfig_base_normal_form host tsconfig d Hcwd Hvalid)
    as (segs & Hclean & Hbase).
  assert (Hne : segs <> []) by (apply absolutePathOf_root; rewrite <- Hbase; exact Hroot).
  split; [exact (validateTsConfig_alias tsconfig d Hvalid)|].
  split; [apply aliasResolver_wildcard|].
  split; [apply replaceAllChar_same|].
  split; [|apply aliasResolver_fixed; exact Hkey].
  transitivity (Returned (A:=string) (NodePath.resolve (processCwd host)
                  [absoluteBaseUrl d;
                   Js.replaceAllChar "/" NodePath.sep ("./src/lib/" +:+ "foo")])).
  { exact (aliasResolver_wildcard host (absoluteBaseUrl d) "lib" "./src/lib/" "foo" []). }
  rewrite replaceAllChar_same, Hbase.
  change ("./src/lib/" +:+ "foo") with "./src/lib/foo".
  rewrite (resolve_lib_foo segs Hne Hclean). reflexivity.
Qed.

End AliasTable.

(** The amended C6 on the configuration [libConfig]. *)
Lemma C6_witness :
  NodePath.isAbsolute (processCwd demoHost) = true
  /\ (absoluteBaseUrl <$> validateTsConfig demoHost libConfig) = Some "/repo/base"
  /\ Js.endsWith "@app" "/*" = false
  /\ (fun d => map (fun kv => (fst kv, snd kv ["lib/foo"])) (alias d))
       <$> validateTsConfig demoHost libConfig
     = Some [("^lib/.*", Returned "/repo/base/src/lib/foo");
             ("^@app", Returned "/repo/base/src/app/index")].
Proof.
  destruct (validateTsConfig demoHost libConfig) as [d|] eqn:Hvalid;
    [|vm_compute in Hvalid; discriminate].
  assert (Hbase : absoluteBaseUrl d = "/repo/base").
  { vm_compute in Hvalid. injection Hvalid as <-. reflexivity. }
  assert (Hsingle : singlePath d
            = [("lib/*", Some "./src/lib/*"); ("@app", Some "./src/app/index")]).
  { vm_compute in Hvalid. injection Hvalid as <-. reflexivity. }
  assert (Hroot : absoluteBaseUrl d <> "/") by (rewrite Hbase; discriminate).
  destruct (C6_alias_resolver demoHost libConfig d "lib" "./src/lib/" "foo" []
              "@app" "./src/app/index" ["lib/foo"] eq_refl Hvalid Hroot eq_refl)
    as (Halias & _ & _ & Hlib & Hfixed).
  split; [reflexivity|]. split; [cbn; rewrite Hbase; reflexivity|]. split; [reflexivity|].
  cbn [fmap option_fmap option_map]. f_equal.
  rewrite Halias, Hsingle. cbn [map fst snd].
  rewrite Hlib, Hfixed, Hbase. vm_compute. reflexivity.
Defined.

(** C6, refuted as stated: the key "lib*" ends in a wildcard and its
    target is returned with the "*" in it; the target "./src/*/index" of
    "app/*" loses its last character instead of its "*". *)
Lemma C6_counterexample :
  Js.endsWith "lib*" "*" = true
  /\ (fun d => (absoluteBaseUrl d, singlePath d, map fst (alias d)))
       <$> validateTsConfig demoHost starConfig
     = Some ("/repo/base",
             [("lib*", Some "./src/lib*"); ("app/*", Some "./src/*/index")],
             ["^lib.*"; "^app/.*"])
  /\ aliasResolver demoHost "/repo/base" "lib*" (Some "./src/lib*") ["libfoo"]
     = Returned "/repo/base/src/lib*"
  /\ aliasResolver demoHost "/repo/base" "app/*" (Some "./src/*/index") ["app/foo"]
     = Returned "/repo/base/src/*/indefoo".
Proof. vm_compute. repeat split. Qed.
(** ** The cache key *)

Lemma computeKey_material (digest : string -> string) fp esm content filePath ver :
  computeKey digest fp esm content filePath ver
  = digest (keyMaterial fp esm content filePath ver).
Proof.
  unfold computeKey, keyMaterial, update, createHash.
  rewrite append_nil_l, !append_assoc. reflexivity.
Qed.

(** C1 (amended): the key is the digest of the unseparated concatenation
    fingerprint, mode string, content, path, version.  Equal values give
    equal keys, and so do values whose concatenations are equal; for a
    digest without collisions, two keys are equal exactly when the two
    concatenations are. *)
Theorem C1_key_equal_iff_concatenation_equal (digest : string -> string)
    (fp1 fp2 : string) (esm1 esm2 : bool) (content1 content2 path1 path2 : string)
    (ver1 ver2 : Z) :
  (forall a b, digest a = digest b -> a = b) ->
  (computeKey digest fp1 esm1 content1 path1 ver1
     = computeKey digest fp2 esm2 content2 path2 ver2
   <-> keyMaterial fp1 esm1 content1 path1 ver1 = keyMaterial fp2 esm2 content2 path2 ver2)
  /\ ((fp1, esm1, content1, path1, ver1) = (fp2, esm2, content2, path2, ver2) ->
      computeKey digest fp1 esm1 content1 path1 ver1
        = computeKey digest fp2 esm2 content2 path2 ver2)
  /\ (keyMaterial fp1 esm1 content1 path1 ver1 = keyMaterial fp2 esm2 content2 path2 ver2 ->
      computeKey Sha1.digest_hex fp1 esm1 content1 path1 ver1
        = computeKey Sha1.digest_hex fp2 esm2 content2 path2 ver2).
Proof.
  intros Hinj. rewrite !computeKey_material. split; [|split].
  - split; [apply Hinj | intros ->; reflexivity].
  - intros [= -> -> -> -> ->]. reflexivity.
  - intros ->. reflexivity.
Qed.

(** C1, refuted as stated: two source units that differ in content and in
    path get the same key, and the same artifact path. *)
Lemma C1_counterexample :
  computeKey Sha1.digest_hex "" false "foo/a" "/b.ts" version
    = computeKey Sha1.digest_hex "" false "foo" "/a/b.ts" version
  /\ ("foo/a", "/b.ts") <> ("foo", "/a/b.ts")
  /\ calculateCachePath "/tmp/c" ∅ None "foo/a" "/b.ts"
     = calculateCachePath "/tmp/c" ∅ None "foo" "/a/b.ts"
  /\ calculateCachePath "/tmp/c" ∅ None "foo" "/a/b.ts"
     = "/tmp/c/58/b_58cd245996a67471d58033eaa577ab2ea215bfac".
Proof.
  split; [vm_compute; reflexivity|]. split; [discriminate|].
  split; vm_compute; reflexivity.
Qed.

(** The amended C1 for the identity as digest. *)
Lemma C1_witness :
  (forall a b : string, id a = id b -> a = b)
  /\ (computeKey id "" false "foo/a" "/b.ts" 6 = computeKey id "" false "foo" "/a/b.ts" 6)
  /\ (computeKey id "" false "foo" "/b.ts" 6 <> computeKey id "" true "foo" "/b.ts" 6).
Proof.
  assert (Hinj : forall a b : string, id a = id b -> a = b) by (intros a b H; exact H).
  split; [exact Hinj|]. split.
  - destruct (C1_key_equal_iff_concatenation_equal id "" "" false false "foo/a" "foo"
                "/b.ts" "/a/b.ts" 6 6 Hinj) as [[_ Hback] _].
    apply Hback. reflexivity.
  - intros H.
    destruct (C1_key_equal_iff_concatenation_equal id "" "" false true "foo" "foo"
                "/b.ts" "/b.ts" 6 6 Hinj) as [[Hforth _] _].
    apply Hforth in H. discriminate H.
Defined.
(** ** The artifact paths *)

Lemma all_append (p : ascii -> bool) (a b : string) :
  Js.all p (a +:+ b) = Js.all p a && Js.all p b.
Proof.
  induction a as [|x a IH]; [reflexivity|].
  rewrite append_cons. cbn. rewrite IH, andb_assoc. reflexivity.
Qed.

Lemma all_impl (p q : ascii -> bool) (s : string) :
  (forall c, p c = true -> q c = true) -> Js.all p s = true -> Js.all q s = true.
Proof.
  intros Hpq. induction s as [|x s IH]; cbn; [reflexivity|].
  intros H. apply andb_true_iff in H as [Hx Hs].
  rewrite (Hpq x Hx), (IH Hs). reflexivity.
Qed.

Lemma all_take (p : ascii -> bool) (n : nat) (s : string) :
  Js.all p s = true -> Js.all p (Js.take n s) = true.
Proof.
  revert s. induction n as [|n IH]; intros [|x s]; cbn; try reflexivity.
  intros H. apply andb_true_iff in H as [Hx Hs]. rewrite Hx, (IH s Hs). reflexivity.
Qed.

Lemma hexDigit_isHexChar (d : Z) : 0 <= d < 16 -> isHexChar (Sha1.hexDigit d) = true.
Proof.
  intros Hd.
  assert (H : d = 0 \/ d = 1 \/ d = 2 \/ d = 3 \/ d = 4 \/ d = 5 \/ d = 6 \/ d = 7 \/
              d = 8 \/ d = 9 \/ d = 10 \/ d = 11 \/ d = 12 \/ d = 13 \/ d = 14 \/ d = 15)
    by lia.
  repeat (destruct H as [->|H]; [reflexivity|]). subst d. reflexivity.
Qed.

Lemma nibble_range (y : Z) : 0 <= Z.land y 15 < 16.
Proof.
  change 15 with (Z.ones 4). rewrite Z.land_ones by lia.
  apply Z.mod_pos_bound. lia.
Qed.

Lemma hex32_len (x : Z) : Js.len (Sha1.hex32 x) = 8%nat.
Proof. reflexivity. Qed.

Lemma hex32_hex (x : Z) : Js.all isHexChar (Sha1.hex32 x) = true.
Proof.
  unfold Sha1.hex32. cbn [map String.string_of_list_ascii Js.all].
  rewrite !hexDigit_isHexChar by apply nibble_range. reflexivity.
Qed.

Lemma digest_hex_len (m : string) : Js.len (Sha1.digest_hex m) = 40%nat.
Proof.
  unfold Sha1.digest_hex. destruct (fold_left _ _ _) as [a b c d e].
  rewrite !len_append, !hex32_len. reflexivity.
Qed.

Lemma digest_hex_hex (m : string) : Js.all isHexChar (Sha1.digest_hex m) = true.
Proof.
  unfold Sha1.digest_hex. destruct (fold_left _ _ _) as [a b c d e].
  rewrite !all_append, !hex32_hex. reflexivity.
Qed.

Lemma isHexChar_isWordChar (c : ascii) : isHexChar c = true -> Js.isWordChar c = true.
Proof.
  unfold isHexChar, Js.isWordChar, Js.isLower, Js.isUpper, Js.isDigit.
  intros H. apply orb_true_iff in H as [H|H].
  - rewrite H. rewrite orb_true_r. reflexivity.
  - apply andb_true_iff in H as [H1 H2].
    apply Z.leb_le in H1, H2.
    replace (97 <=? Js.code c) with true by (symmetry; apply Z.leb_le; lia).
    replace (Js.code c <=? 122) with true by (symmetry; apply Z.leb_le; lia).
    cbn. rewrite orb_true_r. reflexivity.
Qed.

Lemma isWordChar_not (c x : ascii) :
  Js.isWordChar x = false -> Js.isWordChar c = true -> negb (Ascii.eqb c x) = true.
Proof.
  intros Hx Hc. destruct (Ascii.eqb_spec c x) as [->|_]; [congruence | reflexivity].
Qed.

Lemma stripNonWord_word (s : string) : Js.all Js.isWordChar (Js.stripNonWord s) = true.
Proof.
  induction s as [|x s IH]; cbn; [reflexivity|].
  destruct (Js.isWordChar x) eqn:Hx; cbn; [rewrite Hx|]; exact IH.
Qed.

Lemma stripNonWord_id (s : string) :
  Js.all Js.isWordChar s = true -> Js.stripNonWord s = s.
Proof.
  induction s as [|x s IH]; cbn; [reflexivity|].
  intros H. apply andb_true_iff in H as [Hx Hs]. rewrite Hx, (IH Hs). reflexivity.
Qed.

Lemma word_cleanSegment (s : string) :
  Js.all Js.isWordChar s = true -> s <> "" -> cleanSegment s.
Proof.
  intros Hall Hne. split; [exact Hne|].
  split; [intros ->; discriminate Hall|].
  split; [intros ->; discriminate Hall|].
  unfold noSlash. eapply all_impl; [|exact Hall].
  intros c. apply isWordChar_not. reflexivity.
Qed.

Lemma charStr_take2 (key : string) :
  (2 <= Js.len key)%nat -> charStr key 0 +:+ charStr key 1 = Js.take 2 key.
Proof.
  destruct key as [|a [|b key]]; cbn; try lia. reflexivity.
Qed.

Lemma take2_len (key : string) : (2 <= Js.len key)%nat -> Js.take 2 key <> "".
Proof. destruct key as [|a [|b key]]; cbn; try lia. discriminate. Qed.
Lemma get_all (p : ascii -> bool) (s : string) (n : nat) (c : ascii) :
  Js.all p s = true -> String.get n s = Some c -> p c = true.
Proof.
  revert n. induction s as [|x s IH]; intros n Hall Hget; [discriminate|].
  cbn in Hall. apply andb_true_iff in Hall as [Hx Hs].
  destruct n as [|n]; cbn in Hget; [congruence | eauto].
Qed.

Lemma len_pos (s : string) : s <> "" -> (0 < Js.len s)%nat.
Proof. destruct s; [congruence | cbn; lia]. Qed.

Lemma get_last_append (x b : string) :
  b <> "" ->
  String.get (Js.len (x +:+ b) - 1) (x +:+ b) = String.get (Js.len b - 1) b.
Proof.
  intros Hb. induction x as [|c x IH]; [reflexivity|].
  rewrite append_cons.
  assert (Hpos : (0 < Js.len (x +:+ b))%nat)
    by (rewrite len_append; pose proof (len_pos b Hb); lia).
  change (Js.len (String c (x +:+ b))) with (S (Js.len (x +:+ b))).
  replace (S (Js.len (x +:+ b)) - 1)%nat with (S (Js.len (x +:+ b) - 1)) by lia.
  exact IH.
Qed.

Lemma isCharAt_last_noSlash (x b : string) :
  b <> "" -> noSlash b = true ->
  Js.isCharAt (x +:+ b) (Z.of_nat (Js.len (x +:+ b)) - 1) NodePath.slash = false.
Proof.
  intros Hb Hns. unfold Js.isCharAt, Js.charAt.
  assert (Hpos : (0 < Js.len (x +:+ b))%nat)
    by (rewrite len_append; pose proof (len_pos b Hb); lia).
  replace (Z.of_nat (Js.len (x +:+ b)) - 1 <? 0) with false
    by (symmetry; apply Z.ltb_ge; lia).
  replace (Z.to_nat (Z.of_nat (Js.len (x +:+ b)) - 1)) with (Js.len (x +:+ b) - 1)%nat
    by lia.
  rewrite (get_last_append x b Hb).
  destruct (String.get (Js.len b - 1) b) as [c|] eqn:Hget; [|reflexivity].
  apply negb_true_iff. exact (get_all _ b _ c Hns Hget).
Qed.

(** [path.join(base, a, b)] for a normalized absolute [base] and two
    segments that need no normalization. *)
Lemma join_under_absolute (segs : list string) (a b : string) :
  segs <> [] -> Forall cleanSegment segs -> cleanSegment a -> cleanSegment b ->
  NodePath.join [absolutePathOf segs; a; b]
  = absolutePathOf segs +:+ "/" +:+ a +:+ "/" +:+ b.
Proof.
  intros Hne Hall Ha Hb. unfold NodePath.join.
  assert (Hta : Js.truthy a = true) by (apply truthy_nonempty, Ha).
  assert (Htb : Js.truthy b = true) by (apply truthy_nonempty, Hb).
  rewrite (filter_cons_True _ (absolutePathOf segs)) by reflexivity.
  rewrite (filter_cons_True _ a) by exact Hta.
  rewrite (filter_cons_True _ b) by exact Htb.
  rewrite filter_nil.
  change (String.concat "/" [absolutePathOf segs; a; b])
    with (absolutePathOf segs +:+ String NodePath.slash (a +:+ String NodePath.slash b)).
  set (path := absolutePathOf segs +:+ String NodePath.slash (a +:+ String NodePath.slash b)).
  unfold NodePath.normalize.
  assert (Hlen : (Js.len path =? 0)%nat = false) by reflexivity.
  assert (Habs : NodePath.isAbsolute path = true) by reflexivity.
  assert (Htrail : Js.isCharAt path (Z.of_nat (Js.len path) - 1) NodePath.slash = false).
  { subst path.
    replace (absolutePathOf segs +:+ String NodePath.slash (a +:+ String NodePath.slash b))
      with ((absolutePathOf segs +:+ String NodePath.slash (a +:+ "/")) +:+ b).
    - apply isCharAt_last_noSlash; apply Hb.
    - rewrite !append_assoc, !append_cons, append_assoc. reflexivity. }
  rewrite Hlen, Habs, Htrail. cbn [negb].
  assert (Hnorm : NodePath.normalizeString path false
                  = String.concat "/" segs +:+ String NodePath.slash (a +:+ String NodePath.slash b)).
  { unfold NodePath.normalizeString. subst path.
    rewrite !split_append_slash, (split_absolutePathOf segs Hne Hall).
    rewrite (split_noSlash a) by apply Ha. rewrite (split_noSlash b) by apply Hb.
    change (("" :: segs) ++ [a] ++ [b]) with ("" :: (segs ++ [a; b])).
    cbn [fold_left]. rewrite normStep_empty.
    rewrite (fold_normStep_clean false (segs ++ [a; b]) []), app_nil_r, rev_involutive
      by (apply Forall_app; split; [exact Hall | repeat (constructor; [assumption|]); constructor]).
    rewrite (concat_app segs [a; b]) by (assumption || discriminate). reflexivity. }
  rewrite Hnorm.
  destruct (String.concat "/" segs +:+ String NodePath.slash (a +:+ String NodePath.slash b))
    as [|c0 s0] eqn:Hp.
  - destruct (String.concat "/" segs); discriminate Hp.
  - cbn [Js.len String.length Nat.eqb]. rewrite <- Hp. reflexivity.
Qed.

(** C8 (amended): under a normalized absolute cache root, the cache path
    is the root, one directory named by the first two characters of the
    key, and the file name made of the stem of the source file without
    the characters outside [A-Za-z0-9_], "_" and the key; the key has 40
    hexadecimal characters. *)
Theorem C8_one_shard_directory_word_stem (cacheDir : string) (segs : list string)
    (env : gmap string string) (tsconfigData : option ParsedTsConfigData)
    (content filePath : string) :
  cacheDir = absolutePathOf segs ->
  segs <> [] ->
  Forall cleanSegment segs ->
  Js.len (computeKey Sha1.digest_hex (fingerprintOf tsconfigData)
            (Js.truthy_opt (env !! "PW_EXPERIMENTAL_TS_ESM")) content filePath version)
    = 40%nat
  /\ Js.all isHexChar
       (computeKey Sha1.digest_hex (fingerprintOf tsconfigData)
          (Js.truthy_opt (env !! "PW_EXPERIMENTAL_TS_ESM")) content filePath version)
     = true
  /\ calculateCachePath cacheDir env tsconfigData content filePath
     = cacheDir +:+ "/"
       +:+ Js.take 2 (computeKey Sha1.digest_hex (fingerprintOf tsconfigData)
                        (Js.truthy_opt (env !! "PW_EXPERIMENTAL_TS_ESM"))
                        content filePath version)
       +:+ "/"
       +:+ Js.stripNonWord (NodePath.basename filePath (NodePath.extname filePath))
       +:+ "_"
       +:+ computeKey Sha1.digest_hex (fingerprintOf tsconfigData)
             (Js.truthy_opt (env !! "PW_EXPERIMENTAL_TS_ESM")) content filePath version
  /\ Js.all Js.isWordChar
       (Js.stripNonWord (NodePath.basename filePath (NodePath.extname filePath))) = true
  /\ Js.isWordChar "_" = true.
Proof.
  intros -> Hne Hall. unfold calculateCachePath.
  set (key := computeKey Sha1.digest_hex _ _ _ _ _).
  set (stem := NodePath.basename filePath (NodePath.extname filePath)).
  assert (Hlen : Js.len key = 40%nat) by (apply digest_hex_len).
  assert (Hhex : Js.all isHexChar key = true) by (apply digest_hex_hex).
  assert (Hword : Js.all Js.isWordChar key = true)
    by (eapply all_impl; [apply isHexChar_isWordChar | exact Hhex]).
  split; [exact Hlen|]. split; [exact Hhex|].
  split; [|split; [apply stripNonWord_word | reflexivity]].
  rewrite charStr_take2 by lia.
  apply join_under_absolute; try assumption.
  - apply word_cleanSegment; [apply all_take, Hword | apply take2_len; lia].
  - apply word_cleanSegment.
    + rewrite !all_append, stripNonWord_word, Hword. reflexivity.
    + destruct (Js.stripNonWord stem); discriminate.
Qed.

(** C8, refuted as stated: one directory "15", not "1/5", and the
    underscore of the stem is kept. *)
Lemma C8_counterexample :
  calculateCachePath "/tmp/c" ∅ None "foo" "/a/my_file-1.spec.ts"
    = "/tmp/c/15/my_file1spec_151aafd0a2a2d6501271a6d58adbf8ff1f0de9c3"
  /\ NodePath.basename "/a/my_file-1.spec.ts" (NodePath.extname "/a/my_file-1.spec.ts")
     = "my_file-1.spec"
  /\ twoLevelCachePath "/tmp/c" "151aafd0a2a2d6501271a6d58adbf8ff1f0de9c3" "my_file-1.spec"
     = "/tmp/c/1/5/myfile1spec_151aafd0a2a2d6501271a6d58adbf8ff1f0de9c3"
  /\ calculateCachePath "/tmp/c" ∅ None "foo" "/a/my_file-1.spec.ts"
     <> twoLevelCachePath "/tmp/c" "151aafd0a2a2d6501271a6d58adbf8ff1f0de9c3" "my_file-1.spec".
Proof.
  split; [vm_compute; reflexivity|]. split; [vm_compute; reflexivity|].
  split; [vm_compute; reflexivity|]. vm_compute. discriminate.
Qed.

(** The amended C8 under the default cache root. *)
Lemma C8_witness :
  "/tmp/playwright-transform-cache" = absolutePathOf ["tmp"; "playwright-transform-cache"]
  /\ calculateCachePath "/tmp/playwright-transform-cache" ∅ None specSource "/p/a.spec.ts"
     = "/tmp/playwright-transform-cache" +:+ "/" +:+ "53" +:+ "/" +:+ "aspec" +:+ "_"
       +:+ "53243cee406ad2bab77bc2e658150b124800848b".
Proof.
  assert (Hclean : Forall cleanSegment ["tmp"; "playwright-transform-cache"])
    by (repeat constructor; discriminate).
  destruct (C8_one_shard_directory_word_stem "/tmp/playwright-transform-cache"
              ["tmp"; "playwright-transform-cache"] ∅ None specSource "/p/a.spec.ts"
              eq_refl ltac:(discriminate) Hclean) as (_ & _ & Hpath & _).
  split; [reflexivity|]. rewrite Hpath. vm_compute. reflexivity.
Defined.

(** * Further properties of the module *)

(** ** The transform on a miss *)

Section Persist.
Context (host : Host).

Lemma transformAndPersist_eq td cachePath codePath sourceMapPath filename isModule w :
  transformAndPersist host td cachePath codePath sourceMapPath filename isModule w =
  let w0 := with_env browserslistSilenced w in
  let options := babelOptions td (env w) isModule in
  match transformFileSync host (files w) (browserslistSilenced (env w)) filename options with
  | Thrown e => (Thrown e, log (EvEngine filename options) w0)
  | Returned result =>
      match code result with
      | Some (String c0 c) =>
          (Returned (String c0 c),
           with_files (insert codePath (String c0 c))
             (log (EvWrite codePath)
                (match map_ result with
                 | Some m =>
                     with_files (insert sourceMapPath m)
                       (log (EvWrite sourceMapPath)
                          (log (EvMkdir (NodePath.dirname cachePath))
                             (log (EvEngine filename options) w0)))
                 | None =>
                     log (EvMkdir (NodePath.dirname cachePath))
                       (log (EvEngine filename options) w0)
                 end)))
      | _ => (Returned "", log (EvEngine filename options) w0)
      end
  end.
Proof.
  unfold transformAndPersist, bind, modify, getenv, gets, ret, mkdirSync, writeFileSync.
  cbn -[pluginsFor].
  assert (Hct : browserslistSilenced (env w) !! "PW_COMPONENT_TESTING"
                = env w !! "PW_COMPONENT_TESTING")
    by (apply lookup_insert_ne; discriminate).
  unfold babelOptions. unfold browserslistSilenced in *. rewrite Hct.
  destruct (transformFileSync host _ _ _ _) as [result|e]; [|reflexivity].
  destruct (code result) as [[|c0 c]|]; cbn; try reflexivity.
  destruct (map_ result); reflexivity.
Qed.

End Persist.
(** ** Hits and misses of [transformHook] *)

Section HitMiss.
Context (host : Host).

Lemma loadAndValidateTsconfigForFile_frame file w td w1 :
  loadAndValidateTsconfigForFile host file w = (Returned td, w1) ->
  env w1 = env w /\ files w1 = files w /\ cacheDir w1 = cacheDir w
  /\ sourceMaps w1 = sourceMaps w
  /\ cachedTSConfigs w1 !! NodePath.dirname file = Some td.
Proof.
  rewrite loadAndValidateTsconfigForFile_eq.
  destruct (cachedTSConfigs w !! NodePath.dirname file) as [memo|] eqn:Hm.
  - intros [= <- <-]. auto.
  - destruct (tsConfigLoader host _ _ _); [|discriminate].
    intros [= <- <-]. cbn. rewrite lookup_insert_eq. auto.
Qed.

(** The world in which the artifact store is read. *)
Lemma transformHook_probe_eq code filename isModule w td w1 :
  isComponentImport (env w) filename = false ->
  loadAndValidateTsconfigForFile host filename w = (Returned td, w1) ->
  transformHook host code filename isModule w =
  let cachePath := calculateCachePath (cacheDir w) (env w) td code filename in
  match probeCache (cachePath +:+ ".js")
          (with_sourceMaps (insert filename (cachePath +:+ ".map"))
             (log (EvRegister filename (cachePath +:+ ".map"))
                (log (EvDigest cachePath) w1))) with
  | (Returned (Some stored), w3) => (Returned stored, w3)
  | (Returned None, w3) =>
      transformAndPersist host td cachePath (cachePath +:+ ".js")
        (cachePath +:+ ".map") filename isModule w3
  | (Thrown e, w3) => (Thrown e, w3)
  end.
Proof.
  intros Hstub Hload. rewrite transformHook_eq, Hstub, transformAndCache_eq, Hload.
  destruct (loadAndValidateTsconfigForFile_frame filename w td w1 Hload)
    as (-> & _ & -> & _). reflexivity.
Qed.

Lemma transformHook_miss_eq code filename isModule w td w1 cachePath :
  isComponentImport (env w) filename = false ->
  loadAndValidateTsconfigForFile host filename w = (Returned td, w1) ->
  cachePath = calculateCachePath (cacheDir w) (env w) td code filename ->
  Js.truthy_opt (env w !! "PW_IGNORE_COMPILE_CACHE") = true
  \/ files w !! (cachePath +:+ ".js") = None ->
  exists w3,
    transformHook host code filename isModule w
    = transformAndPersist host td cachePath (cachePath +:+ ".js") (cachePath +:+ ".map")
        filename isModule w3
    /\ env w3 = env w /\ files w3 = files w
    /\ sourceMaps w3 = <[filename := cachePath +:+ ".map"]> (sourceMaps w)
    /\ (Js.truthy_opt (env w !! "PW_IGNORE_COMPILE_CACHE") = true ->
        w3 = registered filename cachePath w1)
    /\ (Js.truthy_opt (env w !! "PW_IGNORE_COMPILE_CACHE") = false ->
        w3 = log (EvExists (cachePath +:+ ".js")) (registered filename cachePath w1)).
Proof.
  intros Hstub Hload -> Hmiss.
  rewrite (transformHook_probe_eq code filename isModule w td w1 Hstub Hload). cbn zeta.
  destruct (loadAndValidateTsconfigForFile_frame filename w td w1 Hload)
    as (He & Hf & _ & Hs & _).
  rewrite probeCache_eq. cbn [env files with_sourceMaps log]. rewrite He, Hf.
  destruct (Js.truthy_opt (env w !! "PW_IGNORE_COMPILE_CACHE")) eqn:Hign.
  - eexists. split; [reflexivity|]. cbn. rewrite He, Hf, Hs.
    repeat split; try reflexivity. discriminate.
  - destruct Hmiss as [Hm|Hm]; [discriminate|]. rewrite Hm.
    eexists. split; [reflexivity|]. cbn. rewrite He, Hf, Hs.
    repeat split; try reflexivity. discriminate.
Qed.

Lemma transformHook_hit_aux code filename isModule w td w1 cachePath stored :
  isComponentImport (env w) filename = false ->
  loadAndValidateTsconfigForFile host filename w = (Returned td, w1) ->
  cachePath = calculateCachePath (cacheDir w) (env w) td code filename ->
  Js.truthy_opt (env w !! "PW_IGNORE_COMPILE_CACHE") = false ->
  files w !! (cachePath +:+ ".js") = Some stored ->
  transformHook host code filename isModule w
  = (Returned stored,
     log (EvRead (cachePath +:+ ".js"))
       (log (EvExists (cachePath +:+ ".js")) (registered filename cachePath w1)))
  /\ files (snd (transformHook host code filename isModule w)) = files w
  /\ env (snd (transformHook host code filename isModule w)) = env w
  /\ trace (snd (transformHook host code filename isModule w))
     = trace w1 ++ [EvDigest cachePath; EvRegister filename (cachePath +:+ ".map");
                    EvExists (cachePath +:+ ".js"); EvRead (cachePath +:+ ".js")].
Proof.
  intros Hstub Hload -> Hign Hfile.
  rewrite (transformHook_probe_eq code filename isModule w td w1 Hstub Hload). cbn zeta.
  destruct (loadAndValidateTsconfigForFile_frame filename w td w1 Hload)
    as (He & Hf & _ & _ & _).
  rewrite probeCache_eq. cbn [env files with_sourceMaps log]. rewrite He, Hf, Hign, Hfile.
  cbn. rewrite He, Hf, <- !app_assoc. auto.
Qed.

(** X2: on a hit the stored code is returned as it is; the file system and
    the environment are not changed and Babel is not called. *)
Theorem transformHook_hit code filename isModule w td w1 cachePath stored :
  isComponentImport (env w) filename = false ->
  loadAndValidateTsconfigForFile host filename w = (Returned td, w1) ->
  cachePath = calculateCachePath (cacheDir w) (env w) td code filename ->
  Js.truthy_opt (env w !! "PW_IGNORE_COMPILE_CACHE") = false ->
  files w !! (cachePath +:+ ".js") = Some stored ->
  transformHook host code filename isModule w
  = (Returned stored,
     log (EvRead (cachePath +:+ ".js"))
       (log (EvExists (cachePath +:+ ".js")) (registered filename cachePath w1)))
  /\ files (snd (transformHook host code filename isModule w)) = files w
  /\ env (snd (transformHook host code filename isModule w)) = env w
  /\ trace (snd (transformHook host code filename isModule w))
     = trace w1 ++ [EvDigest cachePath; EvRegister filename (cachePath +:+ ".map");
                    EvExists (cachePath +:+ ".js"); EvRead (cachePath +:+ ".js")].
Proof.
  intros Hstub Hload -> Hign Hfile.
  rewrite (transformHook_probe_eq code filename isModule w td w1 Hstub Hload). cbn zeta.
  destruct (loadAndValidateTsconfigForFile_frame filename w td w1 Hload)
    as (He & Hf & _ & _ & _).
  rewrite probeCache_eq. cbn [env files with_sourceMaps log]. rewrite He, Hf, Hign, Hfile.
  cbn. rewrite He, Hf, <- !app_assoc. auto.
Qed.

Lemma transformHook_miss_persists_aux source filename isModule w td w1 cachePath result c0 c :
  isComponentImport (env w) filename = false ->
  loadAndValidateTsconfigForFile host filename w = (Returned td, w1) ->
  cachePath = calculateCachePath (cacheDir w) (env w) td source filename ->
  Js.truthy_opt (env w !! "PW_IGNORE_COMPILE_CACHE") = true
  \/ files w !! (cachePath +:+ ".js") = None ->
  transformFileSync host (files w) (browserslistSilenced (env w)) filename
    (babelOptions td (env w) isModule) = Returned result ->
  code result = Some (String c0 c) ->
  fst (transformHook host source filename isModule w) = Returned (String c0 c)
  /\ files (snd (transformHook host source filename isModule w))
     = <[cachePath +:+ ".js" := String c0 c]>
         (match map_ result with
          | Some m => <[cachePath +:+ ".map" := m]> (files w)
          | None => files w
          end)
  /\ env (snd (transformHook host source filename isModule w)) = browserslistSilenced (env w)
  /\ sourceMaps (snd (transformHook host source filename isModule w))
     = <[filename := cachePath +:+ ".map"]> (sourceMaps w).
Proof.
  intros Hstub Hload Hpath Hmiss Hengine Hcode.
  destruct (transformHook_miss_eq source filename isModule w td w1 cachePath
              Hstub Hload Hpath Hmiss) as (w3 & -> & He & Hf & Hs & _).
  rewrite transformAndPersist_eq. cbn zeta. rewrite He, Hf, Hengine, Hcode.
  destruct (map_ result); cbn; rewrite ?He, ?Hf, ?Hs; auto.
Qed.

(** X3: a miss whose transform produces code: the code is returned and
    stored under the code path; the map is stored only if Babel produced
    one; the environment gets the browserslist setting. *)
Theorem transformHook_miss_persists source filename isModule w td w1 cachePath result c0 c :
  isComponentImport (env w) filename = false ->
  loadAndValidateTsconfigForFile host filename w = (Returned td, w1) ->
  cachePath = calculateCachePath (cacheDir w) (env w) td source filename ->
  Js.truthy_opt (env w !! "PW_IGNORE_COMPILE_CACHE") = true
  \/ files w !! (cachePath +:+ ".js") = None ->
  transformFileSync host (files w) (browserslistSilenced (env w)) filename
    (babelOptions td (env w) isModule) = Returned result ->
  code result = Some (String c0 c) ->
  fst (transformHook host source filename isModule w) = Returned (String c0 c)
  /\ files (snd (transformHook host source filename isModule w))
     = <[cachePath +:+ ".js" := String c0 c]>
         (match map_ result with
          | Some m => <[cachePath +:+ ".map" := m]> (files w)
          | None => files w
          end)
  /\ env (snd (transformHook host source filename isModule w)) = browserslistSilenced (env w)
  /\ sourceMaps (snd (transformHook host source filename isModule w))
     = <[filename := cachePath +:+ ".map"]> (sourceMaps w).
Proof.
  intros Hstub Hload Hpath Hmiss Hengine Hcode.
  destruct (transformHook_miss_eq source filename isModule w td w1 cachePath
              Hstub Hload Hpath Hmiss) as (w3 & -> & He & Hf & Hs & _).
  rewrite transformAndPersist_eq. cbn zeta. rewrite He, Hf, Hengine, Hcode.
  destruct (map_ result); cbn; rewrite ?He, ?Hf, ?Hs; auto.
Qed.

Lemma transformHook_miss_without_code_aux source filename isModule w td w1 cachePath result :
  isComponentImport (env w) filename = false ->
  loadAndValidateTsconfigForFile host filename w = (Returned td, w1) ->
  cachePath = calculateCachePath (cacheDir w) (env w) td source filename ->
  Js.truthy_opt (env w !! "PW_IGNORE_COMPILE_CACHE") = true
  \/ files w !! (cachePath +:+ ".js") = None ->
  transformFileSync host (files w) (browserslistSilenced (env w)) filename
    (babelOptions td (env w) isModule) = Returned result ->
  code result = None \/ code result = Some "" ->
  fst (transformHook host source filename isModule w) = Returned ""
  /\ files (snd (transformHook host source filename isModule w)) = files w
  /\ Forall (fun e => match e with EvWrite _ | EvMkdir _ => False | _ => True end)
       (drop (length (trace w1))
          (trace (snd (transformHook host source filename isModule w)))).
Proof.
  intros Hstub Hload Hpath Hmiss Hengine Hcode.
  destruct (transformHook_miss_eq source filename isModule w td w1 cachePath
              Hstub Hload Hpath Hmiss) as (w3 & -> & He & Hf & Hs & Hon & Hoff).
  rewrite transformAndPersist_eq. cbn zeta. rewrite He, Hf, Hengine.
  assert (Hres : match code result with
                 | Some (String c0 c) => False | _ => True end)
    by (destruct Hcode as [-> | ->]; exact I).
  destruct (code result) as [[|c0 c]|]; try contradiction; cbn; rewrite ?Hf.
  all: split; [reflexivity|]; split; [reflexivity|].
  all: destruct (Js.truthy_opt (env w !! "PW_IGNORE_COMPILE_CACHE"));
    [rewrite (Hon eq_refl) | rewrite (Hoff eq_refl)]; cbn;
    rewrite <- !app_assoc, drop_app_length; repeat constructor.
Qed.

(** X4: a miss whose transform produces no code, or the empty string:
    [transformHook] returns the empty string and stores nothing. *)
Theorem transformHook_miss_without_code source filename isModule w td w1 cachePath result :
  isComponentImport (env w) filename = false ->
  loadAndValidateTsconfigForFile host filename w = (Returned td, w1) ->
  cachePath = calculateCachePath (cacheDir w) (env w) td source filename ->
  Js.truthy_opt (env w !! "PW_IGNORE_COMPILE_CACHE") = true
  \/ files w !! (cachePath +:+ ".js") = None ->
  transformFileSync host (files w) (browserslistSilenced (env w)) filename
    (babelOptions td (env w) isModule) = Returned result ->
  code result = None \/ code result = Some "" ->
  fst (transformHook host source filename isModule w) = Returned ""
  /\ files (snd (transformHook host source filename isModule w)) = files w
  /\ Forall (fun e => match e with EvWrite _ | EvMkdir _ => False | _ => True end)
       (drop (length (trace w1))
          (trace (snd (transformHook host source filename isModule w)))).
Proof.
  intros Hstub Hload Hpath Hmiss Hengine Hcode.
  destruct (transformHook_miss_eq source filename isModule w td w1 cachePath
              Hstub Hload Hpath Hmiss) as (w3 & -> & He & Hf & Hs & Hon & Hoff).
  rewrite transformAndPersist_eq. cbn zeta. rewrite He, Hf, Hengine.
  assert (Hres : match code result with
                 | Some (String c0 c) => False | _ => True end)
    by (destruct Hcode as [-> | ->]; exact I).
  destruct (code result) as [[|c0 c]|]; try contradiction; cbn; rewrite ?Hf.
  all: split; [reflexivity|]; split; [reflexivity|].
  all: destruct (Js.truthy_opt (env w !! "PW_IGNORE_COMPILE_CACHE"));
    [rewrite (Hon eq_refl) | rewrite (Hoff eq_refl)]; cbn;
    rewrite <- !app_assoc, drop_app_length; repeat constructor.
Qed.

Lemma transformHook_engine_failure_aux source filename isModule w td w1 cachePath e :
  isComponentImport (env w) filename = false ->
  loadAndValidateTsconfigForFile host filename w = (Returned td, w1) ->
  cachePath = calculateCachePath (cacheDir w) (env w) td source filename ->
  Js.truthy_opt (env w !! "PW_IGNORE_COMPILE_CACHE") = true
  \/ files w !! (cachePath +:+ ".js") = None ->
  transformFileSync host (files w) (browserslistSilenced (env w)) filename
    (babelOptions td (env w) isModule) = Thrown e ->
  fst (transformHook host source filename isModule w) = Thrown e
  /\ files (snd (transformHook host source filename isModule w)) = files w
  /\ sourceMaps (snd (transformHook host source filename isModule w)) !! filename
     = Some (cachePath +:+ ".map")
  /\ env (snd (transformHook host source filename isModule w)) = browserslistSilenced (env w).
Proof.
  intros Hstub Hload Hpath Hmiss Hengine.
  destruct (transformHook_miss_eq source filename isModule w td w1 cachePath
              Hstub Hload Hpath Hmiss) as (w3 & -> & He & Hf & Hs & _).
  rewrite transformAndPersist_eq. cbn zeta. rewrite He, Hf, Hengine. cbn.
  rewrite Hf, Hs, He, lookup_insert_eq. auto.
Qed.

(** X5: a failing transform: the exception of Babel leaves [transformHook];
    nothing is stored, but the map path stays registered and the
    environment keeps the browserslist setting. *)
Theorem transformHook_engine_failure source filename isModule w td w1 cachePath e :
  isComponentImport (env w) filename = false ->
  loadAndValidateTsconfigForFile host filename w = (Returned td, w1) ->
  cachePath = calculateCachePath (cacheDir w) (env w) td source filename ->
  Js.truthy_opt (env w !! "PW_IGNORE_COMPILE_CACHE") = true
  \/ files w !! (cachePath +:+ ".js") = None ->
  transformFileSync host (files w) (browserslistSilenced (env w)) filename
    (babelOptions td (env w) isModule) = Thrown e ->
  fst (transformHook host source filename isModule w) = Thrown e
  /\ files (snd (transformHook host source filename isModule w)) = files w
  /\ sourceMaps (snd (transformHook host source filename isModule w)) !! filename
     = Some (cachePath +:+ ".map")
  /\ env (snd (transformHook host source filename isModule w)) = browserslistSilenced (env w).
Proof.
  intros Hstub Hload Hpath Hmiss Hengine.
  destruct (transformHook_miss_eq source filename isModule w td w1 cachePath
              Hstub Hload Hpath Hmiss) as (w3 & -> & He & Hf & Hs & _).
  rewrite transformAndPersist_eq. cbn zeta. rewrite He, Hf, Hengine. cbn.
  rewrite Hf, Hs, He, lookup_insert_eq. auto.
Qed.

End HitMiss.
(** ** What a call of [transformHook] leaves alone *)

Section Frame.
Context (host : Host).

Lemma transformHook_frame_aux source filename isModule w :
  cacheDir (snd (transformHook host source filename isModule w)) = cacheDir w
  /\ prepareStackTrace (snd (transformHook host source filename isModule w))
     = prepareStackTrace w
  /\ stackTraceLimit (snd (transformHook host source filename isModule w))
     = stackTraceLimit w
  /\ (forall k, k <> "BROWSERSLIST_IGNORE_OLD_DATA" ->
        env (snd (transformHook host source filename isModule w)) !! k = env w !! k)
  /\ (forall d v, cachedTSConfigs w !! d = Some v ->
        cachedTSConfigs (snd (transformHook host source filename isModule w)) !! d = Some v)
  /\ (forall f, f <> filename ->
        sourceMaps (snd (transformHook host source filename isModule w)) !! f
        = sourceMaps w !! f).
Proof.
  rewrite transformHook_eq.
  destruct (isComponentImport (env w) filename) eqn:Hstub; [cbn; auto 10|].
  rewrite transformAndCache_eq, loadAndValidateTsconfigForFile_eq.
  set (cwd := NodePath.dirname filename).
  assert (Hmemo : forall v0 d v, cachedTSConfigs w !! cwd = None ->
            cachedTSConfigs w !! d = Some v ->
            <[cwd := v0]> (cachedTSConfigs w) !! d = Some v).
  { intros v0 d v Hnone Hd. rewrite lookup_insert_ne; [exact Hd|]. intros <-. congruence. }
  assert (Henv : forall k, k <> "BROWSERSLIST_IGNORE_OLD_DATA" ->
            browserslistSilenced (env w) !! k = env w !! k).
  { intros k Hk. apply lookup_insert_ne. congruence. }
  destruct (cachedTSConfigs w !! cwd) as [memo|] eqn:Hm;
    [|destruct (tsConfigLoader host (env w) (files w) cwd) as [loaded|e0];
      [|cbn; repeat split; auto]];
    cbn -[probeCache transformAndPersist calculateCachePath];
    rewrite probeCache_eq; cbn [env files with_sourceMaps log with_cachedTSConfigs];
    destruct (Js.truthy_opt (env w !! "PW_IGNORE_COMPILE_CACHE"));
    try (destruct (files w !! _));
    try rewrite transformAndPersist_eq; cbn zeta;
    cbn [env files with_sourceMaps log with_cachedTSConfigs];
    try (destruct (transformFileSync host _ _ _ _) as [result|e];
         [destruct (code result) as [[|c0 c]|]; [| destruct (map_ result) |] |]);
    cbn; repeat split; auto; intros; rewrite ?lookup_insert_ne by congruence; auto.
Qed.

(** X21: a call of [transformHook] does not touch the cache root or the two
    [Error] globals, changes no environment variable other than
    [BROWSERSLIST_IGNORE_OLD_DATA], keeps every memoized configuration,
    and changes no registered map path but that of its own file. *)
Theorem transformHook_frame source filename isModule w :
  cacheDir (snd (transformHook host source filename isModule w)) = cacheDir w
  /\ prepareStackTrace (snd (transformHook host source filename isModule w))
     = prepareStackTrace w
  /\ stackTraceLimit (snd (transformHook host source filename isModule w))
     = stackTraceLimit w
  /\ (forall k, k <> "BROWSERSLIST_IGNORE_OLD_DATA" ->
        env (snd (transformHook host source filename isModule w)) !! k = env w !! k)
  /\ (forall d v, cachedTSConfigs w !! d = Some v ->
        cachedTSConfigs (snd (transformHook host source filename isModule w)) !! d = Some v)
  /\ (forall f, f <> filename ->
        sourceMaps (snd (transformHook host source filename isModule w)) !! f
        = sourceMaps w !! f).
Proof.
  rewrite transformHook_eq.
  destruct (isComponentImport (env w) filename) eqn:Hstub; [cbn; auto 10|].
  rewrite transformAndCache_eq, loadAndValidateTsconfigForFile_eq.
  set (cwd := NodePath.dirname filename).
  assert (Hmemo : forall v0 d v, cachedTSConfigs w !! cwd = None ->
            cachedTSConfigs w !! d = Some v ->
            <[cwd := v0]> (cachedTSConfigs w) !! d = Some v).
  { intros v0 d v Hnone Hd. rewrite lookup_insert_ne; [exact Hd|]. intros <-. congruence. }
  assert (Henv : forall k, k <> "BROWSERSLIST_IGNORE_OLD_DATA" ->
            browserslistSilenced (env w) !! k = env w !! k).
  { intros k Hk. apply lookup_insert_ne. congruence. }
  destruct (cachedTSConfigs w !! cwd) as [memo|] eqn:Hm;
    [|destruct (tsConfigLoader host (env w) (files w) cwd) as [loaded|e0];
      [|cbn; repeat split; auto]];
    cbn -[probeCache transformAndPersist calculateCachePath];
    rewrite probeCache_eq; cbn [env files with_sourceMaps log with_cachedTSConfigs];
    destruct (Js.truthy_opt (env w !! "PW_IGNORE_COMPILE_CACHE"));
    try (destruct (files w !! _));
    try rewrite transformAndPersist_eq; cbn zeta;
    cbn [env files with_sourceMaps log with_cachedTSConfigs];
    try (destruct (transformFileSync host _ _ _ _) as [result|e];
         [destruct (code result) as [[|c0 c]|]; [| destruct (map_ result) |] |]);
    cbn; repeat split; auto; intros; rewrite ?lookup_insert_ne by congruence; auto.
Qed.

End Frame.
(** ** A second call is answered from the cache *)

Lemma isComponentImport_env (env1 env2 : gmap string string) (filename : string) :
  env1 !! "PW_COMPONENT_TESTING" = env2 !! "PW_COMPONENT_TESTING" ->
  isComponentImport env1 filename = isComponentImport env2 filename.
Proof. intros H. unfold isComponentImport. rewrite H. reflexivity. Qed.

Lemma calculateCachePath_env (cacheDir : string) (env1 env2 : gmap string string)
    td content filePath :
  env1 !! "PW_EXPERIMENTAL_TS_ESM" = env2 !! "PW_EXPERIMENTAL_TS_ESM" ->
  calculateCachePath cacheDir env1 td content filePath
  = calculateCachePath cacheDir env2 td content filePath.
Proof. intros H. unfold calculateCachePath. rewrite H. reflexivity. Qed.

Section RoundTrip.
Context (host : Host).

(** X1: cache round trip: when a call of [transformHook] returns non-empty
    code, the next call for the same content and file returns the same
    code from the artifact store, whatever its [isModule] argument: Babel
    is not called and nothing is written. *)
Theorem transformHook_second_call_hits source filename (isModule isModule' : bool)
    (w : World) (c0 : ascii) (c : string) :
  isComponentImport (env w) filename = false ->
  Js.truthy_opt (env w !! "PW_IGNORE_COMPILE_CACHE") = false ->
  fst (transformHook host source filename isModule w) = Returned (String c0 c) ->
  fst (transformHook host source filename isModule'
         (snd (transformHook host source filename isModule w)))
  = Returned (String c0 c)
  /\ files (snd (transformHook host source filename isModule'
                   (snd (transformHook host source filename isModule w))))
     = files (snd (transformHook host source filename isModule w))
  /\ exists cachePath,
       trace (snd (transformHook host source filename isModule'
                     (snd (transformHook host source filename isModule w))))
       = trace (snd (transformHook host source filename isModule w))
         ++ [EvDigest cachePath; EvRegister filename (cachePath +:+ ".map");
             EvExists (cachePath +:+ ".js"); EvRead (cachePath +:+ ".js")].
Proof.
  intros Hstub Hign Hfirst.
  assert (Hload : exists td w1,
            loadAndValidateTsconfigForFile host filename w = (Returned td, w1)).
  { destruct (loadAndValidateTsconfigForFile host filename w) as [[td|e] w1] eqn:Hl;
      [eauto|].
    rewrite transformHook_eq, Hstub,
      (transformAndCache_throws host source filename isModule w e w1 Hl) in Hfirst.
    discriminate Hfirst. }
  destruct Hload as (td & w1 & Hload).
  set (cachePath := calculateCachePath (cacheDir w) (env w) td source filename).
  set (w' := snd (transformHook host source filename isModule w)) in *.
  destruct (transformHook_frame_aux host source filename isModule w)
    as (Hdir & _ & _ & Henv & _ & _). fold w' in Hdir, Henv.
  assert (Hmemo : cachedTSConfigs w' !! NodePath.dirname filename = Some td).
  { subst w'. rewrite transformHook_eq, Hstub.
    destruct (transformAndCache_stages host source filename isModule w td w1 Hload)
      as (rest & _ & -> & _).
    apply (loadAndValidateTsconfigForFile_frame host filename w td w1 Hload). }
  assert (Hload2 : loadAndValidateTsconfigForFile host filename w' = (Returned td, w'))
    by (rewrite loadAndValidateTsconfigForFile_eq, Hmemo; reflexivity).
  assert (Hstored : files w' !! (cachePath +:+ ".js") = Some (String c0 c)).
  { destruct (files w !! (cachePath +:+ ".js")) as [stored|] eqn:Hfile.
    - destruct (transformHook_hit_aux host source filename isModule w td w1 cachePath stored
                  Hstub Hload eq_refl Hign Hfile) as (Heq & Hf & _).
      fold w' in Hf. rewrite Hf, Hfile. rewrite Heq in Hfirst. cbn in Hfirst. congruence.
    - destruct (transformFileSync host (files w) (browserslistSilenced (env w)) filename
                  (babelOptions td (env w) isModule)) as [result|e] eqn:Hengine.
      + destruct (code result) as [[|a b]|] eqn:Hcode.
        * destruct (transformHook_miss_without_code_aux host source filename isModule w td w1
                      cachePath result Hstub Hload eq_refl (or_intror Hfile) Hengine
                      (or_intror Hcode)) as (Hres & _).
          rewrite Hres in Hfirst. discriminate.
        * destruct (transformHook_miss_persists_aux host source filename isModule w td w1
                      cachePath result a b Hstub Hload eq_refl (or_intror Hfile) Hengine
                      Hcode) as (Hres & Hf & _).
          fold w' in Hf. rewrite Hf, lookup_insert_eq. rewrite Hres in Hfirst. congruence.
        * destruct (transformHook_miss_without_code_aux host source filename isModule w td w1
                      cachePath result Hstub Hload eq_refl (or_intror Hfile) Hengine
                      (or_introl Hcode)) as (Hres & _).
          rewrite Hres in Hfirst. discriminate.
      + destruct (transformHook_engine_failure_aux host source filename isModule w td w1
                    cachePath e Hstub Hload eq_refl (or_intror Hfile) Hengine) as (Hres & _).
        rewrite Hres in Hfirst. discriminate. }
  assert (Hpath : cachePath = calculateCachePath (cacheDir w') (env w') td source filename).
  { rewrite Hdir. apply calculateCachePath_env. symmetry. apply Henv. discriminate. }
  assert (Hstub' : isComponentImport (env w') filename = false).
  { rewrite <- Hstub. apply isComponentImport_env, Henv. discriminate. }
  assert (Hign' : Js.truthy_opt (env w' !! "PW_IGNORE_COMPILE_CACHE") = false).
  { rewrite Henv by discriminate. exact Hign. }
  destruct (transformHook_hit_aux host source filename isModule' w' td w' cachePath
              (String c0 c) Hstub' Hload2 Hpath Hign' Hstored) as (Heq & Hf & _ & Ht).
  split; [rewrite Heq; reflexivity|]. split; [exact Hf|].
  exists cachePath. exact Ht.
Qed.

End RoundTrip.
(** ** The ignore-cache override and the source maps *)

Section Override.
Context (host : Host).

(** X6: with the override active the artifact store is not read, even if
    the code file is there: no [existsSync], no [readFileSync], and Babel
    is called. *)
Theorem transformHook_override_skips_store source filename isModule w td w1 cachePath :
  isComponentImport (env w) filename = false ->
  loadAndValidateTsconfigForFile host filename w = (Returned td, w1) ->
  cachePath = calculateCachePath (cacheDir w) (env w) td source filename ->
  Js.truthy_opt (env w !! "PW_IGNORE_COMPILE_CACHE") = true ->
  exists rest,
    trace (snd (transformHook host source filename isModule w))
    = trace w1 ++ [EvDigest cachePath; EvRegister filename (cachePath +:+ ".map");
                   EvEngine filename (babelOptions td (env w) isModule)] ++ rest
    /\ Forall (fun e => match e with EvExists _ | EvRead _ => False | _ => True end) rest
    /\ fst (transformHook host source filename isModule w)
       = match transformFileSync host (files w) (browserslistSilenced (env w)) filename
                 (babelOptions td (env w) isModule) with
         | Returned result =>
             Returned (if Js.truthy_opt (code result) then default "" (code result) else "")
         | Thrown e => Thrown e
         end.
Proof.
  intros Hstub Hload Hpath Hign.
  destruct (transformHook_miss_eq host source filename isModule w td w1 cachePath
              Hstub Hload Hpath (or_introl Hign)) as (w3 & -> & He & Hf & _ & Hon & _).
  rewrite transformAndPersist_eq. cbn zeta. rewrite He, Hf, (Hon Hign).
  destruct (transformFileSync host _ _ _ _) as [result|e]; cbn.
  - destruct (code result) as [[|c0 c]|]; cbn;
      [exists []|destruct (map_ result); eexists|exists []]; cbn;
      rewrite <- !app_assoc; cbn; (split; [reflexivity|]); split;
      repeat constructor.
  - exists []. cbn. rewrite <- !app_assoc. cbn. repeat split; constructor.
Qed.

(** X7: source-map round trip: after a miss for which Babel produced code
    and a map, the hook of [source-map-support] finds that map under the
    file name, with the file name as its url. *)
Theorem retrieveSourceMap_after_transform source filename isModule w td w1 cachePath
    result c0 c m :
  isComponentImport (env w) filename = false ->
  loadAndValidateTsconfigForFile host filename w = (Returned td, w1) ->
  cachePath = calculateCachePath (cacheDir w) (env w) td source filename ->
  Js.truthy_opt (env w !! "PW_IGNORE_COMPILE_CACHE") = true
  \/ files w !! (cachePath +:+ ".js") = None ->
  transformFileSync host (files w) (browserslistSilenced (env w)) filename
    (babelOptions td (env w) isModule) = Returned result ->
  code result = Some (String c0 c) ->
  map_ result = Some m ->
  retrieveSourceMap (snd (transformHook host source filename isModule w)) filename
  = Some (m, filename).
Proof.
  intros Hstub Hload Hpath Hmiss Hengine Hcode Hmap.
  destruct (transformHook_miss_persists_aux host source filename isModule w td w1 cachePath
              result c0 c Hstub Hload Hpath Hmiss Hengine Hcode) as (_ & Hf & _ & Hs).
  unfold retrieveSourceMap. rewrite Hs, lookup_insert_eq, Hf, Hmap.
  rewrite lookup_insert_ne by (intros H; exact (js_ne_map cachePath (eq_sym H))).
  rewrite lookup_insert_eq. reflexivity.
Qed.

(** The hook answers only for registered files whose map file exists:
    it finds nothing for a file that was never transformed, and nothing
    when the registered map file is missing. *)
Lemma retrieveSourceMap_none (w : World) (s : string) :
  (sourceMaps w !! s = None -> retrieveSourceMap w s = None)
  /\ (forall p, sourceMaps w !! s = Some p -> files w !! p = None ->
        retrieveSourceMap w s = None)
  /\ (forall text url, retrieveSourceMap w s = Some (text, url) ->
        url = s /\ exists p, sourceMaps w !! s = Some p /\ files w !! p = Some text).
Proof.
  unfold retrieveSourceMap. split; [intros ->; reflexivity|]. split.
  - intros p -> ->. reflexivity.
  - intros text url. destruct (sourceMaps w !! s) as [p|]; [|discriminate].
    destruct (files w !! p) as [t|] eqn:Hp; [|discriminate].
    intros [= <- <-]. eauto.
Qed.

End Override.
(** ** What a process never undoes *)

Section Permanence.
Context (host : Host).

Lemma step_keeps host' w w' :
  step host' w w' ->
  cacheDir w' = cacheDir w
  /\ (forall d v, cachedTSConfigs w !! d = Some v -> cachedTSConfigs w' !! d = Some v)
  /\ (forall f, is_Some (sourceMaps w !! f) -> is_Some (sourceMaps w' !! f)).
Proof.
  intros Hstep.
  destruct Hstep as [source filename isModule w| | | |]; [|cbn; auto..].
  destruct (transformHook_frame_aux host' source filename isModule w)
    as (Hdir & _ & _ & _ & Hmemo & Hother).
  split; [exact Hdir|]. split; [exact Hmemo|].
  intros f Hf. destruct (decide (f = filename)) as [->|Hne].
  - rewrite transformHook_eq.
    destruct (isComponentImport (env w) filename); [exact Hf|].
    destruct (loadAndValidateTsconfigForFile host' filename w) as [[td|e] w1] eqn:Hload.
    + destruct (transformAndCache_stages host' source filename isModule w td w1 Hload)
        as (rest & -> & _).
      rewrite lookup_insert_eq. eauto.
    + rewrite (transformAndCache_throws host' source filename isModule w e w1 Hload).
      pose proof (loadAndValidateTsconfigForFile_world host' filename w) as Hw.
      rewrite Hload in Hw. cbn in Hw. destruct Hw as (_ & _ & _ & Hs & _).
      cbn [snd]. rewrite Hs. exact Hf.
  - rewrite (Hother f Hne). exact Hf.
Qed.

(** X8: a memoized configuration is permanent: whatever the process does
    after a directory was first queried (further transforms, changes of
    the files, of the environment), a query for a file of that directory
    returns the value memoized then, absence included, and does not look
    at the file system again. *)
Theorem memoized_configuration_is_permanent (w w' : World) (file : string)
    (memo : option ParsedTsConfigData) :
  rtc (step host) w w' ->
  cachedTSConfigs w !! NodePath.dirname file = Some memo ->
  cachedTSConfigs w' !! NodePath.dirname file = Some memo
  /\ loadAndValidateTsconfigForFile host file w' = (Returned memo, w').
Proof.
  intros Hsteps Hmemo.
  assert (H : cachedTSConfigs w' !! NodePath.dirname file = Some memo).
  { induction Hsteps as [|w0 w1 w2 Hstep _ IH]; [exact Hmemo|].
    apply IH. apply (step_keeps host w0 w1 Hstep). exact Hmemo. }
  split; [exact H|]. rewrite loadAndValidateTsconfigForFile_eq, H. reflexivity.
Qed.

(** X9: the registry of map paths only grows, and the cache root does not
    change, along any run of the process. *)
Theorem registry_never_pruned (w w' : World) (f : string) :
  rtc (step host) w w' ->
  cacheDir w' = cacheDir w
  /\ (is_Some (sourceMaps w !! f) -> is_Some (sourceMaps w' !! f)).
Proof.
  induction 1 as [|w0 w1 w2 Hstep _ IH]; [auto|].
  destruct (step_keeps host w0 w1 Hstep) as (Hdir & _ & Hs).
  destruct IH as (Hdir' & Hs'). split; [congruence | auto].
Qed.

End Permanence.
(** ** Sensitivity of the key to each input *)

Lemma append_inj_r (a b c : string) : a +:+ c = b +:+ c -> a = b.
Proof.
  revert b. induction a as [|x a IH]; intros [|y b] H.
  - reflexivity.
  - apply (f_equal Js.len) in H. rewrite !len_append in H.
    unfold Js.len in H. cbn in H. lia.
  - apply (f_equal Js.len) in H. rewrite !len_append in H.
    unfold Js.len in H. cbn in H. lia.
  - rewrite !append_cons in H. injection H as -> H. f_equal. exact (IH b H).
Qed.

Lemma append_inj_l (a b c : string) : a +:+ b = a +:+ c -> b = c.
Proof. apply (inj (String.app a)). Qed.

(** X10: a change of a single input is never missed: with the other four
    inputs fixed, two keys are equal only if the fifth input is the same
    (for a digest without collisions): the content, the path, the
    fingerprint, the build mode, and the decimal rendering of the version. *)
Theorem computeKey_detects_single_change (digest : string -> string)
    (fp fp' : string) (esm esm' : bool) (content content' path path' : string)
    (ver ver' : Z) :
  (forall a b, digest a = digest b -> a = b) ->
  (computeKey digest fp esm content path ver = computeKey digest fp esm content' path ver
     -> content = content')
  /\ (computeKey digest fp esm content path ver = computeKey digest fp esm content path' ver
     -> path = path')
  /\ (computeKey digest fp esm content path ver = computeKey digest fp' esm content path ver
     -> fp = fp')
  /\ (computeKey digest fp esm content path ver = computeKey digest fp esm' content path ver
     -> esm = esm')
  /\ (computeKey digest fp esm content path ver = computeKey digest fp esm content path ver'
     -> Js.String_ ver = Js.String_ ver').
Proof.
  intros Hinj. rewrite !computeKey_material. unfold keyMaterial.
  repeat split; intros H; apply Hinj in H.
  - do 2 apply append_inj_l in H. rewrite <- !append_assoc in H.
    do 2 apply append_inj_r in H. exact H.
  - do 3 apply append_inj_l in H. apply append_inj_r in H. exact H.
  - apply append_inj_r in H. exact H.
  - apply append_inj_l in H.
    destruct esm, esm'; try reflexivity; rewrite !append_cons in H; discriminate H.
  - do 4 apply append_inj_l in H. exact H.
Qed.
(** ** The fingerprint determines the configuration *)

Lemma allAscii_complete (c : ascii) : In c allAscii.
Proof.
  unfold allAscii. rewrite <- (ascii_nat_embedding c).
  apply in_map, in_seq. pose proof (nat_ascii_bounded c). lia.
Qed.

Lemma escapePrefixFree_true : escapePrefixFree = true.
Proof. vm_compute. reflexivity. Qed.

Lemma escapeNoQuote_true : escapeNoQuote = true.
Proof. vm_compute. reflexivity. Qed.

Lemma escapeChar_prefix_free (x y : ascii) :
  Js.startsWith (Json.escapeChar y) (Json.escapeChar x) = true -> x = y.
Proof.
  intros H. pose proof escapePrefixFree_true as Hall. unfold escapePrefixFree in Hall.
  rewrite forallb_forall in Hall. specialize (Hall x (allAscii_complete x)).
  rewrite forallb_forall in Hall. specialize (Hall y (allAscii_complete y)).
  rewrite H in Hall. cbn in Hall. apply Ascii.eqb_eq. exact Hall.
Qed.

Lemma escapeChar_head (x : ascii) :
  exists c s, Json.escapeChar x = String c s /\ c <> Json.dquote.
Proof.
  pose proof escapeNoQuote_true as Hall. unfold escapeNoQuote in Hall.
  rewrite forallb_forall in Hall. specialize (Hall x (allAscii_complete x)).
  destruct (Json.escapeChar x) as [|c s]; [discriminate|].
  exists c, s. split; [reflexivity|].
  apply negb_true_iff, Ascii.eqb_neq in Hall. exact Hall.
Qed.

Lemma append_eq_prefix (a b s1 s2 : string) :
  a +:+ s1 = b +:+ s2 -> Js.startsWith b a = true \/ Js.startsWith a b = true.
Proof.
  revert b. induction a as [|x a IH]; intros b H.
  - left. destruct b; reflexivity.
  - destruct b as [|y b]; [right; reflexivity|].
    rewrite !append_cons in H. injection H as -> H.
    cbn. rewrite Ascii.eqb_refl. exact (IH b H).
Qed.

Lemma escapeChar_append_inj (x y : ascii) (s1 s2 : string) :
  Json.escapeChar x +:+ s1 = Json.escapeChar y +:+ s2 -> x = y /\ s1 = s2.
Proof.
  intros H.
  assert (Hxy : x = y).
  { destruct (append_eq_prefix _ _ _ _ H) as [Hp|Hp].
    - exact (escapeChar_prefix_free x y Hp).
    - symmetry. exact (escapeChar_prefix_free y x Hp). }
  subst y. split; [reflexivity|]. exact (append_inj_l _ _ _ H).
Qed.

Lemma escape_quote_inj (a b r1 r2 : string) :
  Json.escape a +:+ String Json.dquote r1 = Json.escape b +:+ String Json.dquote r2 ->
  a = b /\ r1 = r2.
Proof.
  revert b. induction a as [|x a IH]; intros [|y b] H.
  - cbn in H. injection H as ->. auto.
  - exfalso. cbn [Json.escape] in H. rewrite append_nil_l, append_assoc in H.
    destruct (escapeChar_head y) as (c & s & Hy & Hc). rewrite Hy, append_cons in H.
    injection H as H _. congruence.
  - exfalso. cbn [Json.escape] in H. rewrite append_nil_l, append_assoc in H.
    destruct (escapeChar_head x) as (c & s & Hx & Hc). rewrite Hx, append_cons in H.
    injection H as H _. congruence.
  - cbn [Json.escape] in H. rewrite !append_assoc in H.
    apply escapeChar_append_inj in H as [-> H].
    destruct (IH b H) as [-> ->]. auto.
Qed.

Lemma quote_inj (a b r1 r2 : string) :
  Json.quote a +:+ r1 = Json.quote b +:+ r2 -> a = b /\ r1 = r2.
Proof.
  unfold Json.quote. rewrite !append_cons, !append_assoc, !append_cons, !append_nil_l.
  intros H. injection H as H. exact (escape_quote_inj a b r1 r2 H).
Qed.

Lemma quote_not_brace (k r r' : string) : Json.quote k +:+ r <> String "}" r'.
Proof.
  unfold Json.quote. rewrite append_cons. intros H. injection H as H _.
  vm_compute in H. discriminate H.
Qed.

#[local] Opaque Json.quote.

Lemma concat_members_cons (k v : string) (l : list (string * string)) (r : string) :
  String.concat "," (Json.members (withTargets ((k, v) :: l))) +:+ r
  = Json.quote k +:+ ":" +:+ Json.quote v
    +:+ match l with
        | [] => r
        | _ => "," +:+ String.concat "," (Json.members (withTargets l)) +:+ r
        end.
Proof.
  destruct l as [|[k' v'] l]; cbn [withTargets map fst snd Json.members String.concat].
  - rewrite !append_assoc. reflexivity.
  - change (map (fun kv : string * string => (fst kv, Some (snd kv))) l) with (withTargets l).
    rewrite !append_assoc. reflexivity.
Qed.

Lemma members_inj (l1 l2 : list (string * string)) (r1 r2 : string) :
  String.concat "," (Json.members (withTargets l1)) +:+ String "}" r1
  = String.concat "," (Json.members (withTargets l2)) +:+ String "}" r2 ->
  l1 = l2 /\ r1 = r2.
Proof.
  revert l2. induction l1 as [|[k1 v1] l1 IH]; intros [|[k2 v2] l2] H.
  - cbn in H. injection H as ->. auto.
  - exfalso. rewrite concat_members_cons in H.
    change (String.concat "," (Json.members (withTargets [])) +:+ String "}" r1)
      with (String "}" r1) in H.
    symmetry in H. exact (quote_not_brace _ _ _ H).
  - exfalso. rewrite concat_members_cons in H.
    change (String.concat "," (Json.members (withTargets [])) +:+ String "}" r2)
      with (String "}" r2) in H.
    exact (quote_not_brace _ _ _ H).
  - rewrite !concat_members_cons in H.
    apply quote_inj in H as [-> H]. apply append_inj_l in H.
    apply quote_inj in H as [-> H].
    destruct l1 as [|p1 l1], l2 as [|p2 l2].
    + injection H as ->. auto.
    + discriminate H.
    + discriminate H.
    + apply append_inj_l in H. destruct (IH (p2 :: l2) H) as [-> ->]. auto.
Qed.

#[local] Transparent Json.quote.

(** [JSON.stringify({ absoluteBaseUrl, singlePath })] determines the base
    directory and, when every pattern has a target, the patterns and
    their targets, in order. *)
Lemma stringifyFingerprint_inj (b1 b2 : string) (l1 l2 : list (string * string)) :
  Json.stringifyFingerprint b1 (withTargets l1) = Json.stringifyFingerprint b2 (withTargets l2) ->
  b1 = b2 /\ l1 = l2.
Proof.
  unfold Json.stringifyFingerprint, Json.object.
  cbn [String.concat]. rewrite !append_assoc.
  intros H. apply append_inj_l in H.
  apply quote_inj in H as [_ H]. apply append_inj_l in H.
  apply quote_inj in H as [-> H]. apply append_inj_l in H.
  apply quote_inj in H as [_ H]. do 2 apply append_inj_l in H.
  change ("}" +:+ "}") with (String "}" "}") in H.
  apply members_inj in H as [-> _]. auto.
Qed.
(** ** What validation lets through *)

Section Validated.
Context (host : Host).

Lemma find_none_all {A} (p : A -> bool) (l : list A) :
  Js.find p l = None -> forall x, In x l -> p x = false.
Proof.
  induction l as [|y l IH]; cbn; [contradiction|].
  destruct (p y) eqn:Hy; [discriminate|].
  intros H x [<-|Hx]; auto.
Qed.

Lemma validateTsConfig_shape_aux tsconfig d :
  validateTsConfig host tsconfig = Some d ->
  exists tp bu p,
    tsConfigPath tsconfig = Some tp /\ tp <> ""
    /\ baseUrl tsconfig = Some bu /\ bu <> ""
    /\ paths tsconfig = Some p
    /\ absoluteBaseUrl d = NodePath.resolve (processCwd host) [NodePath.dirname tp; bu]
    /\ singlePath d = map (fun kv => (fst kv, head (snd kv))) p
    /\ map fst (singlePath d) = map fst p
    /\ length (alias d) = length p
    /\ hash d = Json.stringifyFingerprint (absoluteBaseUrl d) (singlePath d)
    /\ (forall key, In key (map fst p) -> isAmbiguousKey key = false).
Proof.
  unfold validateTsConfig.
  destruct (tsConfigPath tsconfig) as [tp|]; [|discriminate].
  destruct (paths tsconfig) as [p|]; [|discriminate].
  destruct (baseUrl tsconfig) as [bu|]; [|discriminate].
  destruct tp as [|t0 tp]; [discriminate|]. destruct bu as [|b0 bu]; [discriminate|].
  cbn [Js.truthy negb orb].
  destruct (Js.find isAmbiguousKey (map fst p)) as [k|] eqn:Hamb.
  - destruct (find_Some _ _ _ Hamb) as [_ Hk].
    unfold isAmbiguousKey in Hk. apply andb_true_iff in Hk as [Hk _].
    cbn. rewrite Hk. discriminate.
  - cbn [Js.truthy_opt]. destruct (Js.truthy_opt _); [discriminate|].
    intros [= <-]. exists (String t0 tp), (String b0 bu), p. cbn.
    repeat split; try discriminate.
    + rewrite map_map. reflexivity.
    + rewrite !length_map. reflexivity.
    + exact (find_none_all _ _ Hamb).
Qed.

(** X12: a configuration is validated only if it names its file and a
    non-empty base url and has a table of paths; the validated data keeps
    every pattern, in order, with its first target, has one alias per
    pattern, and none of its patterns is made only of "*", ".", "/", "\". *)
Theorem validateTsConfig_shape tsconfig d :
  validateTsConfig host tsconfig = Some d ->
  exists tp bu p,
    tsConfigPath tsconfig = Some tp /\ tp <> ""
    /\ baseUrl tsconfig = Some bu /\ bu <> ""
    /\ paths tsconfig = Some p
    /\ absoluteBaseUrl d = NodePath.resolve (processCwd host) [NodePath.dirname tp; bu]
    /\ singlePath d = map (fun kv => (fst kv, head (snd kv))) p
    /\ map fst (singlePath d) = map fst p
    /\ length (alias d) = length p
    /\ hash d = Json.stringifyFingerprint (absoluteBaseUrl d) (singlePath d)
    /\ (forall key, In key (map fst p) -> isAmbiguousKey key = false).
Proof.
  unfold validateTsConfig.
  destruct (tsConfigPath tsconfig) as [tp|]; [|discriminate].
  destruct (paths tsconfig) as [p|]; [|discriminate].
  destruct (baseUrl tsconfig) as [bu|]; [|discriminate].
  destruct tp as [|t0 tp]; [discriminate|]. destruct bu as [|b0 bu]; [discriminate|].
  cbn [Js.truthy negb orb].
  destruct (Js.find isAmbiguousKey (map fst p)) as [k|] eqn:Hamb.
  - destruct (find_Some _ _ _ Hamb) as [_ Hk].
    unfold isAmbiguousKey in Hk. apply andb_true_iff in Hk as [Hk _].
    cbn. rewrite Hk. discriminate.
  - cbn [Js.truthy_opt]. destruct (Js.truthy_opt _); [discriminate|].
    intros [= <-]. exists (String t0 tp), (String b0 bu), p. cbn.
    repeat split; try discriminate.
    + rewrite map_map. reflexivity.
    + rewrite !length_map. reflexivity.
    + exact (find_none_all _ _ Hamb).
Qed.

(** X13: a pattern with an empty list of targets passes validation; it gets
    an alias whose resolver throws a TypeError on every call. *)
Theorem empty_target_list_resolver_throws tsconfig d p key :
  validateTsConfig host tsconfig = Some d ->
  paths tsconfig = Some p ->
  In (key, []) p ->
  In (key, None) (singlePath d)
  /\ exists resolver,
       In ("^" +:+ Js.replaceFirstChar "*" ".*" key, resolver) (alias d)
       /\ forall groups, resolver groups = Thrown TypeError.
Proof.
  intros Hvalid Hp Hin.
  destruct (validateTsConfig_shape_aux tsconfig d Hvalid)
    as (tp & bu & p' & _ & _ & _ & _ & Hp' & _ & Hsingle & _).
  rewrite Hp in Hp'. injection Hp' as <-.
  assert (Hs : In (key, None) (singlePath d)).
  { rewrite Hsingle. apply (in_map (fun kv => (fst kv, head (snd kv))) p (key, [])), Hin. }
  split; [exact Hs|].
  exists (aliasResolver host (absoluteBaseUrl d) key None). split.
  - rewrite (validateTsConfig_alias host tsconfig d Hvalid).
    apply (in_map (fun kv => ("^" +:+ Js.replaceFirstChar "*" ".*" (fst kv),
                              aliasResolver host (absoluteBaseUrl d) (fst kv) (snd kv)))
             (singlePath d) (key, None)), Hs.
  - intros groups. unfold aliasResolver. destruct (Js.endsWith key "/*"); reflexivity.
Qed.

(** X11: two validated configurations in which every pattern has a target
    and whose fingerprints are equal have the same base directory, the
    same patterns and targets and the same alias table; and the
    fingerprint of a validated configuration is not the empty one used
    for a directory without configuration. *)
Theorem fingerprint_determines_configuration t1 t2 d1 d2 l1 l2 :
  validateTsConfig host t1 = Some d1 ->
  validateTsConfig host t2 = Some d2 ->
  singlePath d1 = withTargets l1 ->
  singlePath d2 = withTargets l2 ->
  hash d1 = hash d2 ->
  absoluteBaseUrl d1 = absoluteBaseUrl d2
  /\ singlePath d1 = singlePath d2
  /\ alias d1 = alias d2
  /\ fingerprintOf (Some d1) <> fingerprintOf None.
Proof.
  intros Hv1 Hv2 Hs1 Hs2 Hhash.
  destruct (validateTsConfig_shape_aux t1 d1 Hv1)
    as (tp1 & bu1 & p1 & _ & _ & _ & _ & _ & _ & _ & _ & _ & Hh1 & _).
  destruct (validateTsConfig_shape_aux t2 d2 Hv2)
    as (tp2 & bu2 & p2 & _ & _ & _ & _ & _ & _ & _ & _ & _ & Hh2 & _).
  rewrite Hh1, Hh2, Hs1, Hs2 in Hhash.
  apply stringifyFingerprint_inj in Hhash as [Hb Hl].
  assert (Hs : singlePath d1 = singlePath d2) by congruence.
  split; [exact Hb|]. split; [exact Hs|]. split.
  - rewrite (validateTsConfig_alias host t1 d1 Hv1), (validateTsConfig_alias host t2 d2 Hv2).
    rewrite Hb, Hs. reflexivity.
  - cbn. rewrite Hh1. discriminate.
Qed.

(** X17: in a process with an absolute working directory, whatever a
    resolver returns is a normalized absolute path, for a pattern that
    ends in "/*" as for any other, whatever the target and the matched
    specifier are; and an absolute target of a pattern that does not end
    in "/*" is resolved without the base directory. *)
Theorem aliasResolver_absolute tsconfig d pattern resolver base base' key value target
    (groups groups' : list string) (p p' : string) :
  NodePath.isAbsolute (processCwd host) = true ->
  aliasResolver host base key value groups = Returned p ->
  validateTsConfig host tsconfig = Some d ->
  In (pattern, resolver) (alias d) ->
  resolver groups' = Returned p' ->
  (exists segs, Forall cleanSegment segs /\ p = absolutePathOf segs)
  /\ (exists segs, Forall cleanSegment segs /\ p' = absolutePathOf segs)
  /\ (Js.endsWith key "/*" = false ->
      aliasResolver host base key (Some (String "/" target)) groups
      = aliasResolver host base' key (Some (String "/" target)) groups).
Proof.
  intros Hcwd Hres Hvalid Hin Hres'.
  assert (Hnf : forall b k v g q, aliasResolver host b k v g = Returned q ->
            exists segs, Forall cleanSegment segs /\ q = absolutePathOf segs).
  { intros b k v g q Hq. unfold aliasResolver in Hq.
    destruct (if Js.endsWith k "/*" then _ else _) as [relative|e]; [|discriminate].
    injection Hq as <-. destruct (resolve_normal_form (processCwd host)
      [b; Js.replaceAllChar "/" NodePath.sep relative] Hcwd) as (segs & Hc & ->). eauto. }
  split; [exact (Hnf _ _ _ _ _ Hres)|]. split.
  - rewrite (validateTsConfig_alias host tsconfig d Hvalid) in Hin.
    apply in_map_iff in Hin as ([k v] & [= <- <-] & _).
    exact (Hnf _ _ _ _ _ Hres').
  - intros Hkey. rewrite !aliasResolver_fixed by exact Hkey.
    rewrite replaceAllChar_same. reflexivity.
Qed.

End Validated.
(** ** The location handed to the wrapped function *)

Section Location.
Context (host : Host) {A R : Type}.
Implicit Types (func : StackValue -> A -> M R) (w : World).

(** X18: the wrapped function receives the location of the caller's frame,
    the second frame of the stack, as [source-map-support] rewrites it
    with the registered maps; the wrapper's own frame and the frames
    above the caller do not matter.  A file name that is not a "file://"
    url is passed as it is; a "file://" url is passed through
    [url.fileURLToPath]. *)
Theorem wrapper_passes_caller_location func (f0 f0' caller urlCaller : CallSite)
    (rest rest' : list CallSite) args w (plain fileUrl p : string) :
  getFileName (wrapCallSite host (retrieveSourceMap w) caller) = Some plain ->
  Js.startsWith plain "file://" = false ->
  getFileName (wrapCallSite host (retrieveSourceMap w) urlCaller) = Some fileUrl ->
  Js.startsWith fileUrl "file://" = true ->
  fileURLToPath host fileUrl = Returned p ->
  wrapFunctionWithLocation host func (f0 :: caller :: rest) args w
  = wrapFunctionWithLocation host func (f0' :: caller :: rest') args w
  /\ wrapFunctionWithLocation host func (f0 :: caller :: rest) args w
     = func (StackLocation
               {| file := Some plain;
                  line := getLineNumber (wrapCallSite host (retrieveSourceMap w) caller);
                  column := getColumnNumber (wrapCallSite host (retrieveSourceMap w) caller) |})
            args (with_stackTraceLimit kStackTraceLimit w)
  /\ wrapFunctionWithLocation host func (f0 :: urlCaller :: rest) args w
     = func (StackLocation
               {| file := Some p;
                  line := getLineNumber (wrapCallSite host (retrieveSourceMap w) urlCaller);
                  column :=
                    getColumnNumber (wrapCallSite host (retrieveSourceMap w) urlCaller) |})
            args (with_stackTraceLimit kStackTraceLimit w).
Proof.
  intros Hname Hplain Huname Hurl Hpath.
  rewrite !wrapFunctionWithLocation_eq. cbn [take]. split; [reflexivity|].
  unfold locationFormatter. cbn [lookup list_lookup].
  rewrite Hname, Hplain, andb_false_r, Huname, Hurl, Hpath.
  destruct fileUrl; [discriminate Hurl|]. split; reflexivity.
Qed.

(** X19: the wrapper has no handler around the capture.  When
    [url.fileURLToPath] rejects the caller's file url, the exception
    leaves the wrapper, the wrapped function is not called, and
    [Error.prepareStackTrace] and [Error.stackTraceLimit] stay at the
    wrapper's formatter and at 2. *)
Theorem wrapper_capture_failure_leaves_globals func func' (f0 caller : CallSite)
    (rest : list CallSite) args w (fileUrl : string) (e : Exn) :
  getFileName (wrapCallSite host (retrieveSourceMap w) caller) = Some fileUrl ->
  Js.startsWith fileUrl "file://" = true ->
  fileURLToPath host fileUrl = Thrown e ->
  fst (wrapFunctionWithLocation host func (f0 :: caller :: rest) args w) = Thrown e
  /\ prepareStackTrace (snd (wrapFunctionWithLocation host func (f0 :: caller :: rest) args w))
     = Some LocationFormatter
  /\ stackTraceLimit (snd (wrapFunctionWithLocation host func (f0 :: caller :: rest) args w))
     = 2
  /\ wrapFunctionWithLocation host func (f0 :: caller :: rest) args w
     = wrapFunctionWithLocation host func' (f0 :: caller :: rest) args w.
Proof.
  intros Hname Hurl Hpath.
  assert (Hcap : locationFormatter host w (take 2 (f0 :: caller :: rest)) = Thrown e).
  { cbn [take]. unfold locationFormatter. cbn [lookup list_lookup].
    rewrite Hname, Hurl, Hpath. destruct fileUrl; [discriminate Hurl|]. reflexivity. }
  rewrite !(wrapFunctionWithLocation_capture_throws host _ _ _ _ e Hcap). auto.
Qed.

End Location.

(** ** Rejection of configurations, and the base directory *)

Section Rejection.
Context (host : Host).

(** X14: a configuration one of whose pattern keys consists only of "*",
    ".", "/" and "\" is rejected as a whole. *)
Theorem ambiguous_pattern_rejected tsconfig pths key :
  paths tsconfig = Some pths ->
  In key (map fst pths) ->
  isAmbiguousKey key = true ->
  validateTsConfig host tsconfig = None.
Proof.
  intros Hp Hin Hamb. unfold validateTsConfig. rewrite Hp.
  destruct (tsConfigPath tsconfig) as [tp|]; [|reflexivity].
  destruct (baseUrl tsconfig) as [bu|]; [|reflexivity].
  destruct (negb (Js.truthy tp) || negb (Js.truthy bu)); [reflexivity|].
  destruct (find_In isAmbiguousKey _ key Hin Hamb) as (k & -> & Hk).
  unfold isAmbiguousKey in Hk. apply andb_true_iff in Hk as [Hk _].
  cbn. rewrite Hk. reflexivity.
Qed.

(** X15: a configuration in which the first pattern key with more than
    one target is not the empty string is rejected as a whole. *)
Theorem multiple_targets_rejected tsconfig pths key :
  paths tsconfig = Some pths ->
  Js.find (hasMultipleTargets pths) (map fst pths) = Some key ->
  key <> "" ->
  validateTsConfig host tsconfig = None.
Proof.
  intros Hp Hfind Hne. unfold validateTsConfig. rewrite Hp.
  destruct (tsConfigPath tsconfig) as [tp|]; [|reflexivity].
  destruct (baseUrl tsconfig) as [bu|]; [|reflexivity].
  destruct (negb (Js.truthy tp) || negb (Js.truthy bu)); [reflexivity|].
  destruct (Js.truthy_opt (Js.find isAmbiguousKey (map fst pths))); [reflexivity|].
  rewrite Hfind. cbn. rewrite (truthy_nonempty key Hne). reflexivity.
Qed.

(** X16: in a process with an absolute working directory the base
    directory of a validated configuration is a normalized absolute
    path. *)
Theorem base_directory_is_normalized tsconfig d :
  NodePath.isAbsolute (processCwd host) = true ->
  validateTsConfig host tsconfig = Some d ->
  exists segs, Forall cleanSegment segs /\ absoluteBaseUrl d = absolutePathOf segs.
Proof.
  intros Hcwd. unfold validateTsConfig.
  destruct (tsConfigPath tsconfig) as [tp|]; [|discriminate].
  destruct (paths tsconfig); [|discriminate].
  destruct (baseUrl tsconfig) as [bu|]; [|discriminate].
  destruct (_ || _); [discriminate|].
  destruct (Js.truthy_opt _); [discriminate|].
  destruct (Js.truthy_opt _); [discriminate|].
  intros [= <-]. cbn [absoluteBaseUrl].
  apply resolve_normal_form, Hcwd.
Qed.

End Rejection.

(** ** The further properties on sample processes *)

Lemma worldLoaded_resolves :
  loadAndValidateTsconfigForFile demoHost "/p/a.spec.ts" worldLoaded
  = (Returned None, worldResolved).
Proof. vm_compute. reflexivity. Qed.

Lemma worldCached_resolves :
  loadAndValidateTsconfigForFile demoHost "/p/a.spec.ts" worldCached
  = (Returned None, worldCached).
Proof.
  rewrite loadAndValidateTsconfigForFile_eq.
  replace (cachedTSConfigs worldCached !! NodePath.dirname "/p/a.spec.ts")
    with (Some (@None ParsedTsConfigData)) by (vm_compute; reflexivity).
  reflexivity.
Qed.

Lemma transformHook_hit_witness :
  files worldCached !! (specCachePath +:+ ".js") = Some "/*js*/let x: number = 1"
  /\ fst (transformHook demoHost specSource "/p/a.spec.ts" true worldCached)
     = Returned "/*js*/let x: number = 1"
  /\ files (snd (transformHook demoHost specSource "/p/a.spec.ts" true worldCached))
     = files worldCached.
Proof.
  assert (Hfile : files worldCached !! (specCachePath +:+ ".js")
                  = Some "/*js*/let x: number = 1") by (vm_compute; reflexivity).
  destruct (transformHook_hit demoHost specSource "/p/a.spec.ts" true worldCached None
              worldCached specCachePath "/*js*/let x: number = 1")
    as (Heq & Hf & _); [vm_compute; reflexivity | exact worldCached_resolves
                       | vm_compute; reflexivity | vm_compute; reflexivity | exact Hfile |].
  split; [exact Hfile|]. split; [rewrite Heq; reflexivity | exact Hf].
Defined.

Lemma transformHook_miss_persists_witness :
  files worldLoaded !! (specCachePath +:+ ".js") = None
  /\ fst (transformHook demoHost specSource "/p/a.spec.ts" false worldLoaded)
     = Returned "/*js*/let x: number = 1"
  /\ files (snd (transformHook demoHost specSource "/p/a.spec.ts" false worldLoaded))
     = <[specCachePath +:+ ".js" := "/*js*/let x: number = 1"]>
         (<[specCachePath +:+ ".map" := "{}"]> (files worldLoaded)).
Proof.
  assert (Hfile : files worldLoaded !! (specCachePath +:+ ".js") = None)
    by (vm_compute; reflexivity).
  destruct (transformHook_miss_persists demoHost specSource "/p/a.spec.ts" false worldLoaded
              None worldResolved specCachePath
              {| code := Some "/*js*/let x: number = 1"; map_ := Some "{}" |}
              "/" "*js*/let x: number = 1")
    as (Hres & Hf & _); [vm_compute; reflexivity | exact worldLoaded_resolves
                        | vm_compute; reflexivity | right; exact Hfile
                        | vm_compute; reflexivity | reflexivity |].
  split; [exact Hfile|]. split; [exact Hres | exact Hf].
Defined.

Lemma transformHook_miss_without_code_witness :
  fst (transformHook emptyCodeHost specSource "/p/a.spec.ts" false worldLoaded) = Returned ""
  /\ files (snd (transformHook emptyCodeHost specSource "/p/a.spec.ts" false worldLoaded))
     = files worldLoaded.
Proof.
  destruct (transformHook_miss_without_code emptyCodeHost specSource "/p/a.spec.ts" false
              worldLoaded None worldResolved
              specCachePath {| code := Some ""; map_ := None |})
    as (Hres & Hf & _); [vm_compute; reflexivity | vm_compute; reflexivity
                        | vm_compute; reflexivity | right; vm_compute; reflexivity
                        | reflexivity | right; reflexivity |].
  split; [exact Hres | exact Hf].
Defined.

Lemma transformHook_engine_failure_witness :
  files worldSourceGone !! "/p/a.spec.ts" = None
  /\ fst (transformHook demoHost "let y = 2" "/p/a.spec.ts" false worldSourceGone)
     = Thrown (HostError "ENOENT")
  /\ files (snd (transformHook demoHost "let y = 2" "/p/a.spec.ts" false worldSourceGone))
     = files worldSourceGone.
Proof.
  assert (Hload : loadAndValidateTsconfigForFile demoHost "/p/a.spec.ts" worldSourceGone
                  = (Returned None, worldSourceGone)).
  { rewrite loadAndValidateTsconfigForFile_eq.
    replace (cachedTSConfigs worldSourceGone !! NodePath.dirname "/p/a.spec.ts")
      with (Some (@None ParsedTsConfigData)) by (vm_compute; reflexivity).
    reflexivity. }
  destruct (transformHook_engine_failure demoHost "let y = 2" "/p/a.spec.ts" false
              worldSourceGone None worldSourceGone
              (calculateCachePath (cacheDir worldSourceGone) (env worldSourceGone) None
                 "let y = 2" "/p/a.spec.ts")
              (HostError "ENOENT"))
    as (Hres & Hf & _); [vm_compute; reflexivity | exact Hload | reflexivity
                        | right; vm_compute; reflexivity | vm_compute; reflexivity |].
  split; [vm_compute; reflexivity|]. split; [exact Hres | exact Hf].
Defined.

Lemma transformHook_second_call_hits_witness :
  fst (transformHook demoHost specSource "/p/a.spec.ts" false worldLoaded)
    = Returned "/*js*/let x: number = 1"
  /\ fst (transformHook demoHost specSource "/p/a.spec.ts" true worldCached)
     = Returned "/*js*/let x: number = 1".
Proof.
  assert (Hfirst : fst (transformHook demoHost specSource "/p/a.spec.ts" false worldLoaded)
                   = Returned "/*js*/let x: number = 1") by (vm_compute; reflexivity).
  destruct (transformHook_second_call_hits demoHost specSource "/p/a.spec.ts" false true
              worldLoaded "/" "*js*/let x: number = 1")
    as (Hsecond & _); [vm_compute; reflexivity | vm_compute; reflexivity | exact Hfirst |].
  split; [exact Hfirst | exact Hsecond].
Defined.

Lemma transformHook_override_skips_store_witness :
  files worldOverride !! (specCachePath +:+ ".js") = Some "/*js*/let x: number = 1"
  /\ Js.truthy_opt (env worldOverride !! "PW_IGNORE_COMPILE_CACHE") = true
  /\ exists rest,
       trace (snd (transformHook demoHost specSource "/p/a.spec.ts" false worldOverride))
       = trace worldOverride
         ++ [EvDigest specCachePath; EvRegister "/p/a.spec.ts" (specCachePath +:+ ".map");
             EvEngine "/p/a.spec.ts" (babelOptions None (env worldOverride) false)] ++ rest
       /\ Forall (fun e => match e with EvExists _ | EvRead _ => False | _ => True end) rest.
Proof.
  assert (Hload : loadAndValidateTsconfigForFile demoHost "/p/a.spec.ts" worldOverride
                  = (Returned None, worldOverride)).
  { rewrite loadAndValidateTsconfigForFile_eq.
    replace (cachedTSConfigs worldOverride !! NodePath.dirname "/p/a.spec.ts")
      with (Some (@None ParsedTsConfigData)) by (vm_compute; reflexivity).
    reflexivity. }
  assert (Hign : Js.truthy_opt (env worldOverride !! "PW_IGNORE_COMPILE_CACHE") = true)
    by (vm_compute; reflexivity).
  destruct (transformHook_override_skips_store demoHost specSource "/p/a.spec.ts" false
              worldOverride None worldOverride specCachePath)
    as (rest & Ht & Hrest & _); [vm_compute; reflexivity | exact Hload
                                | vm_compute; reflexivity | exact Hign |].
  split; [vm_compute; reflexivity|]. split; [exact Hign|].
  exists rest. split; [exact Ht | exact Hrest].
Defined.

Lemma retrieveSourceMap_after_transform_witness :
  retrieveSourceMap worldLoaded "/p/a.spec.ts" = None
  /\ retrieveSourceMap worldCached "/p/a.spec.ts" = Some ("{}", "/p/a.spec.ts").
Proof.
  split; [vm_compute; reflexivity|].
  apply (retrieveSourceMap_after_transform demoHost specSource "/p/a.spec.ts" false
           worldLoaded None worldResolved specCachePath
           {| code := Some "/*js*/let x: number = 1"; map_ := Some "{}" |}
           "/" "*js*/let x: number = 1" "{}");
    [vm_compute; reflexivity | exact worldLoaded_resolves | vm_compute; reflexivity
    | right; vm_compute; reflexivity | vm_compute; reflexivity | reflexivity | reflexivity].
Defined.
Lemma worldCached_to_sourceGone : rtc (step demoHost) worldCached worldSourceGone.
Proof. apply rtc_once, step_files. Qed.

Lemma memoized_configuration_is_permanent_witness :
  rtc (step demoHost) worldCached worldSourceGone
  /\ cachedTSConfigs worldCached !! NodePath.dirname "/p/b.ts" = Some None
  /\ loadAndValidateTsconfigForFile demoHost "/p/b.ts" worldSourceGone
     = (Returned None, worldSourceGone).
Proof.
  assert (Hmemo : cachedTSConfigs worldCached !! NodePath.dirname "/p/b.ts" = Some None)
    by (vm_compute; reflexivity).
  split; [exact worldCached_to_sourceGone|]. split; [exact Hmemo|].
  apply (memoized_configuration_is_permanent demoHost worldCached worldSourceGone "/p/b.ts"
           None worldCached_to_sourceGone Hmemo).
Defined.

Lemma registry_never_pruned_witness :
  rtc (step demoHost) worldCached worldSourceGone
  /\ cacheDir worldSourceGone = cacheDir worldCached
  /\ is_Some (sourceMaps worldSourceGone !! "/p/a.spec.ts").
Proof.
  destruct (registry_never_pruned demoHost worldCached worldSourceGone "/p/a.spec.ts"
              worldCached_to_sourceGone) as (Hdir & Hreg).
  split; [exact worldCached_to_sourceGone|]. split; [exact Hdir|].
  apply Hreg. vm_compute. eauto.
Defined.

Lemma computeKey_detects_single_change_witness :
  (forall a b : string, id a = id b -> a = b)
  /\ (computeKey id "" false "foo" "/b.ts" 6 = computeKey id "" false "bar" "/b.ts" 6
      -> "foo" = "bar").
Proof.
  assert (Hinj : forall a b : string, id a = id b -> a = b) by (intros a b H; exact H).
  split; [exact Hinj|].
  apply (computeKey_detects_single_change id "" "" false false "foo" "bar" "/b.ts" "/b.ts"
           6 6 Hinj).
Defined.

Lemma validateTsConfig_shape_witness :
  (singlePath <$> validateTsConfig demoHost libConfig)
    = Some [("lib/*", Some "./src/lib/*"); ("@app", Some "./src/app/index")]
  /\ exists d, validateTsConfig demoHost libConfig = Some d
       /\ map fst (singlePath d) = ["lib/*"; "@app"] /\ length (alias d) = 2%nat.
Proof.
  split; [vm_compute; reflexivity|].
  destruct (validateTsConfig demoHost libConfig) as [d|] eqn:Hvalid;
    [|vm_compute in Hvalid; discriminate].
  destruct (validateTsConfig_shape demoHost libConfig d Hvalid)
    as (tp & bu & p & _ & _ & _ & _ & Hp & _ & _ & Hkeys & Hlen & _).
  injection Hp as <-. exists d. split; [reflexivity|]. split; [exact Hkeys | exact Hlen].
Defined.

Lemma empty_target_list_resolver_throws_witness :
  (singlePath <$> validateTsConfig demoHost noTargetConfig)
    = Some [("lib/*", Some "./src/lib/*"); ("e", None)]
  /\ exists d resolver, validateTsConfig demoHost noTargetConfig = Some d
       /\ In ("^e", resolver) (alias d)
       /\ forall groups, resolver groups = Thrown TypeError.
Proof.
  split; [vm_compute; reflexivity|].
  destruct (validateTsConfig demoHost noTargetConfig) as [d|] eqn:Hvalid;
    [|vm_compute in Hvalid; discriminate].
  destruct (empty_target_list_resolver_throws demoHost noTargetConfig d
              [("lib/*", ["./src/lib/*"]); ("e", [])] "e" Hvalid eq_refl)
    as (_ & resolver & Hin & Hthrows); [right; left; reflexivity|].
  exists d, resolver. split; [reflexivity|]. split; [exact Hin | exact Hthrows].
Defined.

Lemma fingerprint_determines_configuration_witness :
  exists d, validateTsConfig demoHost libConfig = Some d
    /\ singlePath d = withTargets [("lib/*", "./src/lib/*"); ("@app", "./src/app/index")]
    /\ fingerprintOf (Some d) <> fingerprintOf None.
Proof.
  destruct (validateTsConfig demoHost libConfig) as [d|] eqn:Hvalid;
    [|vm_compute in Hvalid; discriminate].
  assert (Hsingle : singlePath d
            = withTargets [("lib/*", "./src/lib/*"); ("@app", "./src/app/index")]).
  { vm_compute in Hvalid. injection Hvalid as <-. reflexivity. }
  exists d. split; [reflexivity|]. split; [exact Hsingle|].
  apply (fingerprint_determines_configuration demoHost libConfig libConfig d d _ _
           Hvalid Hvalid Hsingle Hsingle eq_refl).
Defined.

Lemma aliasResolver_absolute_witness :
  NodePath.isAbsolute (processCwd demoHost) = true
  /\ aliasResolver demoHost "/repo/base" "lib/*" (Some "./src/../lib/*") ["lib/foo/../bar"]
     = Returned "/repo/base/lib/bar"
  /\ (exists segs, Forall cleanSegment segs /\ "/repo/base/lib/bar" = absolutePathOf segs)
  /\ exists d resolver segs,
       validateTsConfig demoHost libConfig = Some d
       /\ In ("^lib/.*", resolver) (alias d)
       /\ resolver ["lib/foo"] = Returned "/repo/base/src/lib/foo"
       /\ Forall cleanSegment segs /\ "/repo/base/src/lib/foo" = absolutePathOf segs.
Proof.
  assert (Hres : aliasResolver demoHost "/repo/base" "lib/*" (Some "./src/../lib/*")
                   ["lib/foo/../bar"] = Returned "/repo/base/lib/bar")
    by (vm_compute; reflexivity).
  destruct (validateTsConfig demoHost libConfig) as [d|] eqn:Hvalid;
    [|vm_compute in Hvalid; discriminate].
  assert (Hin : In ("^lib/.*", aliasResolver demoHost "/repo/base" "lib/*" (Some "./src/lib/*"))
                  (alias d)).
  { vm_compute in Hvalid. injection Hvalid as <-. left. reflexivity. }
  assert (Hres' : aliasResolver demoHost "/repo/base" "lib/*" (Some "./src/lib/*") ["lib/foo"]
                  = Returned "/repo/base/src/lib/foo") by (vm_compute; reflexivity).
  destruct (aliasResolver_absolute demoHost libConfig d "^lib/.*"
              (aliasResolver demoHost "/repo/base" "lib/*" (Some "./src/lib/*"))
              "/repo/base" "/elsewhere" "lib/*" (Some "./src/../lib/*") "opt"
              ["lib/foo/../bar"] ["lib/foo"] "/repo/base/lib/bar" "/repo/base/src/lib/foo"
              eq_refl Hres Hvalid Hin Hres') as (Hp & (segs & Hclean & Hp') & _).
  split; [reflexivity|]. split; [exact Hres|]. split; [exact Hp|].
  exists d, (aliasResolver demoHost "/repo/base" "lib/*" (Some "./src/lib/*")), segs.
  split; [reflexivity|]. split; [exact Hin|]. split; [exact Hres'|].
  split; [exact Hclean | exact Hp'].
Defined.

Lemma wrapper_passes_caller_location_witness :
  wrapFunctionWithLocation demoHost returnsLocation plainFrames tt world50
  = (Returned (StackLocation {| file := Some "/p/a.spec.ts"; line := Some 7;
                                column := Some 3 |}),
     with_stackTraceLimit 15 world50)
  /\ wrapFunctionWithLocation demoHost returnsLocation callerFrames tt world50
     = (Returned (StackLocation {| file := Some "/p/a.spec.ts"; line := Some 3;
                                   column := Some 1 |}),
        with_stackTraceLimit 15 world50).
Proof.
  destruct (wrapper_passes_caller_location demoHost returnsLocation
              (frameAt "/pw/transform.js" 197 10) (frameAt "/pw/transform.js" 197 10)
              (frameAt "/p/a.spec.ts" 7 3) (frameAt "file:///p/a.spec.ts" 3 1)
              [frameAt "/p/runner.js" 40 5] [] tt world50
              "/p/a.spec.ts" "file:///p/a.spec.ts" "/p/a.spec.ts"
              eq_refl eq_refl eq_refl eq_refl eq_refl) as (_ & Hplain & Hurl).
  split; [exact Hplain | exact Hurl].
Defined.

Lemma wrapper_capture_failure_leaves_globals_witness :
  fileURLToPath strictUrlHost "file:///p/a.spec.ts"
    = Thrown (HostError "ERR_INVALID_FILE_URL_HOST")
  /\ fst (wrapFunctionWithLocation strictUrlHost returnsLocation callerFrames tt world50)
     = Thrown (HostError "ERR_INVALID_FILE_URL_HOST")
  /\ prepareStackTrace
       (snd (wrapFunctionWithLocation strictUrlHost returnsLocation callerFrames tt world50))
     = Some LocationFormatter
  /\ stackTraceLimit
       (snd (wrapFunctionWithLocation strictUrlHost returnsLocation callerFrames tt world50))
     = 2.
Proof.
  destruct (wrapper_capture_failure_leaves_globals strictUrlHost returnsLocation
              returnsLocation (frameAt "/pw/transform.js" 197 10)
              (frameAt "file:///p/a.spec.ts" 3 1) [frameAt "/p/runner.js" 40 5] tt world50
              "file:///p/a.spec.ts" (HostError "ERR_INVALID_FILE_URL_HOST")
              eq_refl eq_refl eq_refl) as (Hres & Hp & Hl & _).
  split; [reflexivity|]. split; [exact Hres|]. split; [exact Hp | exact Hl].
Defined.

Lemma ambiguous_pattern_rejected_witness :
  isAmbiguousKey "./*" = true /\ validateTsConfig demoHost ambiguousConfig = None.
Proof.
  split; [reflexivity|].
  apply (ambiguous_pattern_rejected demoHost ambiguousConfig
           [("lib/*", ["./src/lib/*"]); ("./*", ["./x/*"])] "./*" eq_refl);
    [right; left; reflexivity | reflexivity].
Defined.

Lemma multiple_targets_rejected_witness :
  hasMultipleTargets [("lib/*", ["./src/lib/*"]); ("x", ["./a"; "./b"])] "x" = true
  /\ validateTsConfig demoHost twoTargetConfig = None.
Proof.
  split; [reflexivity|].
  apply (multiple_targets_rejected demoHost twoTargetConfig
           [("lib/*", ["./src/lib/*"]); ("x", ["./a"; "./b"])] "x" eq_refl);
    [reflexivity | discriminate].
Defined.

Lemma base_directory_is_normalized_witness :
  NodePath.isAbsolute (processCwd demoHost) = true
  /\ exists d segs, validateTsConfig demoHost libConfig = Some d
       /\ Forall cleanSegment segs /\ absoluteBaseUrl d = absolutePathOf segs.
Proof.
  split; [reflexivity|].
  destruct (validateTsConfig demoHost libConfig) as [d|] eqn:Hvalid;
    [|vm_compute in Hvalid; discriminate].
  destruct (base_directory_is_normalized demoHost libConfig d eq_refl Hvalid)
    as (segs & Hclean & Hbase).
  exists d, segs. split; [reflexivity|]. split; [exact Hclean | exact Hbase].
Defined.
(** ** The cache root *)

Lemma absolutePathOf_snoc (segs : list string) (a : string) :
  segs <> [] -> absolutePathOf (segs ++ [a]) = absolutePathOf segs +:+ "/" +:+ a.
Proof.
  intros Hne. unfold absolutePathOf.
  rewrite (concat_app segs [a]) by (assumption || discriminate).
  rewrite append_assoc. reflexivity.
Qed.

(** [path.join(base, a)] for a normalized absolute [base] and a segment
    that needs no normalization. *)
Lemma join2_under_absolute (segs : list string) (a : string) :
  segs <> [] -> Forall cleanSegment segs -> cleanSegment a ->
  NodePath.join [absolutePathOf segs; a] = absolutePathOf (segs ++ [a]).
Proof.
  intros Hne Hall Ha. unfold NodePath.join.
  rewrite (filter_cons_True _ (absolutePathOf segs)) by reflexivity.
  rewrite (filter_cons_True _ a) by (apply truthy_nonempty, Ha).
  rewrite filter_nil.
  change (String.concat "/" [absolutePathOf segs; a])
    with (absolutePathOf segs +:+ String NodePath.slash a).
  set (path := absolutePathOf segs +:+ String NodePath.slash a).
  unfold NodePath.normalize.
  assert (Hlen : (Js.len path =? 0)%nat = false) by reflexivity.
  assert (Habs : NodePath.isAbsolute path = true) by reflexivity.
  assert (Htrail : Js.isCharAt path (Z.of_nat (Js.len path) - 1) NodePath.slash = false).
  { subst path.
    replace (absolutePathOf segs +:+ String NodePath.slash a)
      with ((absolutePathOf segs +:+ "/") +:+ a)
      by (rewrite append_assoc; reflexivity).
    apply isCharAt_last_noSlash; apply Ha. }
  rewrite Hlen, Habs, Htrail. cbn [negb].
  assert (Hnorm : NodePath.normalizeString path false = String.concat "/" (segs ++ [a])).
  { unfold NodePath.normalizeString. subst path.
    rewrite split_append_slash, (split_absolutePathOf segs Hne Hall).
    rewrite (split_noSlash a) by apply Ha.
    change (("" :: segs) ++ [a]) with ("" :: (segs ++ [a])).
    cbn [fold_left]. rewrite normStep_empty.
    rewrite (fold_normStep_clean false (segs ++ [a]) []), app_nil_r, rev_involutive
      by (apply Forall_app; split; [exact Hall | repeat (constructor; [assumption|]); constructor]).
    reflexivity. }
  rewrite Hnorm.
  destruct (String.concat "/" (segs ++ [a])) as [|c0 s0] eqn:Hp.
  - rewrite (concat_app segs [a]) in Hp by (assumption || discriminate).
    destruct (String.concat "/" segs); discriminate Hp.
  - cbn [Js.len String.length Nat.eqb]. unfold absolutePathOf. rewrite Hp. reflexivity.
Qed.

Lemma calculateCachePath_under_absolute (segs : list string)
    (env : gmap string string) td content filePath :
  segs <> [] -> Forall cleanSegment segs ->
  calculateCachePath (absolutePathOf segs) env td content filePath
  = absolutePathOf segs +:+ "/"
    +:+ Js.take 2 (computeKey Sha1.digest_hex (fingerprintOf td)
                     (Js.truthy_opt (env !! "PW_EXPERIMENTAL_TS_ESM"))
                     content filePath version)
    +:+ "/"
    +:+ Js.stripNonWord (NodePath.basename filePath (NodePath.extname filePath))
    +:+ "_"
    +:+ computeKey Sha1.digest_hex (fingerprintOf td)
          (Js.truthy_opt (env !! "PW_EXPERIMENTAL_TS_ESM")) content filePath version.
Proof.
  intros Hne Hall. unfold calculateCachePath.
  set (key := computeKey Sha1.digest_hex _ _ _ _ _).
  assert (Hlen : Js.len key = 40%nat) by apply digest_hex_len.
  assert (Hword : Js.all Js.isWordChar key = true)
    by (eapply all_impl; [apply isHexChar_isWordChar | apply digest_hex_hex]).
  rewrite charStr_take2 by lia.
  apply join_under_absolute; try assumption.
  - apply word_cleanSegment; [apply all_take, Hword | apply take2_len; lia].
  - apply word_cleanSegment.
    + rewrite !all_append, stripNonWord_word, Hword. reflexivity.
    + destruct (Js.stripNonWord _); discriminate.
Qed.

Section CacheRoot.
Context (host : Host).

(** X20: the cache root is fixed when the module is loaded: a non-empty
    [PWTEST_CACHE_DIR] is taken as it is; without it, or with an empty
    one, the root is the directory "playwright-transform-cache" of the
    temp directory, and an artifact path is then
    <tmpdir>/playwright-transform-cache/<first two characters of the
    key>/<sanitized stem>_<key>. *)
Theorem loadModule_cache_root (w0 w0' : World) (segs : list string) (override : string)
    (env1 : gmap string string) td content filePath :
  tmpdir host = absolutePathOf segs ->
  segs <> [] ->
  Forall cleanSegment segs ->
  env w0 !! "PWTEST_CACHE_DIR" = Some override ->
  override <> "" ->
  env w0' !! "PWTEST_CACHE_DIR" = None \/ env w0' !! "PWTEST_CACHE_DIR" = Some "" ->
  cacheDir (loadModule host w0) = override
  /\ cacheDir (loadModule host w0') = tmpdir host +:+ "/playwright-transform-cache"
  /\ calculateCachePath (cacheDir (loadModule host w0')) env1 td content filePath
     = tmpdir host +:+ "/playwright-transform-cache" +:+ "/"
       +:+ Js.take 2 (computeKey Sha1.digest_hex (fingerprintOf td)
                        (Js.truthy_opt (env1 !! "PW_EXPERIMENTAL_TS_ESM"))
                        content filePath version)
       +:+ "/"
       +:+ Js.stripNonWord (NodePath.basename filePath (NodePath.extname filePath))
       +:+ "_"
       +:+ computeKey Sha1.digest_hex (fingerprintOf td)
             (Js.truthy_opt (env1 !! "PW_EXPERIMENTAL_TS_ESM")) content filePath version.
Proof.
  intros Htmp Hne Hall Hover Hnonempty Hnone.
  assert (Hname : cleanSegment "playwright-transform-cache")
    by (repeat split; discriminate).
  assert (Hdefault : cacheDir (loadModule host w0')
                     = absolutePathOf (segs ++ ["playwright-transform-cache"])).
  { cbn [cacheDir loadModule]. rewrite Htmp.
    destruct Hnone as [-> | ->]; cbn [Js.truthy];
      apply join2_under_absolute; assumption. }
  split.
  - cbn [cacheDir loadModule]. rewrite Hover, (truthy_nonempty override Hnonempty).
    reflexivity.
  - split.
    + rewrite Hdefault, Htmp. apply absolutePathOf_snoc, Hne.
    + rewrite Hdefault, Htmp.
      rewrite calculateCachePath_under_absolute;
        [| destruct segs; discriminate
         | apply Forall_app; split; [exact Hall | constructor; [exact Hname | constructor]]].
      rewrite (absolutePathOf_snoc segs _ Hne), !append_assoc. reflexivity.
Qed.

End CacheRoot.

Lemma loadModule_cache_root_witness :
  cacheDir (loadModule demoHost (freshWorld {[ "PWTEST_CACHE_DIR" := "/var/cache/pw" ]} ∅ 10))
    = "/var/cache/pw"
  /\ cacheDir (loadModule demoHost (freshWorld {[ "PWTEST_CACHE_DIR" := "" ]} ∅ 10))
     = "/tmp/playwright-transform-cache".
Proof.
  assert (Hclean : Forall cleanSegment ["tmp"]) by (repeat constructor; discriminate).
  destruct (loadModule_cache_root demoHost
              (freshWorld {[ "PWTEST_CACHE_DIR" := "/var/cache/pw" ]} ∅ 10)
              (freshWorld {[ "PWTEST_CACHE_DIR" := "" ]} ∅ 10)
              ["tmp"] "/var/cache/pw" ∅ None specSource "/p/a.spec.ts"
              eq_refl ltac:(discriminate) Hclean)
    as (Hover & Hdefault & _);
    [vm_compute; reflexivity | discriminate | right; vm_compute; reflexivity |].
  split; [exact Hover | exact Hdefault].
Defined.

(** * The orchestrator, the memo table and the stack-depth limit *)

(** ** The component stub and the path of every other file *)

Section ComponentStub.
Context (host : Host).

(** C4: in component-testing mode [transformHook] answers a [.tsx] or
    [.jsx] file that is not a spec or test file with the proxy stub of
    lines 232-234, character for character, and leaves the whole state as
    it was: nothing is read from or written to the file system, no
    configuration is resolved and no key is computed (the log of calls
    does not grow).  A file ending in [spec.tsx] or [test.tsx] takes the
    path of lines 126-189: the configuration of its directory is looked
    up in the memo table and, if it is not there, discovered, validated
    and memoized (an exception of the discovery routine leaves
    [transformHook]); the key is computed and the map path registered;
    unless the override is set, the code file is looked for and, if
    there, its content returned; otherwise Babel is called, with the JSX
    plugin first, and its code, if not empty, stored and returned. *)
Theorem C4_component_stub_short_circuit source (f g : string) isModule (w : World) :
  Js.truthy_opt (env w !! "PW_COMPONENT_TESTING") = true ->
  (Js.endsWith f ".tsx" = true /\ Js.endsWith f "spec.tsx" = false
     /\ Js.endsWith f "test.tsx" = false)
  \/ (Js.endsWith f ".jsx" = true /\ Js.endsWith f "spec.jsx" = false
     /\ Js.endsWith f "test.jsx" = false) ->
  Js.endsWith g "spec.tsx" = true \/ Js.endsWith g "test.tsx" = true ->
  transformHook host source f isModule w
    = (Returned "module.exports = new Proxy({}, {
    get: (obj, prop) => prop
  });", w)
  /\ transformHook host source g isModule w =
     match
       match cachedTSConfigs w !! NodePath.dirname g with
       | Some memo => (Returned memo, w)
       | None =>
           match tsConfigLoader host (env w) (files w) (NodePath.dirname g) with
           | Returned loaded =>
               (Returned (validateTsConfig host loaded),
                with_cachedTSConfigs
                  (insert (NodePath.dirname g) (validateTsConfig host loaded))
                  (log (EvDiscover (NodePath.dirname g)) w))
           | Thrown e => (Thrown e, log (EvDiscover (NodePath.dirname g)) w)
           end
       end
     with
     | (Thrown e, w1) => (Thrown e, w1)
     | (Returned td, w1) =>
        let cachePath := calculateCachePath (cacheDir w) (env w) td source g in
        let w2 :=
          with_sourceMaps (insert g (cachePath +:+ ".map"))
            (log (EvRegister g (cachePath +:+ ".map")) (log (EvDigest cachePath) w1)) in
        let options :=
          {| presets := ["@babel/preset-typescript"];
             plugins :=
               PluginPath "@babel/plugin-transform-react-jsx"
               :: [PluginPath "@babel/plugin-proposal-class-properties";
                   PluginPath "@babel/plugin-proposal-numeric-separator";
                   PluginPath "@babel/plugin-proposal-logical-assignment-operators";
                   PluginPath "@babel/plugin-proposal-nullish-coalescing-operator";
                   PluginPath "@babel/plugin-proposal-optional-chaining";
                   PluginPath "@babel/plugin-syntax-json-strings";
                   PluginPath "@babel/plugin-syntax-optional-catch-binding";
                   PluginPath "@babel/plugin-syntax-async-generators";
                   PluginPath "@babel/plugin-syntax-object-rest-spread";
                   PluginPath "@babel/plugin-proposal-export-namespace-from"]
               ++ match td with
                  | Some d => [ModuleResolver ["./"] (alias d) "silent"]
                  | None => []
                  end
               ++ (if isModule then []
                   else [PluginPath "@babel/plugin-transform-modules-commonjs";
                         PluginPath "@babel/plugin-proposal-dynamic-import"]) |} in
        let transformed (w3 : World) :=
          let w4 := log (EvEngine g options)
                      (with_env (insert "BROWSERSLIST_IGNORE_OLD_DATA" "true") w3) in
          match transformFileSync host (files w)
                  (<["BROWSERSLIST_IGNORE_OLD_DATA" := "true"]> (env w)) g options with
          | Thrown e => (Thrown e, w4)
          | Returned result =>
              match code result with
              | Some (String c0 c) =>
                  (Returned (String c0 c),
                   with_files (insert (cachePath +:+ ".js") (String c0 c))
                     (log (EvWrite (cachePath +:+ ".js"))
                        (match map_ result with
                         | Some m =>
                             with_files (insert (cachePath +:+ ".map") m)
                               (log (EvWrite (cachePath +:+ ".map"))
                                  (log (EvMkdir (NodePath.dirname cachePath)) w4))
                         | None => log (EvMkdir (NodePath.dirname cachePath)) w4
                         end)))
              | _ => (Returned "", w4)
              end
          end in
        if Js.truthy_opt (env w !! "PW_IGNORE_COMPILE_CACHE") then transformed w2
        else match files w !! (cachePath +:+ ".js") with
             | Some stored =>
                 (Returned stored,
                  log (EvRead (cachePath +:+ ".js"))
                    (log (EvExists (cachePath +:+ ".js")) w2))
             | None => transformed (log (EvExists (cachePath +:+ ".js")) w2)
             end
     end.
Proof.
  intros Hmode Hf Hg.
  pose proof (isComponentImport_spec_false (env w) g Hg) as Hstub.
  split.
  { rewrite transformHook_eq, (isComponentImport_component_true (env w) f Hmode Hf).
    reflexivity. }
  rewrite <- (loadAndValidateTsconfigForFile_eq host g w).
  destruct (loadAndValidateTsconfigForFile host g w) as [[td|e] w1] eqn:Hload.
  2: { rewrite transformHook_eq, Hstub. apply transformAndCache_throws, Hload. }
  cbn zeta.
  rewrite (transformHook_probe_eq host source g isModule w td w1 Hstub Hload). cbn zeta.
  destruct (loadAndValidateTsconfigForFile_frame host g w td w1 Hload)
    as (He & Hfs & _).
  set (cachePath := calculateCachePath (cacheDir w) (env w) td source g).
  assert (Hopts : babelOptions td (env w) isModule
    = {| presets := ["@babel/preset-typescript"];
         plugins :=
           PluginPath "@babel/plugin-transform-react-jsx"
           :: [PluginPath "@babel/plugin-proposal-class-properties";
               PluginPath "@babel/plugin-proposal-numeric-separator";
               PluginPath "@babel/plugin-proposal-logical-assignment-operators";
               PluginPath "@babel/plugin-proposal-nullish-coalescing-operator";
               PluginPath "@babel/plugin-proposal-optional-chaining";
               PluginPath "@babel/plugin-syntax-json-strings";
               PluginPath "@babel/plugin-syntax-optional-catch-binding";
               PluginPath "@babel/plugin-syntax-async-generators";
               PluginPath "@babel/plugin-syntax-object-rest-spread";
               PluginPath "@babel/plugin-proposal-export-namespace-from"]
           ++ match td with
              | Some d => [ModuleResolver ["./"] (alias d) "silent"]
              | None => []
              end
           ++ (if isModule then []
               else [PluginPath "@babel/plugin-transform-modules-commonjs";
                     PluginPath "@babel/plugin-proposal-dynamic-import"]) |}).
  { unfold babelOptions. rewrite Hmode. destruct td, isModule; reflexivity. }
  rewrite probeCache_eq. cbn [env files with_sourceMaps log]. rewrite He, Hfs.
  destruct (Js.truthy_opt (env w !! "PW_IGNORE_COMPILE_CACHE")).
  - rewrite transformAndPersist_eq. cbn zeta. cbn [env files with_sourceMaps log].
    rewrite He, Hfs, Hopts. reflexivity.
  - destruct (files w !! (cachePath +:+ ".js")) as [stored|]; [reflexivity|].
    rewrite transformAndPersist_eq. cbn zeta. cbn [env files with_sourceMaps log].
    rewrite He, Hfs, Hopts. reflexivity.
Qed.



End ComponentStub.

(** ** The stack-depth limit *)

Section StackLimit.
Context (host : Host) {A R : Type}.
Implicit Types (func : StackValue -> A -> M R) (frames : list CallSite) (w : World).

(** C10 (amended): loading the module sets [Error.stackTraceLimit] to the
    constant 15 whatever it was.  A call of a wrapped function whose
    capture returns runs [func] with the limit at 15, whatever it was
    before the call, and so leaves it at 15 when [func] does not assign
    it.  A call whose capture throws (there is no caller frame, or
    [url.fileURLToPath] rejects the caller's url) does not reach line 214:
    it leaves the limit at 2 and the wrapper's formatter installed. *)
Theorem C10_stack_limit_left_at_15 func frames args (w0 w : World) :
  kStackTraceLimit = 15
  /\ stackTraceLimit (loadModule host w0) = 15
  /\ (forall loc,
        locationFormatter host w (take 2 frames) = Returned loc ->
        wrapFunctionWithLocation host func frames args w
          = func loc args (with_stackTraceLimit 15 w)
        /\ (leavesErrorGlobals func ->
            stackTraceLimit (snd (wrapFunctionWithLocation host func frames args w)) = 15))
  /\ (forall e,
        locationFormatter host w (take 2 frames) = Thrown e ->
        wrapFunctionWithLocation host func frames args w
          = (Thrown e,
             with_stackTraceLimit 2 (with_prepareStackTrace (Some LocationFormatter) w))
        /\ stackTraceLimit (snd (wrapFunctionWithLocation host func frames args w)) = 2)
  /\ ((length frames < 2)%nat ->
      locationFormatter host w (take 2 frames) = Thrown TypeError).
Proof.
  do 2 (split; [reflexivity|]). split; [|split].
  - intros loc Hcap.
    split; [rewrite wrapFunctionWithLocation_eq, Hcap; reflexivity|].
    intros Hfunc. apply (wrapper_exit_globals host func frames args w loc Hcap Hfunc).
  - intros e Hcap.
    rewrite (wrapFunctionWithLocation_capture_throws host func frames args w e Hcap).
    split; reflexivity.
  - intros Hlen. unfold locationFormatter.
    destruct frames as [|f0 [|f1 rest]]; cbn in Hlen; try lia; reflexivity.
Qed.

End StackLimit.

(** ** The revised statements on sample processes *)

(** C4 on [button.tsx] and [button.spec.tsx] in component-testing mode. *)
Lemma C4_witness :
  Js.truthy_opt (env worldComponents !! "PW_COMPONENT_TESTING") = true
  /\ transformHook demoHost "export {}" "/p/button.tsx" false worldComponents
     = (Returned "module.exports = new Proxy({}, {
    get: (obj, prop) => prop
  });", worldComponents)
  /\ fst (transformHook demoHost "export {}" "/p/button.spec.tsx" false worldComponents)
     = Returned "/*js*/export {}".
Proof.
  assert (Hmode : Js.truthy_opt (env worldComponents !! "PW_COMPONENT_TESTING") = true)
    by (vm_compute; reflexivity).
  destruct (C4_component_stub_short_circuit demoHost "export {}"
              "/p/button.tsx" "/p/button.spec.tsx" false worldComponents Hmode)
    as (Hstub & Hnormal).
  - left. vm_compute. repeat split.
  - left. vm_compute. reflexivity.
  - split; [exact Hmode|]. split; [exact Hstub|].
    rewrite Hnormal. vm_compute. reflexivity.
Defined.





(** C10, refuted as stated: a call on a stack without a caller frame, and
    a call whose caller has a url that [url.fileURLToPath] rejects, leave
    the limit at 2; a wrapped function that assigns the limit leaves its
    own value. *)
Lemma C10_counterexample :
  wrapFunctionWithLocation demoHost returnsLocation [frameAt "/pw/transform.js" 197 10] tt
    world50
  = (Thrown TypeError,
     with_stackTraceLimit 2 (with_prepareStackTrace (Some LocationFormatter) world50))
  /\ stackTraceLimit
       (snd (wrapFunctionWithLocation demoHost returnsLocation
               [frameAt "/pw/transform.js" 197 10] tt world50)) = 2
  /\ stackTraceLimit
       (snd (wrapFunctionWithLocation strictUrlHost returnsLocation callerFrames tt world50))
     = 2
  /\ stackTraceLimit
       (snd (wrapFunctionWithLocation demoHost raisesLimit callerFrames tt world50)) = 100.
Proof. vm_compute. repeat split. Qed.

(** The amended C10 on a process whose limit was 10 before the load and 50
    before the call. *)
Lemma C10_witness :
  stackTraceLimit (freshWorld ∅ ∅ 10) = 10
  /\ stackTraceLimit (loadModule demoHost (freshWorld ∅ ∅ 10)) = 15
  /\ stackTraceLimit world50 = 50
  /\ leavesErrorGlobals returnsLocation
  /\ stackTraceLimit
       (snd (wrapFunctionWithLocation demoHost returnsLocation callerFrames tt world50)) = 15.
Proof.
  assert (Hcap : locationFormatter demoHost world50 (take 2 callerFrames)
    = Returned (StackLocation {| file := Some "/p/a.spec.ts"; line := Some 3; column := Some 1 |}))
    by (vm_compute; reflexivity).
  assert (Hfunc : leavesErrorGlobals returnsLocation) by (intros ? ? ?; split; reflexivity).
  destruct (C10_stack_limit_left_at_15 demoHost returnsLocation callerFrames tt
              (freshWorld ∅ ∅ 10) world50) as (_ & Hload & Hret & _).
  destruct (Hret _ Hcap) as (_ & Hl).
  split; [reflexivity|]. split; [exact Hload|]. split; [reflexivity|].
  split; [exact Hfunc | exact (Hl Hfunc)].
Defined.
